(** * Soil Snapshot dashboard: model acquisition and inference-result pipeline

    A shallow embedding of [src/pages/Dashboard.tsx] (the variant with the
    synthetic fallback) and of its stricter sibling variant, together with
    the properties of the acquisition / analysis pipeline.

    Conventions of the embedding.

    - A JavaScript [number] is a rational or one of the three special
      values [Infinity], [-Infinity], [NaN].  The results of [+], [*] and
      [/] are rounded as IEEE 754 binary64 does (to the nearest number with
      53 significant bits, ties to even, subnormal numbers below [2^-1022],
      overflow to an infinity); a decimal literal of the source stands for
      the binary64 number nearest to it.  Zero has no sign.
    - [Math.random()] is an injected source: the [k]-th call of the session
      returns [random env k].
    - A React component is its state record plus the scope captured by the
      memoised [analyzeImage] callback; an [async] function is cut at its
      [await]s and the pieces are interleaved by a schedule of events. *)

From Stdlib Require Import QArith Qround Qabs Qpower ZArith List String Bool Lia Lqa.
From Stdlib Require Import DecimalString.
Import ListNotations.
Open Scope string_scope.

(** ** JavaScript values *)

Module JS.

Local Open Scope Q_scope.

Inductive number : Type :=
| Fin (q : Q)
| PosInf
| NegInf
| NaN.

(** *** The binary64 format *)

Definition pow2 (e : Z) : Q := 2 ^ e.

(** The integer part of the binary logarithm of a positive [q]:
    [2^k <= q < 2^(k+1)]. *)
Definition ilog2 (q : Q) : Z :=
  let k := (Z.log2 (Qnum q) - Z.log2 (Zpos (Qden q)))%Z in
  if Qle_bool (pow2 k) q then k else (k - 1)%Z.

(** The exponent of the unit in the last place around [q]: 53 significant
    bits, and [2^-1074] throughout the subnormal range. *)
Definition ulp_exponent (q : Q) : Z := Z.max (ilog2 (Qabs q) - 52) (-1074).

(** The integer nearest to [x], the even one of the two on a tie. *)
Definition nearest_even (x : Q) : Z :=
  let f := Qfloor x in
  match Qcompare (x - inject_Z f) (1 # 2) with
  | Lt => f
  | Gt => (f + 1)%Z
  | Eq => if Z.even f then f else (f + 1)%Z
  end.

(** The nearest number with 53 significant bits, before the overflow
    test. *)
Definition nearest64 (q : Q) : Q :=
  let e := ulp_exponent q in
  inject_Z (nearest_even (q / pow2 e)) * pow2 e.

(** The binary64 number that the exact result [q] of an operation is
    rounded to. *)
Definition round64 (q : Q) : number :=
  let r := nearest64 q in
  if Qle_bool (pow2 1024) (Qabs r)
  then (if Qle_bool 0 q then PosInf else NegInf)
  else Fin (Qred r).

(** [q] is a binary64 number (up to the range). *)
Definition is_double (q : Q) : Prop := nearest64 q == q.

(** A decimal literal of the source, such as [0.3]. *)
Definition literal (q : Q) : number := round64 q.

(** A length or an index of an array: these are integers below [2^32],
    all of which are binary64 numbers. *)
Definition of_nat (n : nat) : number := Fin (inject_Z (Z.of_nat n)).

(** [a + b] *)
Definition add (a b : number) : number :=
  match a, b with
  | NaN, _ | _, NaN => NaN
  | PosInf, NegInf | NegInf, PosInf => NaN
  | PosInf, _ | _, PosInf => PosInf
  | NegInf, _ | _, NegInf => NegInf
  | Fin x, Fin y => round64 (x + y)
  end.

Definition scale_inf (positive : bool) (q : Q) : number :=
  match q ?= 0 with
  | Eq => NaN
  | Gt => if positive then PosInf else NegInf
  | Lt => if positive then NegInf else PosInf
  end.

(** [a * b] *)
Definition mul (a b : number) : number :=
  match a, b with
  | NaN, _ | _, NaN => NaN
  | Fin x, Fin y => round64 (x * y)
  | PosInf, Fin q | Fin q, PosInf => scale_inf true q
  | NegInf, Fin q | Fin q, NegInf => scale_inf false q
  | PosInf, PosInf | NegInf, NegInf => PosInf
  | PosInf, NegInf | NegInf, PosInf => NegInf
  end.

(** [a / b]: a finite value divided by zero is an infinity of its sign,
    and [0 / 0] is [NaN]. *)
Definition div (a b : number) : number :=
  match a, b with
  | NaN, _ | _, NaN => NaN
  | Fin x, Fin y =>
      match y ?= 0 with
      | Eq => match x ?= 0 with
              | Eq => NaN
              | Gt => PosInf
              | Lt => NegInf
              end
      | _ => round64 (x / y)
      end
  | Fin _, (PosInf | NegInf) => Fin 0
  | PosInf, Fin y => match y ?= 0 with Lt => NegInf | _ => PosInf end
  | NegInf, Fin y => match y ?= 0 with Lt => PosInf | _ => NegInf end
  | (PosInf | NegInf), (PosInf | NegInf) => NaN
  end.

(** [a > b]: false as soon as one side is [NaN]. *)
Definition gt (a b : number) : bool :=
  match a, b with
  | NaN, _ | _, NaN => false
  | Fin x, Fin y => match x ?= y with Gt => true | _ => false end
  | PosInf, PosInf => false
  | PosInf, _ => true
  | _, PosInf => false
  | NegInf, _ => false
  | Fin _, NegInf => true
  end.

(** [a === b] on numbers. *)
Definition strict_eq (a b : number) : bool :=
  match a, b with
  | Fin x, Fin y => Qeq_bool x y
  | PosInf, PosInf | NegInf, NegInf => true
  | _, _ => false
  end.

(** [Math.floor(a)] *)
Definition floor (a : number) : number :=
  match a with
  | Fin q => Fin (inject_Z (Qfloor q))
  | other => other
  end.

(** Truthiness of a [string | null] value: [null] and the empty string are
    falsy. *)
Definition truthy (s : option string) : bool :=
  match s with
  | Some str => negb (String.eqb str EmptyString)
  | None => false
  end.

(** [a || b] on strings that may be absent. *)
Definition or_else (a : option string) (b : string) : string :=
  match a with
  | Some str => if String.eqb str EmptyString then b else str
  | None => b
  end.

Definition finite (a : number) : Prop := exists q, a = Fin q.

(** Numeric order on values that are not [NaN], as a proposition. *)
Definition le (a b : number) : Prop :=
  match a, b with
  | NaN, _ | _, NaN => False
  | NegInf, _ => True
  | _, PosInf => True
  | Fin x, Fin y => (x <= y)%Q
  | _, _ => False
  end.

Definition lt (a b : number) : Prop :=
  match a, b with
  | NaN, _ | _, NaN => False
  | PosInf, _ => False
  | _, NegInf => False
  | Fin x, Fin y => (x < y)%Q
  | _, _ => True
  end.

End JS.

(** ** Predictions and the top prediction *)

Record Prediction : Type := {
  className : string;
  probability : JS.number
}.

(** The reducer of [topPrediction]:
    [(prev, current) => (prev.probability > current.probability) ? prev : current]. *)
Definition pick (prev current : Prediction) : Prediction :=
  if JS.gt (probability prev) (probability current) then prev else current.

(** [predictions.length > 0 ? predictions.reduce(pick) : null]; a [reduce]
    without initial value starts from the first element. *)
Definition topPrediction (predictions : list Prediction) : option Prediction :=
  match predictions with
  | [] => None
  | first :: rest => Some (fold_left pick rest first)
  end.

(** ** Collaborators: exceptions, the image element, metadata, the classifier *)

Inductive result (A : Type) : Type :=
| Ok (a : A)
| Throw (error : string).
Arguments Ok {A} a.
Arguments Throw {A} error.

(** The [<img>] element behind [imageRef]. *)
Record HTMLImageElement : Type := { src : string }.

(** The value of the [labels] property of the metadata document, as far as
    the component tells values apart.  The document is parsed JSON that
    nothing validates (the state cell has type [any]). *)
Inductive LabelsValue : Type :=
| NoLabels                            (* absent or falsy: [undefined], [null], [false], [0], [""] *)
| LabelArray (entries : list string)  (* an array *)
| NotAnArray.                         (* another truthy value (a non-empty string, a number,
                                         [true], an object): it has no [forEach] *)

(** The fields of the metadata document that the component reads. *)
Record Metadata : Type := {
  modelName : option string;
  labels : LabelsValue
}.

(** What [response.json()] resolves to: [null] or an object.  A document
    that is a number, a string, a boolean or an array has neither field and
    behaves as the object without them. *)
Inductive json : Type :=
| JNull
| JObject (fields : Metadata).

(** [tmImage.CustomMobileNet].  [oid] is the identity of the object; the
    first argument of [predict] is the number of inference calls made
    before this one in the session, so that a classifier whose answers
    change from call to call can be described. *)
Record CustomMobileNet : Type := {
  oid : nat;
  predict : nat -> HTMLImageElement -> result (list Prediction)
}.

Definition deterministic (m : CustomMobileNet) : Prop :=
  forall (i j : nat) (img : HTMLImageElement), predict m i img = predict m j img.

(** A response of [fetch]; [body] is what [response.json()] settles to: the
    parsed document, or an exception when the body is not JSON. *)
Record Response : Type := MkResponse {
  ok : bool;
  status : nat;
  statusText : string;
  body : result json
}.

(** How [await fetch(url)] settles: it rejects on a network error and
    resolves with a response otherwise, whatever the status. *)
Inductive fetch_outcome : Type :=
| NetworkError (error : string)
| Resolved (response : Response).

(** How [await tmImage.load(...)] settles. *)
Inductive load_outcome : Type :=
| LoadRejected (error : string)
| LoadResolved (loadedModel : CustomMobileNet).

Record Toast : Type := {
  title : string;
  description : string;
  variant : option string
}.

(** Observable calls made by the component, in order. *)
Inductive effect : Type :=
| ShowToast (t : Toast)
| ConsoleError (message : string)
| Fetch (url : string)
| LoadModel (fromWindow : bool)
| CallPredict (img : HTMLImageElement)
| CallGenerateMock
| MathRandom (k : nat)
| Sleep (ms : nat)
| SetTimeout (ms : nat).

(** The environment of one page session. *)
Record Env : Type := {
  (** [window.tmImage]: absent, or how its [load] settles *)
  window_tmImage : option load_outcome;
  (** how [load] of the bundled package settles *)
  package_load : load_outcome;
  (** how the [k]-th request for [/assets/metadata.json] settles *)
  metadata_fetch : nat -> fetch_outcome;
  (** the value returned by the [k]-th call of [Math.random()] *)
  random : nat -> Q
}.

(** [Math.random()] returns a number in [0, 1). *)
Definition random_in_range (env : Env) : Prop :=
  forall k : nat, (0 <= random env k /\ random env k < 1)%Q.

(** ** A small monad for handlers: state, effect log, exceptions *)

Record World (St : Type) : Type := {
  state : St;
  effects : list effect;
  draws : nat;
  inferences : nat
}.
Arguments state {St} w.
Arguments effects {St} w.
Arguments draws {St} w.
Arguments inferences {St} w.

Definition M (St A : Type) : Type := World St -> result A * World St.

Definition ret {St A : Type} (a : A) : M St A := fun w => (Ok a, w).

Definition bind {St A B : Type} (c : M St A) (k : A -> M St B) : M St B :=
  fun w =>
    match c w with
    | (Ok a, w') => k a w'
    | (Throw e, w') => (Throw e, w')
    end.

Declare Scope handler_scope.
Delimit Scope handler_scope with handler.
Notation "x <- c ;; k" := (bind c (fun x => k))
  (at level 61, c at next level, right associativity) : handler_scope.
Notation "c ;; k" := (bind c (fun _ => k))
  (at level 61, right associativity) : handler_scope.
Open Scope handler_scope.

Definition throw {St A : Type} (e : string) : M St A := fun w => (Throw e, w).

(** [try { body } catch (error) { handler }] *)
Definition try_catch {St A : Type} (body : M St A) (handler : string -> M St A) : M St A :=
  fun w =>
    match body w with
    | (Ok a, w') => (Ok a, w')
    | (Throw e, w') => handler e w'
    end.

(** [try { body } finally { cleanup }] *)
Definition try_finally {St A : Type} (body : M St A) (cleanup : M St unit) : M St A :=
  fun w =>
    match body w with
    | (r, w') =>
        match cleanup w' with
        | (Ok _, w'') => (r, w'')
        | (Throw e, w'') => (Throw e, w'')
        end
    end.

Definition emit {St : Type} (e : effect) : M St unit :=
  fun w => (Ok tt, {| state := state w; effects := (effects w ++ [e])%list;
                      draws := draws w; inferences := inferences w |}).

Definition update {St : Type} (f : St -> St) : M St unit :=
  fun w => (Ok tt, {| state := f (state w); effects := effects w;
                      draws := draws w; inferences := inferences w |}).

Definition toast {St : Type} (t : Toast) : M St unit := emit (ShowToast t).
Definition console_error {St : Type} (message : string) : M St unit :=
  emit (ConsoleError message).
Definition sleep {St : Type} (ms : nat) : M St unit := emit (Sleep ms).

(** [Math.random()] *)
Definition Math_random {St : Type} (env : Env) : M St JS.number :=
  fun w => (Ok (JS.Fin (random env (draws w))),
            {| state := state w; effects := (effects w ++ [MathRandom (draws w)])%list;
               draws := S (draws w); inferences := inferences w |}).

(** [await model.predict(img)] *)
Definition call_predict {St : Type} (m : CustomMobileNet) (img : HTMLImageElement)
  : M St (list Prediction) :=
  fun w => (predict m (inferences w) img,
            {| state := state w; effects := (effects w ++ [CallPredict img])%list;
               draws := draws w; inferences := S (inferences w) |}).

(** [await fetch(url)] *)
Definition await_fetch {St : Type} (r : fetch_outcome) : M St Response :=
  match r with
  | NetworkError e => throw e
  | Resolved response => ret response
  end.

(** [await response.json()] *)
Definition await_json {St : Type} (response : Response) : M St json :=
  match body response with
  | Throw e => throw e
  | Ok parsed => ret parsed
  end.

Definition settle_load {St : Type} (r : load_outcome) : M St CustomMobileNet :=
  match r with
  | LoadRejected e => throw e
  | LoadResolved m => ret m
  end.

(** [metadataJson.modelName]: reading a property of [null] is a TypeError. *)
Definition get_modelName {St : Type} (metadataJson : json) : M St (option string) :=
  match metadataJson with
  | JNull => throw "TypeError: Cannot read properties of null"
  | JObject fields => ret (modelName fields)
  end.

Definition metadata_url : string := "/assets/metadata.json".

(** ** The dashboard with the synthetic fallback ([src/pages/Dashboard.tsx]) *)

Module Dashboard.

(** The [useState] cells of the component. *)
Record State : Type := {
  image : option string;
  predictions : list Prediction;
  isAnalyzing : bool;
  metadata : json;
  model : option CustomMobileNet;
  modelLoadError : option string
}.

Definition initial : State :=
  {| image := None; predictions := []; isAnalyzing := false;
     metadata := JNull; model := None; modelLoadError := None |}.

Definition setImage (v : option string) : M State unit :=
  update (fun s => {| image := v; predictions := predictions s;
                      isAnalyzing := isAnalyzing s; metadata := metadata s;
                      model := model s; modelLoadError := modelLoadError s |}).

Definition setPredictions (v : list Prediction) : M State unit :=
  update (fun s => {| image := image s; predictions := v;
                      isAnalyzing := isAnalyzing s; metadata := metadata s;
                      model := model s; modelLoadError := modelLoadError s |}).

Definition setIsAnalyzing (v : bool) : M State unit :=
  update (fun s => {| image := image s; predictions := predictions s;
                      isAnalyzing := v; metadata := metadata s;
                      model := model s; modelLoadError := modelLoadError s |}).

Definition setMetadata (v : json) : M State unit :=
  update (fun s => {| image := image s; predictions := predictions s;
                      isAnalyzing := isAnalyzing s; metadata := v;
                      model := model s; modelLoadError := modelLoadError s |}).

Definition setModel (v : option CustomMobileNet) : M State unit :=
  update (fun s => {| image := image s; predictions := predictions s;
                      isAnalyzing := isAnalyzing s; metadata := metadata s;
                      model := v; modelLoadError := modelLoadError s |}).

Definition setModelLoadError (v : option string) : M State unit :=
  update (fun s => {| image := image s; predictions := predictions s;
                      isAnalyzing := isAnalyzing s; metadata := metadata s;
                      model := model s; modelLoadError := v |}).

(** *** Synthetic predictions (lines 110-139) *)

(** One iteration of [labels.forEach((label, index) => ...)]; [push]
    appends to the local array. *)
Definition forEach_body (env : Env) (dominantIndex : JS.number)
    (label : string) (index : nat) (mockPredictions : list Prediction)
  : M State (list Prediction) :=
  prob <- (if JS.strict_eq (JS.of_nat index) dominantIndex
           then r <- Math_random env ;;
                ret (JS.add (JS.mul r (JS.literal (3 # 10))) (JS.literal (4 # 10)))
           else r <- Math_random env ;;
                ret (JS.mul r (JS.literal (2 # 10)))) ;;
  ret (mockPredictions ++ [ {| className := label; probability := prob |} ])%list.

Fixpoint forEach (env : Env) (dominantIndex : JS.number)
    (labels : list string) (index : nat) (mockPredictions : list Prediction)
  : M State (list Prediction) :=
  match labels with
  | [] => ret mockPredictions
  | label :: rest =>
      pushed <- forEach_body env dominantIndex label index mockPredictions ;;
      forEach env dominantIndex rest (S index) pushed
  end.

(** Lines 118-131: the dominant index is drawn, then one raw probability
    per label. *)
Definition drawMockPredictions (env : Env) (labels : list string)
  : M State (list Prediction) :=
  r <- Math_random env ;;
  let dominantIndex := JS.floor (JS.mul r (JS.of_nat (List.length labels))) in
  forEach env dominantIndex labels 0 [].

(** [mockPredictions.reduce((sum, p) => sum + p.probability, 0)] *)
Definition sum_probabilities (l : list Prediction) : JS.number :=
  fold_left (fun sum p => JS.add sum (probability p)) l (JS.Fin 0).

(** Lines 134-138: every probability is divided by the raw total. *)
Definition normalize (mockPredictions : list Prediction) : list Prediction :=
  let totalProb := sum_probabilities mockPredictions in
  map (fun p => {| className := className p;
                   probability := JS.div (probability p) totalProb |})
      mockPredictions.

(** The [TypeError] of a call of [labels.forEach] on a value that has no
    such method. *)
Definition not_a_function : string := "TypeError: labels.forEach is not a function".

(** [generateMockPredictions] of the render whose state is [scope].  On a
    truthy [labels] value that is not an array, line 118 still draws the
    dominant index (from whatever [labels.length] is) and the call of
    [labels.forEach] at line 120 throws. *)
Definition generateMockPredictions (env : Env) (scope : State)
  : M State (list Prediction) :=
  emit CallGenerateMock ;;
  match metadata scope with
  | JNull => ret []
  | JObject fields =>
      match labels fields with
      | NoLabels => ret []
      | LabelArray labels =>
          mockPredictions <- drawMockPredictions env labels ;;
          ret (normalize mockPredictions)
      | NotAnArray =>
          r <- Math_random env ;;
          throw not_a_function
      end
  end.

(** *** Analysis (lines 141-189) *)

Definition no_image_toast : Toast :=
  {| title := "Cannot analyze";
     description := "Please upload an image first";
     variant := Some "destructive" |}.

Definition analysis_complete_toast : Toast :=
  {| title := "Analysis complete";
     description := "Soil classification results are ready";
     variant := None |}.

(** The fallback branch of the [if] (lines 163-166). *)
Definition fallback_branch (env : Env) (scope : State) : M State (list Prediction) :=
  prediction <- generateMockPredictions env scope ;;
  sleep 800 ;;
  ret prediction.

(** [analyzeImage] as created by the render whose state is [scope];
    [imageRef_current] is the value of [imageRef.current] at the call. *)
Definition analyzeImage (env : Env) (scope : State)
    (imageRef_current : option HTMLImageElement) : M State unit :=
  match (if JS.truthy (image scope) then imageRef_current else None) with
  | None => toast no_image_toast
  | Some img =>
      setIsAnalyzing true ;;
      try_finally
        (try_catch
           (sleep 100 ;;
            prediction <-
              match model scope with
              | Some m =>
                  if negb (JS.truthy (modelLoadError scope))
                  then call_predict m img
                  else fallback_branch env scope
              | None => fallback_branch env scope
              end ;;
            setPredictions prediction ;;
            toast analysis_complete_toast)
           (fun error =>
              console_error "Error analyzing image:" ;;
              mockPrediction <- generateMockPredictions env scope ;;
              setPredictions mockPrediction ;;
              toast analysis_complete_toast))
        (setIsAnalyzing false)
  end.

(** *** Image upload (lines 87-107) *)

Definition image_uploaded_toast : Toast :=
  {| title := "Image uploaded";
     description := "Click 'Analyze Soil' to process the image";
     variant := None |}.

(** [file] is the object URL that [URL.createObjectURL] gives the chosen
    file, or [None] when the change event carries no file. *)
Definition handleImageUpload (file : option string) : M State unit :=
  match file with
  | None => ret tt
  | Some imageUrl =>
      setPredictions [] ;;
      setImage (Some imageUrl) ;;
      toast image_uploaded_toast
  end.

(** *** Model acquisition (lines 31-85), cut at its [await]s *)

Inductive phase : Type :=
| AwaitMetadata                      (* lines 35-36 *)
| AwaitModel (metadataJson : json)   (* lines 41 and 52 *)
| AwaitFallbackMetadata              (* lines 75-76 *)
| Loaded                             (* returned from the [try] block *)
| Fallback                           (* returned from the [catch] block *)
| Rejected.                          (* the promise of [loadModel] rejected *)

Definition model_loaded_toast (name : option string) : Toast :=
  {| title := "Model loaded";
     description := "Ready to analyze " ++ JS.or_else name "soil samples";
     variant := None |}.

Definition model_failed_toast : Toast :=
  {| title := "Model loading failed";
     description := "Using fallback classification mode";
     variant := Some "destructive" |}.

Definition fallback_message : string :=
  "Failed to load the soil classification model. Using fallback mode.".

Definition loadModel_begin : M State phase :=
  emit (Fetch metadata_url) ;;
  ret AwaitMetadata.

(** The [catch] block up to its own [await fetch] (lines 64-75). *)
Definition loadModel_catch (error : string) : M State phase :=
  console_error "Error loading model:" ;;
  setModelLoadError (Some fallback_message) ;;
  toast model_failed_toast ;;
  emit (Fetch metadata_url) ;;
  ret AwaitFallbackMetadata.

(** Lines 35-55: the metadata request settles. *)
Definition loadModel_metadata (env : Env) (r : fetch_outcome) : M State phase :=
  try_catch
    (metadataResponse <- await_fetch r ;;
     metadataJson <- await_json metadataResponse ;;
     setMetadata metadataJson ;;
     match window_tmImage env with
     | Some _ => emit (LoadModel true)
     | None => emit (LoadModel false)
     end ;;
     ret (AwaitModel metadataJson))
    loadModel_catch.

(** The loader that lines 40-61 choose: the global one when it is present,
    the bundled package otherwise. *)
Definition chosen_load (env : Env) : load_outcome :=
  match window_tmImage env with
  | Some globalLoad => globalLoad
  | None => package_load env
  end.

(** Lines 41-63: the classifier load settles. *)
Definition loadModel_model (env : Env) (metadataJson : json) : M State phase :=
  try_catch
    (loadedModel <- settle_load (chosen_load env) ;;
     setModel (Some loadedModel) ;;
     name <- get_modelName metadataJson ;;
     toast (model_loaded_toast name) ;;
     setModelLoadError None ;;
     ret Loaded)
    loadModel_catch.

(** Lines 74-80: the second metadata request settles. *)
Definition loadModel_fallback_metadata (r : fetch_outcome) : M State phase :=
  try_catch
    (metadataResponse <- await_fetch r ;;
     metadataJson <- await_json metadataResponse ;;
     setMetadata metadataJson ;;
     ret Fallback)
    (fun metadataError =>
       console_error "Error loading metadata:" ;;
       ret Fallback).

(** *** The component across renders *)

(** [Object.is] on the dependencies of [useCallback]. *)
Definition same_object (a b : option CustomMobileNet) : bool :=
  match a, b with
  | None, None => true
  | Some x, Some y => Nat.eqb (oid x) (oid y)
  | _, _ => false
  end.

Definition same_string (a b : option string) : bool :=
  match a, b with
  | None, None => true
  | Some x, Some y => String.eqb x y
  | _, _ => false
  end.

(** The dependency list of [analyzeImage] is
    [[model, image, toast, modelLoadError]] (line 189); [toast] is the same
    function in every render (the mount effect depends on it and runs
    once). *)
Definition deps_unchanged (old new : State) : bool :=
  same_object (model old) (model new)
  && same_string (image old) (image new)
  && same_string (modelLoadError old) (modelLoadError new).

(** [world] holds the current state; [scope] is the state of the render
    that created the [analyzeImage] which [useCallback] currently returns:
    the callback reads [image], [model], [modelLoadError] and, through
    [generateMockPredictions], [metadata] from it. *)
Record Component : Type := {
  world : World State;
  scope : State;
  pending : phase
}.

(** The render that follows the state updates of one event: [useCallback]
    keeps the old function unless a dependency changed. *)
Definition render (c : Component) (w : World State) (p : phase) : Component :=
  {| world := w;
     scope := if deps_unchanged (scope c) (state w) then scope c else state w;
     pending := p |}.

(** [imageRef.current]: the [<img>] is rendered exactly when [image] is
    truthy (lines 237-245). *)
Definition imageRef_current (s : State) : option HTMLImageElement :=
  if JS.truthy (image s)
  then match image s with
       | Some url => Some {| src := url |}
       | None => None
       end
  else None.

Definition mount : Component :=
  let w := snd (loadModel_begin
                  {| state := initial; effects := []; draws := 0; inferences := 0 |}) in
  {| world := w; scope := initial; pending := AwaitMetadata |}.

Inductive event : Type :=
| Settle                          (* the pending [await] of [loadModel] settles *)
| Upload (file : option string)   (* the change event of the file input *)
| Analyze.                        (* [analyzeImage()] is called *)

Definition continue (c : Component) (piece : M State phase) : Component :=
  match piece (world c) with
  | (Ok p, w) => render c w p
  | (Throw _, w) => render c w Rejected
  end.

(** The call of the memoised [analyzeImage] in configuration [c]. *)
Definition analyze (env : Env) (c : Component) : result unit * World State :=
  analyzeImage env (scope c) (imageRef_current (state (world c))) (world c).

(** One event.  A call of [analyzeImage] is run to its end in one step:
    everything it reads comes from the scope captured when it was created
    and from [imageRef], so the events that could fall between its
    [await]s do not change what it computes. *)
Definition step (env : Env) (c : Component) (ev : event) : Component :=
  match ev with
  | Settle =>
      match pending c with
      | AwaitMetadata => continue c (loadModel_metadata env (metadata_fetch env 0))
      | AwaitModel metadataJson => continue c (loadModel_model env metadataJson)
      | AwaitFallbackMetadata =>
          continue c (loadModel_fallback_metadata (metadata_fetch env 1))
      | Loaded | Fallback | Rejected => c
      end
  | Upload file => render c (snd (handleImageUpload file (world c))) (pending c)
  | Analyze => render c (snd (analyze env c)) (pending c)
  end.

Definition run (env : Env) (schedule : list event) : Component :=
  fold_left (step env) schedule mount.

Inductive reachable (env : Env) : Component -> Prop :=
| reachable_mount : reachable env mount
| reachable_step (c : Component) (ev : event) :
    reachable env c -> reachable env (step env c ev).

(** The acquisition state as the spec names it, read off the state cells
    the way line 159 tests them. *)
Inductive AcquisitionState : Type :=
| Loading
| Ready (handle : CustomMobileNet)
| Degraded (reason : string).

Definition acquisition (s : State) : AcquisitionState :=
  match modelLoadError s with
  | Some reason =>
      if JS.truthy (modelLoadError s) then Degraded reason
      else match model s with Some m => Ready m | None => Loading end
  | None => match model s with Some m => Ready m | None => Loading end
  end.

End Dashboard.

(** ** The stricter dashboard (no fallback, explicit "model not loaded") *)

Module StrictDashboard.

Record State : Type := {
  image : option string;
  predictions : list Prediction;
  isAnalyzing : bool;
  metadata : json;
  model : option CustomMobileNet;
  modelError : option string;
  progressValue : nat
}.

Definition initial : State :=
  {| image := None; predictions := []; isAnalyzing := false; metadata := JNull;
     model := None; modelError := None; progressValue := 10 |}.

Definition setImage (v : option string) : M State unit :=
  update (fun s => {| image := v; predictions := predictions s;
                      isAnalyzing := isAnalyzing s; metadata := metadata s;
                      model := model s; modelError := modelError s;
                      progressValue := progressValue s |}).

Definition setPredictions (v : list Prediction) : M State unit :=
  update (fun s => {| image := image s; predictions := v;
                      isAnalyzing := isAnalyzing s; metadata := metadata s;
                      model := model s; modelError := modelError s;
                      progressValue := progressValue s |}).

Definition setIsAnalyzing (v : bool) : M State unit :=
  update (fun s => {| image := image s; predictions := predictions s;
                      isAnalyzing := v; metadata := metadata s;
                      model := model s; modelError := modelError s;
                      progressValue := progressValue s |}).

Definition setMetadata (v : json) : M State unit :=
  update (fun s => {| image := image s; predictions := predictions s;
                      isAnalyzing := isAnalyzing s; metadata := v;
                      model := model s; modelError := modelError s;
                      progressValue := progressValue s |}).

Definition setModel (v : option CustomMobileNet) : M State unit :=
  update (fun s => {| image := image s; predictions := predictions s;
                      isAnalyzing := isAnalyzing s; metadata := metadata s;
                      model := v; modelError := modelError s;
                      progressValue := progressValue s |}).

Definition setModelError (v : option string) : M State unit :=
  update (fun s => {| image := image s; predictions := predictions s;
                      isAnalyzing := isAnalyzing s; metadata := metadata s;
                      model := model s; modelError := v;
                      progressValue := progressValue s |}).

Definition setProgressValue (v : nat) : M State unit :=
  update (fun s => {| image := image s; predictions := predictions s;
                      isAnalyzing := isAnalyzing s; metadata := metadata s;
                      model := model s; modelError := modelError s;
                      progressValue := v |}).

(** *** Model acquisition (lines 31-69), run to completion *)

Definition decimal (n : nat) : string := NilEmpty.string_of_uint (Nat.to_uint n).

Definition model_loaded_toast (name : option string) : Toast :=
  {| title := "Model loaded";
     description := "Ready to analyze " ++ JS.or_else name "soil samples";
     variant := None |}.

Definition model_failed_toast : Toast :=
  {| title := "Model loading failed";
     description := "Please check that model files exist in the assets folder";
     variant := Some "destructive" |}.

Definition loadModel (env : Env) : M State unit :=
  try_catch
    (setModelError None ;;
     emit (Fetch metadata_url) ;;
     metadataResponse <- await_fetch (metadata_fetch env 0) ;;
     (if negb (ok metadataResponse)
      then throw ("Failed to load metadata: " ++ decimal (status metadataResponse)
                  ++ " " ++ statusText metadataResponse)
      else ret tt) ;;
     metadataJson <- await_json metadataResponse ;;
     setMetadata metadataJson ;;
     globalLoad <-
       match window_tmImage env with
       | None =>
           throw "Teachable Machine library not loaded. Please check your internet connection."
       | Some globalLoad => ret globalLoad
       end ;;
     emit (LoadModel true) ;;
     loadedModel <- settle_load globalLoad ;;
     setModel (Some loadedModel) ;;
     name <- get_modelName metadataJson ;;
     toast (model_loaded_toast name))
    (fun error =>
       console_error "Error loading model:" ;;
       setModelError (Some ("Error loading model: " ++ error)) ;;
       toast model_failed_toast).

(** *** Analysis (lines 113-164) *)

Definition no_image_toast : Toast :=
  {| title := "Cannot analyze";
     description := "Please upload an image first";
     variant := Some "destructive" |}.

Definition model_not_loaded_toast : Toast :=
  {| title := "Model not loaded";
     description := "The soil classification model is not loaded yet";
     variant := Some "destructive" |}.

Definition analysis_complete_toast : Toast :=
  {| title := "Analysis complete";
     description := "Soil classification results are ready";
     variant := None |}.

Definition analysis_failed_toast (error : string) : Toast :=
  {| title := "Analysis failed";
     description := "Error: " ++ error;
     variant := Some "destructive" |}.

(** This [analyzeImage] is not memoised: every render creates it anew, so
    it reads the state [s] of the latest render. *)
Definition analyzeImage (s : State) (imageRef_current : option HTMLImageElement)
  : M State unit :=
  match (if JS.truthy (image s) then imageRef_current else None) with
  | None => toast no_image_toast
  | Some img =>
      match model s with
      | None => toast model_not_loaded_toast
      | Some m =>
          setIsAnalyzing true ;;
          setPredictions [] ;;
          try_finally
            (try_catch
               (setProgressValue 30 ;;
                sleep 100 ;;
                setProgressValue 50 ;;
                prediction <- call_predict m img ;;
                setProgressValue 80 ;;
                setPredictions prediction ;;
                toast analysis_complete_toast)
               (fun error =>
                  console_error "Error analyzing image:" ;;
                  toast (analysis_failed_toast error)))
            (setIsAnalyzing false ;;
             setProgressValue 100 ;;
             emit (SetTimeout 500))
      end
  end.

Definition imageRef_current (s : State) : option HTMLImageElement :=
  if JS.truthy (image s)
  then match image s with
       | Some url => Some {| src := url |}
       | None => None
       end
  else None.

(** The call of [analyzeImage] in the world [w]. *)
Definition analyze (w : World State) : result unit * World State :=
  analyzeImage (state w) (imageRef_current (state w)) w.

End StrictDashboard.

(** ** Properties stated about the pipeline, and concrete sessions *)

(** [top] sits at some position of [predictions] and no entry has a larger
    probability. *)
Definition is_max_at (predictions : list Prediction) (i : nat) (top : Prediction) : Prop :=
  nth_error predictions i = Some top /\
  forall p, In p predictions -> JS.le (probability p) (probability top).

(** ... and every entry before it is strictly smaller. *)
Definition earliest_max (predictions : list Prediction) (top : Prediction) : Prop :=
  exists i, is_max_at predictions i top /\
    forall j p, (j < i)%nat -> nth_error predictions j = Some p ->
                JS.lt (probability p) (probability top).

(** ... and every entry after it is strictly smaller. *)
Definition latest_max (predictions : list Prediction) (top : Prediction) : Prop :=
  exists i, is_max_at predictions i top /\
    forall j p, (i < j)%nat -> nth_error predictions j = Some p ->
                JS.lt (probability p) (probability top).

Definition no_NaN (predictions : list Prediction) : Prop :=
  Forall (fun p => probability p <> JS.NaN) predictions.

(** Two labels with the same probability. *)
Definition tied_predictions : list Prediction :=
  [ {| className := "Clay"; probability := JS.Fin (1 # 2) |};
    {| className := "Sand"; probability := JS.Fin (1 # 2) |} ].


(** The raw entries have a clear winner at position [k]: that entry lies in
    [0.4, 0.7] (the upper end is reached when the draw is the largest
    number below 1) and every other one in [0, 0.2). *)
Definition one_dominant_raw (raw : list Prediction) (k : nat) : Prop :=
  forall i p, nth_error raw i = Some p ->
    exists q, probability p = JS.Fin q /\ JS.is_double q /\
      if (i =? k)%nat then (4 # 10 <= q /\ q <= 7 # 10)%Q
      else (0 <= q /\ q < 2 # 10)%Q.

(** The raw probability that iteration [index] of the loop pushes when the
    draw it consumes is the [draw]-th of the session. *)
Definition raw_probability (env : Env) (dominantIndex : JS.number)
    (index draw : nat) : JS.number :=
  if JS.strict_eq (JS.of_nat index) dominantIndex
  then JS.add (JS.mul (JS.Fin (random env draw)) (JS.literal (3 # 10)))
              (JS.literal (4 # 10))
  else JS.mul (JS.Fin (random env draw)) (JS.literal (2 # 10)).

(** The entries pushed by the loop over [labels], in closed form. *)
Fixpoint raw_entries (env : Env) (dominantIndex : JS.number)
    (labels : list string) (index draw : nat) : list Prediction :=
  match labels with
  | [] => []
  | label :: rest =>
      {| className := label;
         probability := raw_probability env dominantIndex index draw |}
      :: raw_entries env dominantIndex rest (S index) (S draw)
  end.

(** The dominant index drawn for [n] labels from the [draw]-th random value. *)
Definition dominant_index (env : Env) (n draw : nat) : JS.number :=
  JS.floor (JS.mul (JS.Fin (random env draw)) (JS.of_nat n)).

(** The world after [k] more calls of [Math.random()]. *)
Definition after_draws {St : Type} (w : World St) (k : nat) : World St :=
  {| state := state w;
     effects := (effects w ++ map MathRandom (seq (draws w) k))%list;
     draws := draws w + k;
     inferences := inferences w |}.

(** The rational behind a finite number (0 for the special values). *)
Definition value_of (a : JS.number) : Q :=
  match a with
  | JS.Fin q => q
  | _ => 0%Q
  end.

Definition values (l : list Prediction) : list Q :=
  map (fun p => value_of (probability p)) l.

Definition Qsum (l : list Q) : Q := fold_right Qplus 0%Q l.

Definition all_finite (l : list Prediction) : Prop :=
  Forall (fun p => JS.finite (probability p)) l.

(** The sum of the probabilities is 1.0 within this tolerance. *)
Definition tolerance : Q := 1 # 1000000.

(** The predictions form a probability distribution over [labels]: one
    entry per label, in order, each a finite number in [0, 1], and the
    probabilities add up to 1 within the tolerance. *)
Definition distribution_over (labels : list string) (l : list Prediction) : Prop :=
  map className l = labels /\
  Forall (fun p => exists q, probability p = JS.Fin q /\ (0 <= q <= 1)%Q) l /\
  (Qabs (Qsum (values l) - 1) <= tolerance)%Q.

(** Raw probabilities: binary64 numbers in [0, 1]. *)
Definition unit_doubles (l : list Prediction) : Prop :=
  Forall (fun p => exists q, probability p = JS.Fin q /\ JS.is_double q
                             /\ (0 <= q <= 1)%Q) l.

(** The list has a length that a JavaScript array can have. *)
Definition array_sized {A : Type} (l : list A) : Prop :=
  (Z.of_nat (List.length l) < 2 ^ 32)%Z.

(** [Math.random()] returns binary64 numbers. *)
Definition random_is_double (env : Env) : Prop :=
  forall k : nat, JS.is_double (random env k).

(** The value of [metadata.labels] that the generator of the render with
    state [scope] sees. *)
Definition labels_value_in (scope : Dashboard.State) : LabelsValue :=
  match Dashboard.metadata scope with
  | JNull => NoLabels
  | JObject fields => labels fields
  end.

(** The label list that it sees, when it sees one. *)
Definition labels_in (scope : Dashboard.State) : option (list string) :=
  match labels_value_in scope with
  | LabelArray ls => Some ls
  | NoLabels | NotAnArray => None
  end.

(** It sees a [labels] value on which [forEach] cannot be called. *)
Definition malformed (scope : Dashboard.State) : bool :=
  match labels_value_in scope with
  | NotAnArray => true
  | NoLabels | LabelArray _ => false
  end.

(** What [generateMockPredictions] returns when its first draw is the
    [draw]-th of the session, in closed form (when it returns). *)
Definition mock_output (env : Env) (scope : Dashboard.State) (draw : nat)
  : list Prediction :=
  match labels_in scope with
  | None => []
  | Some ls =>
      Dashboard.normalize
        (raw_entries env (dominant_index env (List.length ls) draw) ls 0 (S draw))
  end.

(** How it ends. *)
Definition mock_result (env : Env) (scope : Dashboard.State) (draw : nat)
  : result (list Prediction) :=
  if malformed scope then Throw Dashboard.not_a_function
  else Ok (mock_output env scope draw).

(** The number of draws it consumes. *)
Definition mock_draws (scope : Dashboard.State) : nat :=
  match labels_value_in scope with
  | NoLabels => 0
  | LabelArray ls => S (List.length ls)
  | NotAnArray => 1
  end.

(** The world after a handler that returns nothing. *)
Definition exec {St : Type} (c : M St unit) (w : World St) : World St := snd (c w).

(** The metadata document of scenario A. *)
Definition soil_metadata : Metadata :=
  {| modelName := Some "Soil Classifier";
     labels := LabelArray ["Clay"; "Sand"; "Loam"] |}.

Definition fair_coin : nat -> Q := fun _ => (1 # 2)%Q.

(** A session in which the classifier cannot be loaded. *)
Definition offline_env : Env :=
  {| window_tmImage := None;
     package_load := LoadRejected "model.json not found";
     metadata_fetch := fun _ =>
       Resolved (MkResponse true 200 "OK" (Ok (JObject soil_metadata)));
     random := fair_coin |}.

Definition soil_scope : Dashboard.State :=
  {| Dashboard.image := Some "blob:sample";
     Dashboard.predictions := [];
     Dashboard.isAnalyzing := false;
     Dashboard.metadata := JObject soil_metadata;
     Dashboard.model := None;
     Dashboard.modelLoadError := Some Dashboard.fallback_message |}.

Definition fresh_world {St : Type} (s : St) : World St :=
  {| state := s; effects := []; draws := 0; inferences := 0 |}.

(** The state after an analysis that published [out]. *)
Definition with_analysis (s : Dashboard.State) (out : list Prediction) : Dashboard.State :=
  {| Dashboard.image := Dashboard.image s;
     Dashboard.predictions := out;
     Dashboard.isAnalyzing := false;
     Dashboard.metadata := Dashboard.metadata s;
     Dashboard.model := Dashboard.model s;
     Dashboard.modelLoadError := Dashboard.modelLoadError s |}.

(** The effects of one run of the generator that starts at draw [d]. *)
Definition mock_effects (scope : Dashboard.State) (d : nat) : list effect :=
  CallGenerateMock :: map MathRandom (seq d (mock_draws scope)).

(** The image that [analyzeImage] works on, if its guard lets it through. *)
Definition guarded_image (image : option string) (imageRef_current : option HTMLImageElement)
  : option HTMLImageElement :=
  if JS.truthy image then imageRef_current else None.

(** The memoised callback agrees with the current state on its
    dependencies. *)
Definition synced (c : Dashboard.Component) : Prop :=
  Dashboard.image (Dashboard.scope c)
    = Dashboard.image (state (Dashboard.world c)) /\
  Dashboard.model (Dashboard.scope c)
    = Dashboard.model (state (Dashboard.world c)) /\
  Dashboard.modelLoadError (Dashboard.scope c)
    = Dashboard.modelLoadError (state (Dashboard.world c)).

(** What each point of [loadModel] guarantees about the state cells. *)
Definition phase_invariant (c : Dashboard.Component) : Prop :=
  let s := state (Dashboard.world c) in
  match Dashboard.pending c with
  | Dashboard.AwaitMetadata | Dashboard.AwaitModel _ =>
      Dashboard.model s = None /\ Dashboard.modelLoadError s = None
  | Dashboard.Loaded =>
      (exists m, Dashboard.model s = Some m) /\
      Dashboard.modelLoadError s = None /\
      Dashboard.metadata (Dashboard.scope c) = Dashboard.metadata s
  | Dashboard.AwaitFallbackMetadata | Dashboard.Fallback =>
      Dashboard.modelLoadError s = Some Dashboard.fallback_message
  | Dashboard.Rejected => False
  end.

(** Two states with the same acquisition cells. *)
Definition same_acquisition (s s' : Dashboard.State) : Prop :=
  Dashboard.metadata s' = Dashboard.metadata s /\
  Dashboard.model s' = Dashboard.model s /\
  Dashboard.modelLoadError s' = Dashboard.modelLoadError s.

(** The effects added between the worlds [w] and [w']. *)
Definition new_effects {St : Type} (w w' : World St) : list effect :=
  skipn (List.length (effects w)) (effects w').

(** Two numbers of the same value ([NaN] counts as itself). *)
Definition same_number (a b : JS.number) : Prop :=
  match a, b with
  | JS.Fin x, JS.Fin y => (x == y)%Q
  | JS.PosInf, JS.PosInf | JS.NegInf, JS.NegInf | JS.NaN, JS.NaN => True
  | _, _ => False
  end.

(** Two prediction sequences with the same labels and the same values. *)
Definition same_sequence (l l' : list Prediction) : Prop :=
  Forall2 (fun p p' => className p = className p'
                       /\ same_number (probability p) (probability p')) l l'.

(** A classifier that answers every image with the same two predictions. *)
Definition steady_model : CustomMobileNet :=
  {| oid := 1;
     predict := fun _ _ =>
       Ok [ {| className := "Clay"; probability := JS.Fin (3 # 4) |};
            {| className := "Sand"; probability := JS.Fin (1 # 4) |} ] |}.

(** A classifier that rejects every image, the same way at every call. *)
Definition failing_model : CustomMobileNet :=
  {| oid := 2;
     predict := fun _ _ => Throw "cannot read image" |}.

(** A session in which everything loads and the classifier answers. *)
Definition online_env : Env :=
  {| window_tmImage := None;
     package_load := LoadResolved steady_model;
     metadata_fetch := fun _ =>
       Resolved (MkResponse true 200 "OK" (Ok (JObject soil_metadata)));
     random := fair_coin |}.

(** A session in which everything loads but the classifier rejects the
    image; the random source gives 1/4 four times and 3/4 afterwards. *)
Definition failing_env : Env :=
  {| window_tmImage := None;
     package_load := LoadResolved failing_model;
     metadata_fetch := fun _ =>
       Resolved (MkResponse true 200 "OK" (Ok (JObject soil_metadata)));
     random := fun k => if (k <? 4)%nat then (1 # 4)%Q else (3 # 4)%Q |}.

(** Acquisition completes, then an image is chosen. *)
Definition load_then_upload : list Dashboard.event :=
  [Dashboard.Settle; Dashboard.Settle; Dashboard.Upload (Some "blob:sample")].

(** A world of the stricter dashboard: an image is chosen while the
    classifier is still loading. *)
Definition strict_loading_world : World StrictDashboard.State :=
  fresh_world
    {| StrictDashboard.image := Some "blob:sample";
       StrictDashboard.predictions := [];
       StrictDashboard.isAnalyzing := false;
       StrictDashboard.metadata := JObject soil_metadata;
       StrictDashboard.model := None;
       StrictDashboard.modelError := None;
       StrictDashboard.progressValue := 10 |}.

(** Decision procedures for [same_number] and [same_sequence]. *)
Definition same_numberb (a b : JS.number) : bool :=
  match a, b with
  | JS.Fin x, JS.Fin y => Qeq_bool x y
  | JS.PosInf, JS.PosInf | JS.NegInf, JS.NegInf | JS.NaN, JS.NaN => true
  | _, _ => false
  end.

Fixpoint same_sequenceb (l l' : list Prediction) : bool :=
  match l, l' with
  | [], [] => true
  | p :: rest, p' :: rest' =>
      String.eqb (className p) (className p')
      && same_numberb (probability p) (probability p')
      && same_sequenceb rest rest'
  | _, _ => false
  end.

(** The configuration after acquisition completed in [failing_env] and an
    image was chosen, and after one and two analyses. *)
Definition failing_ready : Dashboard.Component :=
  Dashboard.run failing_env load_then_upload.

Definition failing_once : Dashboard.Component :=
  Dashboard.step failing_env failing_ready Dashboard.Analyze.

Definition failing_twice : Dashboard.Component :=
  Dashboard.step failing_env failing_once Dashboard.Analyze.

(** The document that a settled metadata request delivers, if any. *)
Definition delivered (r : fetch_outcome) : option json :=
  match r with
  | Resolved response =>
      match body response with
      | Ok parsed => Some parsed
      | Throw _ => None
      end
  | NetworkError _ => None
  end.

(** Scenario A with an image chosen once the fallback is in place. *)
Definition degraded_with_image : Dashboard.Component :=
  Dashboard.run offline_env load_then_upload.

(** A session whose first metadata request fails on the network and whose
    second one, issued by the [catch] block, succeeds. *)
Definition flaky_env : Env :=
  {| window_tmImage := None;
     package_load := LoadResolved steady_model;
     metadata_fetch := fun k =>
       match k with
       | O => NetworkError "Failed to fetch"
       | _ => Resolved (MkResponse true 200 "OK" (Ok (JObject soil_metadata)))
       end;
     random := fair_coin |}.

(** The user chooses an image while the first request is still pending;
    both requests settle afterwards. *)
Definition upload_then_settle : list Dashboard.event :=
  [Dashboard.Upload (Some "blob:sample"); Dashboard.Settle; Dashboard.Settle].

Definition stale_component : Dashboard.Component :=
  Dashboard.run flaky_env upload_then_settle.

(** The body of an error response: an object without the metadata fields. *)
Definition error_document : Metadata := {| modelName := None; labels := NoLabels |}.

(** A session whose metadata request is answered with status 503 and a JSON
    error body, while the classifier itself can be loaded. *)
Definition unavailable_env : Env :=
  {| window_tmImage := Some (LoadResolved steady_model);
     package_load := LoadResolved steady_model;
     metadata_fetch := fun _ =>
       Resolved (MkResponse false 503 "Service Unavailable"
                            (Ok (JObject error_document)));
     random := fair_coin |}.

(** The first metadata request settled without delivering a document. *)
Definition first_request_failed (c : Dashboard.Component) : Prop :=
  match Dashboard.pending c with
  | Dashboard.AwaitMetadata
  | Dashboard.AwaitFallbackMetadata
  | Dashboard.Fallback => True
  | _ => False
  end.

(** ** The first dashboard (no fallback, no error cell) *)

Module SimpleDashboard.

Record State : Type := {
  image : option string;
  predictions : list Prediction;
  isAnalyzing : bool;
  metadata : json;
  model : option CustomMobileNet
}.

Definition initial : State :=
  {| image := None; predictions := []; isAnalyzing := false;
     metadata := JNull; model := None |}.

Definition setImage (v : option string) : M State unit :=
  update (fun s => {| image := v; predictions := predictions s;
                      isAnalyzing := isAnalyzing s; metadata := metadata s;
                      model := model s |}).

Definition setPredictions (v : list Prediction) : M State unit :=
  update (fun s => {| image := image s; predictions := v;
                      isAnalyzing := isAnalyzing s; metadata := metadata s;
                      model := model s |}).

Definition setIsAnalyzing (v : bool) : M State unit :=
  update (fun s => {| image := image s; predictions := predictions s;
                      isAnalyzing := v; metadata := metadata s;
                      model := model s |}).

Definition setMetadata (v : json) : M State unit :=
  update (fun s => {| image := image s; predictions := predictions s;
                      isAnalyzing := isAnalyzing s; metadata := v;
                      model := model s |}).

Definition setModel (v : option CustomMobileNet) : M State unit :=
  update (fun s => {| image := image s; predictions := predictions s;
                      isAnalyzing := isAnalyzing s; metadata := metadata s;
                      model := v |}).

(** *** Model acquisition (lines 29-59), run to completion *)

Definition model_loaded_toast (name : option string) : Toast :=
  {| title := "Model loaded";
     description := "Ready to analyze " ++ JS.or_else name "soil samples";
     variant := None |}.

Definition model_failed_toast : Toast :=
  {| title := "Model loading failed";
     description := "Please check console for details";
     variant := Some "destructive" |}.

Definition loadModel (env : Env) : M State unit :=
  try_catch
    (emit (Fetch metadata_url) ;;
     metadataResponse <- await_fetch (metadata_fetch env 0) ;;
     metadataJson <- await_json metadataResponse ;;
     setMetadata metadataJson ;;
     emit (LoadModel false) ;;
     loadedModel <- settle_load (package_load env) ;;
     setModel (Some loadedModel) ;;
     name <- get_modelName metadataJson ;;
     toast (model_loaded_toast name))
    (fun error =>
       console_error "Error loading model:" ;;
       toast model_failed_toast).

(** *** Image upload (lines 61-81) *)

Definition image_uploaded_toast : Toast :=
  {| title := "Image uploaded";
     description := "Click 'Analyze Soil' to process the image";
     variant := None |}.

Definition handleImageUpload (file : option string) : M State unit :=
  match file with
  | None => ret tt
  | Some imageUrl =>
      setPredictions [] ;;
      setImage (Some imageUrl) ;;
      toast image_uploaded_toast
  end.

(** *** Analysis (lines 83-117) *)

Definition cannot_analyze_toast : Toast :=
  {| title := "Cannot analyze";
     description := "Please ensure the model is loaded and an image is uploaded";
     variant := Some "destructive" |}.

Definition analysis_complete_toast : Toast :=
  {| title := "Analysis complete";
     description := "Soil classification results are ready";
     variant := None |}.

Definition analysis_failed_toast : Toast :=
  {| title := "Analysis failed";
     description := "There was an error processing the image";
     variant := Some "destructive" |}.

(** The callback is memoised on [[model, image, toast]] (line 117), which
    are all the cells it reads: it always sees the state [s] of the latest
    render. *)
Definition analyzeImage (s : State) (imageRef_current : option HTMLImageElement)
  : M State unit :=
  match model s, (if JS.truthy (image s) then imageRef_current else None) with
  | Some m, Some img =>
      setIsAnalyzing true ;;
      try_finally
        (try_catch
           (sleep 100 ;;
            prediction <- call_predict m img ;;
            setPredictions prediction ;;
            toast analysis_complete_toast)
           (fun error =>
              console_error "Error analyzing image:" ;;
              toast analysis_failed_toast))
        (setIsAnalyzing false)
  | _, _ => toast cannot_analyze_toast
  end.

Definition imageRef_current (s : State) : option HTMLImageElement :=
  if JS.truthy (image s)
  then match image s with
       | Some url => Some {| src := url |}
       | None => None
       end
  else None.

Definition analyze (w : World State) : result unit * World State :=
  analyzeImage (state w) (imageRef_current (state w)) w.

(** [disabled={!image || !model || isAnalyzing}] of the Analyze button
    (line 201). *)
Definition analyze_disabled (s : State) : bool :=
  negb (JS.truthy (image s))
  || match model s with Some _ => false | None => true end
  || isAnalyzing s.

End SimpleDashboard.

(** ** The login page ([Login], after the dashboard in the same file) *)

Module Login.

Record State : Type := {
  email : string;
  password : string;
  isLoading : bool
}.

Inductive effect : Type :=
| PreventDefault
| SetTimeout (ms : nat)
| ShowToast (t : Toast)
| Navigate (path : string).

Definition login_successful_toast : Toast :=
  {| title := "Login successful";
     description := "Welcome to the Soil Classification System";
     variant := Some "default" |}.

Definition login_failed_toast : Toast :=
  {| title := "Login failed";
     description := "Invalid credentials. Use admin@gmail.com / admin123";
     variant := Some "destructive" |}.

Definition setIsLoading (v : bool) (s : State) : State :=
  {| email := email s; password := password s; isLoading := v |}.

(** [handleLogin] up to its [setTimeout] (lines 373-378 and 396): the state
    after it and the calls it makes. *)
Definition handleLogin (s : State) : State * list effect :=
  (setIsLoading true s, [PreventDefault; SetTimeout 500]).

(** The timer callback (lines 378-396).  It belongs to the render in which
    the form was submitted and reads [email] and [password] from that
    render's state [submitted]; [s] is the state when the timer fires. *)
Definition loginTimer (submitted s : State) : State * list effect :=
  let shown :=
    if String.eqb (email submitted) "admin@gmail.com"
       && String.eqb (password submitted) "admin123"
    then [ShowToast login_successful_toast; Navigate "/dashboard"]
    else [ShowToast login_failed_toast] in
  (setIsLoading false s, shown).

(** [onChange] of the two inputs (lines 423 and 436). *)
Definition setEmail (v : string) (s : State) : State :=
  {| email := v; password := password s; isLoading := isLoading s |}.

Definition setPassword (v : string) (s : State) : State :=
  {| email := email s; password := v; isLoading := isLoading s |}.

End Login.

(** ** Script injection of the stricter dashboard (lines 73-88) *)

Module Scripts.

(** [src*="needle"]: the attribute value contains [needle]. *)
Definition contains (needle s : string) : bool :=
  match String.index 0 needle s with
  | Some _ => true
  | None => false
  end.

Definition tensorflow_url : string :=
  "https://cdn.jsdelivr.net/npm/@tensorflow/tfjs@latest/dist/tf.min.js".

Definition teachable_url : string :=
  "https://cdn.jsdelivr.net/npm/@teachablemachine/image@latest/dist/teachablemachine-image.min.js".

(** [document.querySelector('script[src*="needle"]')] is not [null]; the
    document is given by the [src] of its script elements, in order. *)
Definition has_script (needle : string) (scripts : list string) : bool :=
  existsb (contains needle) scripts.

(** [loadScripts]: each [appendChild] adds a script element at the end. *)
Definition loadScripts (scripts : list string) : list string :=
  let afterTensorflow :=
    if negb (has_script "tensorflow" scripts)
    then (scripts ++ [tensorflow_url])%list
    else scripts in
  if negb (has_script "teachablemachine" afterTensorflow)
  then (afterTensorflow ++ [teachable_url])%list
  else afterTensorflow.

End Scripts.

(** ** Derived values of the views *)

(** [disabled={!image || isAnalyzing}] of the Analyze button of the fallback
    dashboard (line 273). *)
Definition analyze_disabled (s : Dashboard.State) : bool :=
  negb (JS.truthy (Dashboard.image s)) || Dashboard.isAnalyzing s.

(** [disabled={!image || isAnalyzing || !model}] of the stricter dashboard
    (line 248). *)
Definition strict_analyze_disabled (s : StrictDashboard.State) : bool :=
  negb (JS.truthy (StrictDashboard.image s))
  || StrictDashboard.isAnalyzing s
  || match StrictDashboard.model s with Some _ => false | None => true end.

(** The effect is a toast. *)
Definition is_toast (e : effect) : bool :=
  match e with
  | ShowToast _ => true
  | _ => false
  end.

(** The effect is one of the two toasts of [loadModel]. *)
Definition is_acquisition_toast (e : effect) : bool :=
  match e with
  | ShowToast t =>
      String.eqb (title t) "Model loaded"
      || String.eqb (title t) "Model loading failed"
  | _ => false
  end.

(** The toasts that [loadModel] has shown when it is at its point [p]. *)
Definition acquisition_toasts_at (p : Dashboard.phase) (shown : list effect) : Prop :=
  match p with
  | Dashboard.AwaitMetadata | Dashboard.AwaitModel _ => shown = []
  | Dashboard.Loaded =>
      exists name, shown = [ShowToast (Dashboard.model_loaded_toast name)]
  | Dashboard.AwaitFallbackMetadata | Dashboard.Fallback =>
      shown = [ShowToast Dashboard.model_failed_toast]
  | Dashboard.Rejected => False
  end.

(** A configuration in which the user chose an image before anything was
    loaded. *)
Definition early_upload : Dashboard.Component :=
  Dashboard.run offline_env [Dashboard.Upload (Some "blob:sample")].

(** The state of the stricter dashboard after an analysis that published
    [out]: the analysing flag is off and the progress value is 100. *)
Definition strict_after_analysis (s : StrictDashboard.State) (out : list Prediction)
  : StrictDashboard.State :=
  {| StrictDashboard.image := StrictDashboard.image s;
     StrictDashboard.predictions := out;
     StrictDashboard.isAnalyzing := false;
     StrictDashboard.metadata := StrictDashboard.metadata s;
     StrictDashboard.model := StrictDashboard.model s;
     StrictDashboard.modelError := StrictDashboard.modelError s;
     StrictDashboard.progressValue := 100 |}.

(** A world of the stricter dashboard with an image and a classifier that
    rejects every image; earlier predictions are still published. *)
Definition strict_failing_world : World StrictDashboard.State :=
  fresh_world
    {| StrictDashboard.image := Some "blob:sample";
       StrictDashboard.predictions :=
         [ {| className := "Clay"; probability := JS.Fin 1 |} ];
       StrictDashboard.isAnalyzing := false;
       StrictDashboard.metadata := JObject soil_metadata;
       StrictDashboard.model := Some failing_model;
       StrictDashboard.modelError := None;
       StrictDashboard.progressValue := 0 |}.

(** The same for the first dashboard. *)
Definition simple_failing_world : World SimpleDashboard.State :=
  fresh_world
    {| SimpleDashboard.image := Some "blob:sample";
       SimpleDashboard.predictions :=
         [ {| className := "Clay"; probability := JS.Fin 1 |} ];
       SimpleDashboard.isAnalyzing := false;
       SimpleDashboard.metadata := JObject soil_metadata;
       SimpleDashboard.model := Some failing_model |}.

(** The state of the first dashboard after an analysis that published
    [out]. *)
Definition simple_after_analysis (s : SimpleDashboard.State) (out : list Prediction)
  : SimpleDashboard.State :=
  {| SimpleDashboard.image := SimpleDashboard.image s;
     SimpleDashboard.predictions := out;
     SimpleDashboard.isAnalyzing := false;
     SimpleDashboard.metadata := SimpleDashboard.metadata s;
     SimpleDashboard.model := SimpleDashboard.model s |}.

(** The world after a call that only showed the toast [t]. *)
Definition only_toast {St : Type} (w : World St) (t : Toast) : World St :=
  {| state := state w;
     effects := (effects w ++ [ShowToast t])%list;
     draws := draws w;
     inferences := inferences w |}.

(** The first metadata request delivers a document and the classifier
    loads. *)
Definition load_succeeds (env : Env) : bool :=
  match delivered (metadata_fetch env 0), package_load env with
  | Some _, LoadResolved _ => true
  | _, _ => false
  end.

(** What the user types while the login timer is pending. *)
Inductive login_edit : Type :=
| TypeEmail (v : string)
| TypePassword (v : string).

Definition apply_login_edit (s : Login.State) (e : login_edit) : Login.State :=
  match e with
  | TypeEmail v => Login.setEmail v s
  | TypePassword v => Login.setPassword v s
  end.

(** A submission of the login form in state [s], the edits made while the
    timer is pending, and the timer callback of that submission. *)
Definition login_session (s : Login.State) (edits : list login_edit)
  : Login.State * list Login.effect :=
  let submitted := Login.handleLogin s in
  let fired := Login.loginTimer s (fold_left apply_login_edit edits (fst submitted)) in
  (fst fired, (snd submitted ++ snd fired)%list).

Definition is_navigation (e : Login.effect) : bool :=
  match e with
  | Login.Navigate _ => true
  | _ => false
  end.

Definition is_login_toast (e : Login.effect) : bool :=
  match e with
  | Login.ShowToast _ => true
  | _ => false
  end.

(** A metadata document whose [labels] property is a string (such as
    ["Clay,Sand,Loam"]) instead of an array. *)
Definition mistyped_metadata : Metadata :=
  {| modelName := Some "Soil Classifier"; labels := NotAnArray |}.

(** The state of a render that has this document, an image and no
    classifier. *)
Definition mistyped_scope : Dashboard.State :=
  {| Dashboard.image := Some "blob:sample";
     Dashboard.predictions := [];
     Dashboard.isAnalyzing := false;
     Dashboard.metadata := JObject mistyped_metadata;
     Dashboard.model := None;
     Dashboard.modelLoadError := Some Dashboard.fallback_message |}.

(** A metadata document without a [labels] property. *)
Definition unlabelled_metadata : Metadata :=
  {| modelName := Some "Soil Classifier"; labels := NoLabels |}.

(** Sessions in which everything loads and the classifier rejects the
    image, while the metadata document has no labels, or has a string in
    their place. *)
Definition unlabelled_env : Env :=
  {| window_tmImage := None;
     package_load := LoadResolved failing_model;
     metadata_fetch := fun _ =>
       Resolved (MkResponse true 200 "OK" (Ok (JObject unlabelled_metadata)));
     random := fair_coin |}.

Definition mistyped_env : Env :=
  {| window_tmImage := None;
     package_load := LoadResolved failing_model;
     metadata_fetch := fun _ =>
       Resolved (MkResponse true 200 "OK" (Ok (JObject mistyped_metadata)));
     random := fair_coin |}.

Definition unlabelled_ready : Dashboard.Component :=
  Dashboard.run unlabelled_env load_then_upload.

Definition mistyped_ready : Dashboard.Component :=
  Dashboard.run mistyped_env load_then_upload.

(** A session of scenario A (the classifier cannot be loaded and the
    metadata document has the three labels) in which the first metadata
    request is answered with status 503 and a JSON error body, and the
    request repeated by the [catch] block delivers the document. *)
Definition retry_env : Env :=
  {| window_tmImage := None;
     package_load := LoadRejected "model.json not found";
     metadata_fetch := fun k =>
       match k with
       | O => Resolved (MkResponse false 503 "Service Unavailable"
                                   (Ok (JObject error_document)))
       | _ => Resolved (MkResponse true 200 "OK" (Ok (JObject soil_metadata)))
       end;
     random := fair_coin |}.

(** Both the first request and the classifier load settle, the user
    chooses an image, then the repeated request settles. *)
Definition settle_upload_settle : list Dashboard.event :=
  [Dashboard.Settle; Dashboard.Settle; Dashboard.Upload (Some "blob:sample");
   Dashboard.Settle].

Definition retry_component : Dashboard.Component :=
  Dashboard.run retry_env settle_upload_settle.

(** The call of [analyzeImage] gets as far as the synthetic generator: the
    guard lets it through and the fallback branch is taken or [predict]
    throws. *)
Definition reaches_generator (sc : Dashboard.State)
    (imageRef_current : option HTMLImageElement) (w : World Dashboard.State) : bool :=
  match guarded_image (Dashboard.image sc) imageRef_current with
  | None => false
  | Some img =>
      match Dashboard.model sc with
      | Some m =>
          if negb (JS.truthy (Dashboard.modelLoadError sc))
          then match predict m (inferences w) img with
               | Ok _ => false
               | Throw _ => true
               end
          else true
      | None => true
      end
  end.

(** * Proofs *)

(** ** Facts about JavaScript numbers *)

Module JSFacts.

Lemma le_refl (a : JS.number) : a <> JS.NaN -> JS.le a a.
Proof. destruct a; simpl; intros H; try exact I; [apply Qle_refl | congruence]. Qed.

Lemma le_trans (a b c : JS.number) : JS.le a b -> JS.le b c -> JS.le a c.
Proof.
  destruct a, b, c; simpl; try tauto.
  apply Qle_trans.
Qed.

(** [a > b] is false on two numbers that are not [NaN] exactly when [a <= b]. *)
Lemma gt_false_le (a b : JS.number) :
  a <> JS.NaN -> b <> JS.NaN -> JS.gt a b = false -> JS.le a b.
Proof.
  destruct a as [x| | |], b as [y| | |]; simpl; intros Ha Hb H;
    try congruence; try exact I.
  destruct (x ?= y)%Q eqn:E; try discriminate.
  - apply Qeq_alt in E. rewrite E. apply Qle_refl.
  - apply Qlt_alt in E. apply Qlt_le_weak, E.
Qed.

Lemma gt_true_lt (a b : JS.number) : JS.gt a b = true -> JS.lt b a.
Proof.
  destruct a as [x| | |], b as [y| | |]; simpl; intros H;
    try discriminate; try exact I.
  destruct (x ?= y)%Q eqn:E; try discriminate.
  apply Qgt_alt in E. exact E.
Qed.

Lemma lt_le (a b : JS.number) : JS.lt a b -> JS.le a b.
Proof.
  destruct a, b; simpl; try tauto. apply Qlt_le_weak.
Qed.

End JSFacts.

(** ** Facts about binary64 rounding *)

Module FloatFacts.

Import JS.
Local Open Scope Q_scope.

Lemma pow2_pos (e : Z) : 0 < pow2 e.
Proof. apply Qpower_0_lt. reflexivity. Qed.

Lemma pow2_add (a b : Z) : pow2 (a + b) == pow2 a * pow2 b.
Proof. apply Qpower_plus. discriminate. Qed.

Lemma pow2_lt (a b : Z) : (a < b)%Z -> pow2 a < pow2 b.
Proof. intros H. apply Qpower_lt_compat_l; [exact H | reflexivity]. Qed.

Lemma pow2_le (a b : Z) : (a <= b)%Z -> pow2 a <= pow2 b.
Proof. intros H. apply Qpower_le_compat_l; [exact H | discriminate]. Qed.

Lemma pow2_lt_inv (a b : Z) : pow2 a < pow2 b -> (a < b)%Z.
Proof. intros H. apply (Qpower_lt_compat_l_inv 2); [exact H | reflexivity]. Qed.

Lemma pow2_inject (k : Z) : (0 <= k)%Z -> pow2 k == inject_Z (2 ^ k).
Proof. intros H. unfold pow2. rewrite Zpower_Qpower by exact H. reflexivity. Qed.

Lemma pow2_succ (e : Z) : pow2 (e + 1) == 2 * pow2 e.
Proof. rewrite pow2_add. change (pow2 1) with 2. ring. Qed.

Lemma pow2_pred (e : Z) : pow2 (e - 1) == pow2 e * (1 # 2).
Proof.
  assert (H := pow2_succ (e - 1)).
  replace (e - 1 + 1)%Z with e in H by lia. rewrite H. field.
Qed.

(** [ilog2 q] is the integer part of the binary logarithm of [q]. *)
Lemma ilog2_spec (q : Q) :
  0 < q -> pow2 (ilog2 q) <= q /\ q < pow2 (ilog2 q + 1).
Proof.
  intros Hq. destruct q as [a b].
  assert (Ha : (0 < a)%Z).
  { unfold Qlt in Hq. simpl in Hq. lia. }
  unfold ilog2. cbn [Qnum Qden].
  set (la := Z.log2 a). set (lb := Z.log2 (Z.pos b)).
  destruct (Z.log2_spec a Ha) as [Ha1 Ha2]. fold la in Ha1, Ha2.
  destruct (Z.log2_spec (Z.pos b) eq_refl) as [Hb1 Hb2]. fold lb in Hb1, Hb2.
  assert (Hla : (0 <= la)%Z) by apply Z.log2_nonneg.
  assert (Hlb : (0 <= lb)%Z) by apply Z.log2_nonneg.
  assert (Hab : a # b == inject_Z a / inject_Z (Z.pos b)) by apply Qmake_Qdiv.
  assert (Hbp : 0 < inject_Z (Z.pos b)) by reflexivity.
  (* the bounds on numerator and denominator, in Q *)
  assert (Qa1 : pow2 la <= inject_Z a).
  { rewrite pow2_inject by exact Hla. rewrite <- Zle_Qle. exact Ha1. }
  assert (Qa2 : inject_Z a < pow2 (la + 1)).
  { rewrite pow2_inject by lia. rewrite <- Zlt_Qlt. exact Ha2. }
  assert (Qb1 : pow2 lb <= inject_Z (Z.pos b)).
  { rewrite pow2_inject by exact Hlb. rewrite <- Zle_Qle. exact Hb1. }
  assert (Qb2 : inject_Z (Z.pos b) < pow2 (lb + 1)).
  { rewrite pow2_inject by lia. rewrite <- Zlt_Qlt. exact Hb2. }
  assert (Hup : a # b < pow2 (la - lb + 1)).
  { rewrite Hab. apply Qlt_shift_div_r; [exact Hbp|].
    assert (E : pow2 (la + 1) == pow2 (la - lb + 1) * pow2 lb).
    { rewrite <- pow2_add. replace (la - lb + 1 + lb)%Z with (la + 1)%Z by lia.
      reflexivity. }
    pose proof (pow2_pos (la - lb + 1)). nra. }
  assert (Hlow : pow2 (la - lb - 1) <= a # b).
  { rewrite Hab. apply Qle_shift_div_l; [exact Hbp|].
    assert (E : pow2 la == pow2 (la - lb - 1) * pow2 (lb + 1)).
    { rewrite <- pow2_add. replace (la - lb - 1 + (lb + 1))%Z with la by lia.
      reflexivity. }
    pose proof (pow2_pos (la - lb - 1)). nra. }
  destruct (Qle_bool (pow2 (la - lb)) (a # b)) eqn:Hc.
  - apply Qle_bool_iff in Hc. split; assumption.
  - split; [exact Hlow|].
    replace (la - lb - 1 + 1)%Z with (la - lb)%Z by lia.
    apply Qnot_le_lt. intros Hle. apply Qle_bool_iff in Hle. congruence.
Qed.

Lemma ilog2_unique (q : Q) (k : Z) :
  pow2 k <= q -> q < pow2 (k + 1) -> ilog2 q = k.
Proof.
  intros H1 H2.
  assert (Hq : 0 < q) by (pose proof (pow2_pos k); lra).
  destruct (ilog2_spec q Hq) as [H3 H4].
  assert (ilog2 q < k + 1)%Z by (apply pow2_lt_inv; lra).
  assert (k < ilog2 q + 1)%Z by (apply pow2_lt_inv; lra).
  lia.
Qed.

Lemma ilog2_lt (q : Q) (k : Z) : 0 < q -> q < pow2 k -> (ilog2 q < k)%Z.
Proof.
  intros Hq H. destruct (ilog2_spec q Hq) as [H1 _].
  apply pow2_lt_inv. lra.
Qed.

Lemma ilog2_ge (q : Q) (k : Z) : pow2 k <= q -> (k <= ilog2 q)%Z.
Proof.
  intros H.
  assert (Hq : 0 < q) by (pose proof (pow2_pos k); lra).
  destruct (ilog2_spec q Hq) as [_ H2].
  assert (k < ilog2 q + 1)%Z by (apply pow2_lt_inv; lra). lia.
Qed.

Lemma ilog2_mono (p q : Q) : 0 < p -> p <= q -> (ilog2 p <= ilog2 q)%Z.
Proof.
  intros Hp Hpq. apply ilog2_ge. destruct (ilog2_spec p Hp). lra.
Qed.

Lemma ilog2_comp (p q : Q) : 0 < p -> p == q -> ilog2 p = ilog2 q.
Proof.
  intros Hp E. symmetry. destruct (ilog2_spec p Hp).
  apply ilog2_unique; rewrite <- E; assumption.
Qed.

(** *** Rounding to the nearest integer, ties to even *)

Lemma nearest_even_cases (x : Q) :
  (nearest_even x = Qfloor x /\ x - inject_Z (Qfloor x) <= 1 # 2) \/
  (nearest_even x = (Qfloor x + 1)%Z /\ 1 # 2 <= x - inject_Z (Qfloor x)).
Proof.
  unfold nearest_even.
  destruct (Qcompare_spec (x - inject_Z (Qfloor x)) (1 # 2)) as [E|L|G].
  - destruct (Z.even (Qfloor x)); [left | right]; split; try reflexivity; lra.
  - left. split; [reflexivity | lra].
  - right. split; [reflexivity | lra].
Qed.

Lemma nearest_even_error (x : Q) :
  - (1 # 2) <= inject_Z (nearest_even x) - x <= 1 # 2.
Proof.
  pose proof (Qfloor_le x) as Hf. pose proof (Qlt_floor x) as Hc.
  rewrite inject_Z_plus in Hc. change (inject_Z 1) with 1 in Hc.
  destruct (nearest_even_cases x) as [[-> H]|[-> H]].
  - lra.
  - rewrite inject_Z_plus. change (inject_Z 1) with 1. lra.
Qed.

Lemma nearest_even_Z (z : Z) : nearest_even (inject_Z z) = z.
Proof.
  unfold nearest_even. rewrite Qfloor_Z.
  destruct (Qcompare_spec (inject_Z z - inject_Z z) (1 # 2)) as [E|L|G].
  - exfalso. lra.
  - reflexivity.
  - exfalso. lra.
Qed.

Lemma nearest_even_comp (x y : Q) : x == y -> nearest_even x = nearest_even y.
Proof.
  intros E. unfold nearest_even. rewrite (Qfloor_comp x y E).
  assert (Hc : (x - inject_Z (Qfloor y) ?= 1 # 2) = (y - inject_Z (Qfloor y) ?= 1 # 2)).
  { apply Qcompare_comp; [rewrite E; reflexivity | reflexivity]. }
  rewrite Hc. reflexivity.
Qed.

Lemma nearest_even_mono (x y : Q) : x <= y -> (nearest_even x <= nearest_even y)%Z.
Proof.
  intros Hxy. pose proof (Qfloor_resp_le x y Hxy) as Hf.
  destruct (Z.eq_dec (Qfloor x) (Qfloor y)) as [E|N].
  - unfold nearest_even. rewrite E.
    destruct (Qcompare_spec (x - inject_Z (Qfloor y)) (1 # 2)) as [Ex|Lx|Gx];
      destruct (Qcompare_spec (y - inject_Z (Qfloor y)) (1 # 2)) as [Ey|Ly|Gy];
      try (destruct (Z.even (Qfloor y))); try lia; exfalso; lra.
  - destruct (nearest_even_cases x) as [[-> _]|[-> _]];
      destruct (nearest_even_cases y) as [[-> _]|[-> _]]; lia.
Qed.

(** *** The nearest binary64 number *)

Lemma ulp_exponent_of_pos (q : Q) :
  0 < q -> ulp_exponent q = Z.max (ilog2 q - 52) (-1074).
Proof.
  intros Hq. unfold ulp_exponent.
  rewrite (ilog2_comp (Qabs q) q).
  - reflexivity.
  - rewrite Qabs_pos by lra. exact Hq.
  - apply Qabs_pos. lra.
Qed.

Lemma ulp_exponent_min (q : Q) : (-1074 <= ulp_exponent q)%Z.
Proof. unfold ulp_exponent. lia. Qed.

Lemma ulp_exponent_upper (q : Q) : 0 < q -> q < pow2 (ulp_exponent q + 53).
Proof.
  intros Hq. rewrite (ulp_exponent_of_pos q Hq).
  destruct (ilog2_spec q Hq) as [_ H].
  eapply Qlt_le_trans; [exact H|]. apply pow2_le. lia.
Qed.

Lemma ulp_exponent_lower (q : Q) :
  0 < q -> (-1074 < ulp_exponent q)%Z -> pow2 (ulp_exponent q + 52) <= q.
Proof.
  intros Hq. rewrite (ulp_exponent_of_pos q Hq). intros He.
  destruct (ilog2_spec q Hq) as [H _].
  eapply Qle_trans; [|exact H]. apply pow2_le. lia.
Qed.

Lemma ulp_exponent_mono (p q : Q) :
  0 < p -> p <= q -> (ulp_exponent p <= ulp_exponent q)%Z.
Proof.
  intros Hp Hpq.
  rewrite (ulp_exponent_of_pos p Hp), (ulp_exponent_of_pos q) by lra.
  pose proof (ilog2_mono p q Hp Hpq). lia.
Qed.

Lemma ulp_exponent_le (q : Q) (k : Z) :
  0 < q -> q < pow2 (k + 53) -> (-1074 <= k)%Z -> (ulp_exponent q <= k)%Z.
Proof.
  intros Hq H Hk. rewrite (ulp_exponent_of_pos q Hq).
  pose proof (ilog2_lt q (k + 53) Hq H). lia.
Qed.

Lemma ulp_exponent_comp (p q : Q) :
  ~ p == 0 -> p == q -> ulp_exponent p = ulp_exponent q.
Proof.
  intros Hp E. unfold ulp_exponent.
  rewrite (ilog2_comp (Qabs p) (Qabs q)).
  - reflexivity.
  - destruct (Qlt_le_dec 0 p).
    + rewrite Qabs_pos; lra.
    + rewrite Qabs_neg by lra. destruct (Qeq_dec p 0); [contradiction|]. lra.
  - rewrite E. reflexivity.
Qed.

Lemma nearest64_zero (q : Q) : q == 0 -> nearest64 q == 0.
Proof.
  intros E. unfold nearest64. generalize (pow2 (ulp_exponent q)). intros d.
  rewrite (nearest_even_comp (q / d) (inject_Z 0)).
  - rewrite nearest_even_Z. change (inject_Z 0) with 0. ring.
  - rewrite E. change (inject_Z 0) with 0. unfold Qdiv. ring.
Qed.

Lemma nearest64_comp (p q : Q) : p == q -> nearest64 p == nearest64 q.
Proof.
  intros E. destruct (Qeq_dec p 0) as [Z|N].
  - rewrite (nearest64_zero p Z), (nearest64_zero q) by (rewrite <- E; exact Z).
    reflexivity.
  - unfold nearest64. rewrite (ulp_exponent_comp p q N E).
    generalize (pow2 (ulp_exponent q)). intros d.
    rewrite (nearest_even_comp (p / d) (q / d)).
    + reflexivity.
    + rewrite E. reflexivity.
Qed.

Lemma nearest64_nonneg (q : Q) : 0 <= q -> 0 <= nearest64 q.
Proof.
  intros Hq. unfold nearest64.
  pose proof (pow2_pos (ulp_exponent q)) as Hp.
  assert (H : (0 <= nearest_even (q / pow2 (ulp_exponent q)))%Z).
  { rewrite <- (nearest_even_Z 0). apply nearest_even_mono.
    change (inject_Z 0) with 0. apply Qle_shift_div_l; [exact Hp | lra]. }
  rewrite Zle_Qle in H. change (inject_Z 0) with 0 in H. nra.
Qed.

(** The rounding error is at most half a unit in the last place. *)
Lemma nearest64_error (q : Q) :
  Qabs (nearest64 q - q) <= pow2 (ulp_exponent q - 1).
Proof.
  unfold nearest64. set (e := ulp_exponent q).
  pose proof (pow2_pos e) as Hp.
  pose proof (nearest_even_error (q / pow2 e)) as [H1 H2].
  rewrite pow2_pred.
  assert (E : q == q / pow2 e * pow2 e) by (field; lra).
  set (x := q / pow2 e) in *. set (n := inject_Z (nearest_even x)) in *.
  apply Qabs_Qle_condition. split.
  - setoid_replace (n * pow2 e - q) with ((n - x) * pow2 e) by (rewrite E at 1; ring).
    nra.
  - setoid_replace (n * pow2 e - q) with ((n - x) * pow2 e) by (rewrite E at 1; ring).
    nra.
Qed.

(** Relative form: the error is at most [2^-53] of the value, or half the
    smallest subnormal number. *)
Lemma nearest64_relative (q : Q) :
  0 <= q -> Qabs (nearest64 q - q) <= q * pow2 (-53) + pow2 (-1075).
Proof.
  intros Hq. destruct (Qeq_dec q 0) as [Z|N].
  - rewrite (nearest64_zero q Z), Z.
    setoid_replace (0 - 0) with 0 by ring. simpl Qabs.
    pose proof (pow2_pos (-1075)). pose proof (pow2_pos (-53)). lra.
  - assert (Hpos : 0 < q) by (destruct (Qle_lt_or_eq _ _ Hq); [assumption|]; exfalso; apply N; symmetry; assumption).
    eapply Qle_trans; [apply nearest64_error|].
    pose proof (pow2_pos (-1075)). pose proof (pow2_pos (-53)).
    destruct (Z.eq_dec (ulp_exponent q) (-1074)) as [E|E].
    + rewrite E. change (-1074 - 1)%Z with (-1075)%Z. nra.
    + pose proof (ulp_exponent_min q).
      pose proof (ulp_exponent_lower q Hpos ltac:(lia)) as Hl.
      assert (Hs : pow2 (ulp_exponent q - 1) == pow2 (ulp_exponent q + 52) * pow2 (-53)).
      { rewrite <- pow2_add. replace (ulp_exponent q + 52 + -53)%Z with (ulp_exponent q - 1)%Z by lia.
        reflexivity. }
      rewrite Hs. nra.
Qed.

Lemma nearest64_mono (p q : Q) : 0 <= p -> p <= q -> nearest64 p <= nearest64 q.
Proof.
  intros Hp Hpq. destruct (Qeq_dec p 0) as [Z|N].
  - rewrite (nearest64_zero p Z). apply nearest64_nonneg. lra.
  - assert (Hpos : 0 < p) by (destruct (Qle_lt_or_eq _ _ Hp); [assumption|]; exfalso; apply N; symmetry; assumption).
    assert (Hq : 0 < q) by lra.
    pose proof (ulp_exponent_mono p q Hpos Hpq) as He.
    unfold nearest64.
    set (ep := ulp_exponent p) in *. set (eq := ulp_exponent q) in *.
    pose proof (pow2_pos ep) as Pp. pose proof (pow2_pos eq) as Pq.
    destruct (Z.eq_dec ep eq) as [E|E].
    + rewrite E.
      assert (H : (nearest_even (p / pow2 eq) <= nearest_even (q / pow2 eq))%Z).
      { apply nearest_even_mono. unfold Qdiv. apply Qmult_le_compat_r; [exact Hpq|].
        apply Qlt_le_weak, Qinv_lt_0_compat, Pq. }
      rewrite Zle_Qle in H. nra.
    + (* [q] lies in a higher binade: the boundary separates the two *)
      assert (Hlt : (ep < eq)%Z) by lia.
      pose proof (ulp_exponent_min p) as Hmin. fold ep in Hmin.
      pose proof (ulp_exponent_upper p Hpos) as Hup. fold ep in Hup.
      pose proof (ulp_exponent_lower q Hq ltac:(fold eq; lia)) as Hlow. fold eq in Hlow.
      assert (H1 : (nearest_even (p / pow2 ep) <= 2 ^ 53)%Z).
      { rewrite <- (nearest_even_Z (2 ^ 53)). apply nearest_even_mono.
        apply Qle_shift_div_r; [exact Pp|].
        rewrite <- (pow2_inject 53) by lia. rewrite <- pow2_add.
        replace (53 + ep)%Z with (ep + 53)%Z by lia. lra. }
      assert (H2 : (2 ^ 52 <= nearest_even (q / pow2 eq))%Z).
      { rewrite <- (nearest_even_Z (2 ^ 52)). apply nearest_even_mono.
        apply Qle_shift_div_l; [exact Pq|].
        rewrite <- (pow2_inject 52) by lia. rewrite <- pow2_add.
        replace (52 + eq)%Z with (eq + 52)%Z by lia. exact Hlow. }
      rewrite Zle_Qle in H1, H2.
      rewrite <- (pow2_inject 53) in H1 by lia.
      rewrite <- (pow2_inject 52) in H2 by lia.
      assert (Hb : pow2 53 * pow2 ep <= pow2 52 * pow2 eq).
      { rewrite <- !pow2_add. apply pow2_le. lia. }
      pose proof (pow2_pos 53). pose proof (pow2_pos 52).
      apply Qle_trans with (pow2 53 * pow2 ep); [nra|].
      apply Qle_trans with (pow2 52 * pow2 eq); [exact Hb | nra].
Qed.

(** A multiple of a power of two that is at least the unit in the last
    place is a binary64 number. *)
Lemma nearest64_exact (q : Q) (m e : Z) :
  q == inject_Z m * pow2 e -> (ulp_exponent q <= e)%Z -> nearest64 q == q.
Proof.
  intros E He. unfold nearest64. set (u := ulp_exponent q) in *.
  pose proof (pow2_pos u) as Pu.
  assert (Hx : q / pow2 u == inject_Z (m * 2 ^ (e - u))).
  { rewrite inject_Z_mult, <- pow2_inject by lia.
    rewrite E. replace e with ((e - u) + u)%Z at 1 by lia. rewrite pow2_add.
    field. lra. }
  rewrite (nearest_even_comp _ _ Hx), nearest_even_Z, <- Hx. field. lra.
Qed.

Lemma nearest64_idempotent (q : Q) : 0 <= q -> nearest64 (nearest64 q) == nearest64 q.
Proof.
  intros Hq. destruct (Qeq_dec q 0) as [Z|N].
  - rewrite (nearest64_comp _ _ (nearest64_zero q Z)).
    rewrite (nearest64_zero q Z). apply nearest64_zero. reflexivity.
  - assert (Hpos : 0 < q) by (destruct (Qle_lt_or_eq _ _ Hq); [assumption|]; exfalso; apply N; symmetry; assumption).
    set (u := ulp_exponent q). set (n := nearest_even (q / pow2 u)).
    assert (Hr : nearest64 q == inject_Z n * pow2 u) by reflexivity.
    pose proof (pow2_pos u) as Pu.
    pose proof (ulp_exponent_min q) as Hmin. fold u in Hmin.
    pose proof (ulp_exponent_upper q Hpos) as Hup. fold u in Hup.
    assert (Hn0 : (0 <= n)%Z).
    { unfold n. rewrite <- (nearest_even_Z 0). apply nearest_even_mono.
      change (inject_Z 0) with 0. apply Qle_shift_div_l; [exact Pu | lra]. }
    assert (Hn : (n <= 2 ^ 53)%Z).
    { unfold n. rewrite <- (nearest_even_Z (2 ^ 53)). apply nearest_even_mono.
      apply Qle_shift_div_r; [exact Pu|].
      rewrite <- (pow2_inject 53) by lia. rewrite <- pow2_add.
      replace (53 + u)%Z with (u + 53)%Z by lia. lra. }
    destruct (Z.eq_dec n 0) as [E0|N0].
    { assert (Hz : nearest64 q == 0)
        by (rewrite Hr, E0; change (inject_Z 0) with 0; ring).
      rewrite (nearest64_zero _ Hz). symmetry. exact Hz. }
    assert (Hrpos : 0 < nearest64 q).
    { rewrite Hr. assert (H : (1 <= n)%Z) by lia. rewrite Zle_Qle in H.
      change (inject_Z 1) with 1 in H. nra. }
    destruct (Z.eq_dec n (2 ^ 53)) as [E|E].
    + (* rounded up to the next power of two *)
      apply (nearest64_exact _ 1 (u + 53)).
      * rewrite Hr, E, <- (pow2_inject 53) by lia. rewrite pow2_add.
        change (inject_Z 1) with 1. ring.
      * apply ulp_exponent_le; [exact Hrpos | | lia].
        rewrite Hr, E, <- (pow2_inject 53) by lia. rewrite <- pow2_add.
        apply pow2_lt. lia.
    + apply (nearest64_exact _ n u); [exact Hr|].
      apply ulp_exponent_le; [exact Hrpos | | lia].
      rewrite Hr. assert (H : (n + 1 <= 2 ^ 53)%Z) by lia.
      rewrite Zle_Qle, inject_Z_plus, <- (pow2_inject 53) in H by lia.
      change (inject_Z 1) with 1 in H. rewrite pow2_add. nra.
Qed.

(** *** Binary64 numbers *)

Lemma is_double_comp (p q : Q) : p == q -> is_double p -> is_double q.
Proof.
  unfold is_double. intros E H. rewrite <- (nearest64_comp p q E), H. exact E.
Qed.

Lemma is_double_nearest (q : Q) : 0 <= q -> is_double (nearest64 q).
Proof. apply nearest64_idempotent. Qed.

Lemma is_double_zero : is_double 0.
Proof. apply nearest64_zero. reflexivity. Qed.

Lemma is_double_Z (n : Z) : (0 <= n < 2 ^ 53)%Z -> is_double (inject_Z n).
Proof.
  intros [H0 Hn]. destruct (Z.eq_dec n 0) as [->|N].
  - apply is_double_zero.
  - apply (nearest64_exact _ n 0).
    + change (pow2 0) with 1. ring.
    + apply ulp_exponent_le.
      * rewrite <- (Zlt_Qlt 0). lia.
      * change (0 + 53)%Z with 53%Z. rewrite pow2_inject by lia.
        rewrite <- Zlt_Qlt. exact Hn.
      * lia.
Qed.

(** Rounding respects binary64 bounds. *)
Lemma nearest64_between (q lo hi : Q) :
  0 <= lo -> lo <= q -> q <= hi -> is_double lo -> is_double hi ->
  lo <= nearest64 q <= hi.
Proof.
  unfold is_double. intros H0 Hl Hh Dl Dh. split.
  - rewrite <- Dl. apply nearest64_mono; assumption.
  - rewrite <- Dh. apply nearest64_mono; lra.
Qed.

Lemma round64_finite (q : Q) :
  0 <= q -> nearest64 q < pow2 1024 -> round64 q = Fin (Qred (nearest64 q)).
Proof.
  intros Hq Hr. unfold round64.
  destruct (Qle_bool (pow2 1024) (Qabs (nearest64 q))) eqn:E; [|reflexivity].
  apply Qle_bool_iff in E. rewrite Qabs_pos in E by (apply nearest64_nonneg; exact Hq).
  exfalso. lra.
Qed.

(** The rounded result of an operation whose exact result lies between two
    binary64 numbers. *)
Lemma round64_between (q lo hi : Q) :
  0 <= lo -> lo <= q -> q <= hi -> is_double lo -> is_double hi ->
  hi < pow2 1024 ->
  exists v, round64 q = Fin v /\ v == nearest64 q /\ lo <= v /\ v <= hi /\ is_double v.
Proof.
  intros H0 Hl Hh Dl Dh Hfin.
  destruct (nearest64_between q lo hi H0 Hl Hh Dl Dh) as [B1 B2].
  exists (Qred (nearest64 q)).
  assert (E : Qred (nearest64 q) == nearest64 q) by apply Qred_correct.
  split; [apply round64_finite; lra|].
  split; [exact E|].
  split; [rewrite E; exact B1|]. split; [rewrite E; exact B2|].
  apply (is_double_comp (nearest64 q)); [symmetry; exact E|].
  apply is_double_nearest. lra.
Qed.

(** The same when only a bound [qmax] of the exact result is known, which
    itself is rounded to at most [hi]. *)
Lemma round64_below (q lo qmax hi : Q) :
  0 <= lo -> lo <= q -> q <= qmax -> is_double lo ->
  nearest64 qmax <= hi -> hi < pow2 1024 ->
  exists v, round64 q = Fin v /\ v == nearest64 q /\ lo <= v /\ v <= hi /\ is_double v.
Proof.
  unfold is_double. intros H0 Hl Hh Dl Hmax Hfin.
  assert (B1 : lo <= nearest64 q).
  { rewrite <- Dl. apply nearest64_mono; assumption. }
  assert (B2 : nearest64 q <= hi).
  { eapply Qle_trans; [|exact Hmax]. apply nearest64_mono; lra. }
  exists (Qred (nearest64 q)).
  assert (E : Qred (nearest64 q) == nearest64 q) by apply Qred_correct.
  split; [apply round64_finite; lra|].
  split; [exact E|].
  split; [rewrite E; exact B1|]. split; [rewrite E; exact B2|].
  apply (is_double_comp (nearest64 q)); [symmetry; exact E|].
  apply is_double_nearest. lra.
Qed.

(** The largest binary64 number below 1 is [1 - 2^-53]. *)
Lemma double_below_one (q : Q) :
  is_double q -> 0 <= q -> q < 1 -> q <= 1 - pow2 (-53).
Proof.
  intros D H0 H1. apply Qnot_lt_le. intros Hc.
  change (pow2 (-53)) with (1 # 9007199254740992) in Hc.
  assert (Hq : 0 < q) by lra.
  assert (Hlog : ilog2 q = (-1)%Z).
  { apply ilog2_unique.
    - change (pow2 (-1)) with (1 # 2). lra.
    - change (pow2 (-1 + 1)) with 1. exact H1. }
  assert (He : ulp_exponent q = (-53)%Z).
  { rewrite (ulp_exponent_of_pos q Hq), Hlog. reflexivity. }
  unfold is_double, nearest64 in D. rewrite He in D.
  set (m := nearest_even (q / pow2 (-53))) in D.
  change (pow2 (-53)) with (1 # 9007199254740992) in D.
  assert (Hlo : inject_Z (2 ^ 53 - 1) < inject_Z m).
  { change (inject_Z (2 ^ 53 - 1)) with (9007199254740991 # 1). lra. }
  assert (Hhi : inject_Z m < inject_Z (2 ^ 53)).
  { change (inject_Z (2 ^ 53)) with (9007199254740992 # 1). lra. }
  rewrite <- Zlt_Qlt in Hlo, Hhi. lia.
Qed.

(** [Math.floor(Math.random() * n)] is an index below [n]: the product of a
    binary64 number below 1 with an integer [n] is rounded to a number
    below [n]. *)
Lemma product_below (r : Q) (n : Z) :
  0 <= r -> r <= 1 - pow2 (-53) -> (1 <= n)%Z ->
  nearest64 (r * inject_Z n) < inject_Z n.
Proof.
  intros H0 H1 Hn.
  set (N := inject_Z n).
  assert (HN : 1 <= N) by (unfold N; rewrite <- (Zle_Qle 1); exact Hn).
  set (x := r * N).
  assert (Hx0 : 0 <= x) by (unfold x; nra).
  set (u := pow2 (-53)) in *.
  assert (Hu : 0 < u) by apply pow2_pos.
  assert (Hxle : x <= N - N * u) by (unfold x; nra).
  destruct (Qeq_dec x 0) as [Z|NZ].
  { rewrite (nearest64_zero x Z). lra. }
  assert (Hx : 0 < x)
    by (destruct (Qle_lt_or_eq _ _ Hx0); [assumption|]; exfalso; apply NZ; symmetry; assumption).
  set (k := Z.log2 n).
  destruct (Z.log2_spec n ltac:(lia)) as [Hk1 Hk2]. fold k in Hk1, Hk2.
  assert (Hk : (0 <= k)%Z) by apply Z.log2_nonneg.
  assert (Qk1 : pow2 k <= N).
  { rewrite pow2_inject by exact Hk. unfold N. rewrite <- Zle_Qle. exact Hk1. }
  pose proof (pow2_pos k) as Pk.
  pose proof (nearest64_error x) as Herr.
  apply Qabs_Qle_condition in Herr. destruct Herr as [_ Herr].
  destruct (Z.eq_dec n (2 ^ k)) as [E|E].
  - (* [n] is a power of two *)
    assert (QE : N == pow2 k).
    { rewrite pow2_inject by exact Hk. unfold N. rewrite E. reflexivity. }
    assert (He : (ulp_exponent x <= k - 53)%Z).
    { apply ulp_exponent_le; [exact Hx | | lia].
      replace (k - 53 + 53)%Z with k by lia. nra. }
    assert (Hp : pow2 (ulp_exponent x - 1) <= pow2 (k - 54)) by (apply pow2_le; lia).
    assert (Hs : pow2 (k - 54) == pow2 k * (u * (1 # 2))).
    { unfold u. rewrite <- pow2_pred, <- pow2_add.
      replace (k + (-53 - 1))%Z with (k - 54)%Z by lia. reflexivity. }
    nra.
  - assert (Hgt : pow2 k < N).
    { rewrite pow2_inject by exact Hk. unfold N. rewrite <- Zlt_Qlt. lia. }
    assert (Qk2 : N < pow2 (k + 1)).
    { rewrite pow2_inject by lia. unfold N. rewrite <- Zlt_Qlt. exact Hk2. }
    assert (He : (ulp_exponent x <= k - 52)%Z).
    { apply ulp_exponent_le; [exact Hx | | lia].
      replace (k - 52 + 53)%Z with (k + 1)%Z by lia. nra. }
    assert (Hp : pow2 (ulp_exponent x - 1) <= pow2 (k - 53)) by (apply pow2_le; lia).
    assert (Hs : pow2 (k - 53) == pow2 k * u).
    { unfold u. rewrite <- pow2_add. replace (k + -53)%Z with (k - 53)%Z by lia.
      reflexivity. }
    nra.
Qed.

End FloatFacts.

(** ** The top prediction *)

Section TopPrediction.

(** The reducer keeps an accumulator that is a latest maximum of the
    entries consumed so far. *)
Lemma fold_pick_latest (rest seen : list Prediction) (acc : Prediction) :
  no_NaN (seen ++ rest) ->
  latest_max seen acc ->
  latest_max (seen ++ rest) (fold_left pick rest acc).
Proof.
  revert seen acc.
  induction rest as [|x rest IH]; intros seen acc Hnan Hacc.
  - simpl. rewrite app_nil_r. exact Hacc.
  - simpl.
    replace (seen ++ x :: rest)%list with ((seen ++ [x]) ++ rest)%list
      by (rewrite <- app_assoc; reflexivity).
    apply IH.
    + rewrite <- app_assoc. exact Hnan.
    + destruct Hacc as (i & (Hi & Hmax) & Hlate).
      assert (Hlen : (i < List.length seen)%nat)
        by (apply nth_error_Some; congruence).
      assert (Hacc_nan : probability acc <> JS.NaN).
      { apply nth_error_In in Hi.
        unfold no_NaN in Hnan. rewrite Forall_forall in Hnan.
        apply Hnan. apply in_or_app. left. exact Hi. }
      assert (Hx_nan : probability x <> JS.NaN).
      { unfold no_NaN in Hnan. rewrite Forall_forall in Hnan.
        apply Hnan. apply in_or_app. right. left. reflexivity. }
      unfold pick.
      destruct (JS.gt (probability acc) (probability x)) eqn:Hgt.
      * (* the accumulator stays *)
        apply JSFacts.gt_true_lt in Hgt.
        exists i. split; [split|].
        -- rewrite nth_error_app1 by exact Hlen. exact Hi.
        -- intros p Hp. apply in_app_or in Hp. destruct Hp as [Hp|[Hp|[]]].
           ++ apply Hmax, Hp.
           ++ subst p. apply JSFacts.lt_le, Hgt.
        -- intros j p Hj Hp.
           destruct (Nat.lt_ge_cases j (List.length seen)) as [Hjs|Hjs].
           ++ rewrite nth_error_app1 in Hp by exact Hjs. eapply Hlate; eauto.
           ++ rewrite nth_error_app2 in Hp by exact Hjs.
              destruct (j - List.length seen)%nat as [|k] eqn:Hk; simpl in Hp.
              ** injection Hp as <-. exact Hgt.
              ** destruct k; discriminate.
      * (* the current entry replaces it *)
        apply JSFacts.gt_false_le in Hgt; [|assumption|assumption].
        exists (List.length seen). split; [split|].
        -- rewrite nth_error_app2 by lia. rewrite Nat.sub_diag. reflexivity.
        -- intros p Hp. apply in_app_or in Hp. destruct Hp as [Hp|[Hp|[]]].
           ++ eapply JSFacts.le_trans; [apply Hmax, Hp | exact Hgt].
           ++ subst p. apply JSFacts.le_refl, Hx_nan.
        -- intros j p Hj Hp.
           assert (Hnone : nth_error (seen ++ [x]) j = None).
           { apply nth_error_None. rewrite length_app. simpl. lia. }
           congruence.
Qed.

End TopPrediction.

(** C1 (as amended).  For every non-empty prediction sequence without [NaN],
    the top prediction has a probability greater than or equal to that of
    every entry, and when several entries share the maximum it is the
    latest of them: every entry after it is strictly smaller. *)
Theorem topPrediction_is_latest_max (predictions : list Prediction) :
  predictions <> [] ->
  no_NaN predictions ->
  exists top, topPrediction predictions = Some top /\ latest_max predictions top.
Proof.
  intros Hne Hnan.
  destruct predictions as [|first rest]; [congruence|].
  exists (fold_left pick rest first). split; [reflexivity|].
  apply (fold_pick_latest rest [first] first Hnan).
  exists 0%nat. split; [split|].
  - reflexivity.
  - intros p [<-|[]]. apply JSFacts.le_refl.
    unfold no_NaN in Hnan. apply Forall_inv in Hnan. exact Hnan.
  - intros j p Hj Hp. destruct j as [|[|j]]; [lia| |]; discriminate.
Qed.

Lemma topPrediction_is_latest_max_witness :
  exists top, topPrediction tied_predictions = Some top
              /\ latest_max tied_predictions top.
Proof.
  apply (topPrediction_is_latest_max tied_predictions).
  - discriminate.
  - repeat constructor; discriminate.
Defined.

(** C1 as stated fails on a tie: of two entries with probability 1/2 the
    second is selected, and it is not the earliest entry with the maximum. *)
Lemma tie_resolves_to_the_later_entry :
  tied_predictions <> [] /\
  no_NaN tied_predictions /\
  topPrediction tied_predictions
    = Some {| className := "Sand"; probability := JS.Fin (1 # 2) |} /\
  ~ earliest_max tied_predictions
      {| className := "Sand"; probability := JS.Fin (1 # 2) |}.
Proof.
  split; [discriminate|].
  split; [repeat constructor; discriminate|].
  split; [reflexivity|].
  intros (i & (Hi & _) & Hbefore).
  destruct i as [|[|i]]; simpl in Hi.
  - discriminate.
  - specialize (Hbefore 0%nat {| className := "Clay"; probability := JS.Fin (1 # 2) |}).
    simpl in Hbefore.
    apply (Qlt_irrefl (1 # 2)). apply Hbefore; [lia | reflexivity].
  - destruct i; discriminate.
Qed.

(** ** The synthetic generator *)

Module GeneratorFacts.

Import Dashboard.

Lemma after_draws_0 {St : Type} (w : World St) : after_draws w 0 = w.
Proof.
  destruct w as [s e d i]. unfold after_draws. simpl.
  rewrite app_nil_r, Nat.add_0_r. reflexivity.
Qed.

Lemma after_draws_S {St : Type} (w : World St) (k : nat) :
  after_draws (after_draws w 1) k = after_draws w (S k).
Proof.
  destruct w as [s e d i]. unfold after_draws. simpl.
  rewrite <- app_assoc. simpl.
  replace (d + 1)%nat with (S d) by lia.
  replace (S d + k)%nat with (d + S k)%nat by lia.
  reflexivity.
Qed.

(** One iteration pushes the closed-form entry and consumes one draw. *)
Lemma forEach_body_run (env : Env) (dom : JS.number) (label : string)
    (index : nat) (mock : list Prediction) (w : World State) :
  forEach_body env dom label index mock w
  = (Ok (mock ++ [ {| className := label;
                      probability := raw_probability env dom index (draws w) |} ])%list,
     after_draws w 1).
Proof.
  unfold forEach_body, raw_probability, bind, Math_random, ret, after_draws.
  destruct (JS.strict_eq (JS.of_nat index) dom); simpl;
    rewrite Nat.add_1_r; reflexivity.
Qed.

(** The loop never throws; it pushes the closed-form entries and consumes
    one draw per label. *)
Lemma forEach_run (env : Env) (dom : JS.number) (labels : list string) :
  forall (index : nat) (mock : list Prediction) (w : World State),
    forEach env dom labels index mock w
    = (Ok (mock ++ raw_entries env dom labels index (draws w))%list,
       after_draws w (List.length labels)).
Proof.
  induction labels as [|label rest IH]; intros index mock w.
  - simpl. unfold ret. rewrite app_nil_r, after_draws_0. reflexivity.
  - simpl. unfold bind at 1. rewrite forEach_body_run, IH.
    rewrite after_draws_S, <- app_assoc. simpl.
    replace (draws w + 1)%nat with (S (draws w)) by lia.
    reflexivity.
Qed.

Lemma drawMockPredictions_run (env : Env) (labels : list string) (w : World State) :
  drawMockPredictions env labels w
  = (Ok (raw_entries env (dominant_index env (List.length labels) (draws w))
                     labels 0 (S (draws w))),
     after_draws w (S (List.length labels))).
Proof.
  unfold drawMockPredictions, bind, Math_random.
  rewrite forEach_run. simpl.
  unfold dominant_index. f_equal.
  destruct w as [s e d i]. unfold after_draws. simpl.
  rewrite <- app_assoc. simpl.
  replace (S (d + List.length labels))%nat with (d + S (List.length labels))%nat by lia.
  reflexivity.
Qed.

End GeneratorFacts.

(** ** Sums and normalisation in binary64 *)

Module SumFacts.

Import Dashboard.
Local Open Scope Q_scope.

Lemma Qsum_nonneg (l : list Q) : Forall (fun q => 0 <= q) l -> 0 <= Qsum l.
Proof.
  induction 1 as [|x l Hx _ IH]; simpl; lra.
Qed.

Lemma Qsum_ge_elem (l : list Q) (q : Q) :
  Forall (fun q => 0 <= q) l -> In q l -> q <= Qsum l.
Proof.
  induction 1 as [|x l Hx Hl IH]; simpl; intros Hin; [contradiction|].
  pose proof (Qsum_nonneg _ Hl) as Hs.
  destruct Hin as [<-|Hin]; [lra|].
  specialize (IH Hin). lra.
Qed.

Lemma values_nonneg (l : list Prediction) :
  unit_doubles l -> Forall (fun q => 0 <= q) (values l).
Proof.
  intros H. unfold values. rewrite Forall_map.
  eapply Forall_impl; [|exact H]. intros p (q & Hq & _ & Hge & _).
  simpl. rewrite Hq. exact Hge.
Qed.

Lemma unit_doubles_finite (l : list Prediction) : unit_doubles l -> all_finite l.
Proof.
  intros H. eapply Forall_impl; [|exact H]. intros p (q & Hq & _). exists q. exact Hq.
Qed.

(** [2^53 + 1] is rounded to [2^53]: a sum of numbers in [0, 1] never
    grows past [2^53]. *)
Lemma cap_rounds_down : JS.nearest64 (JS.pow2 53 + 1) <= JS.pow2 53.
Proof. apply Qle_bool_iff. vm_compute. reflexivity. Qed.

Lemma cap_is_double : JS.is_double (JS.pow2 53).
Proof. unfold JS.is_double. apply Qeq_bool_iff. vm_compute. reflexivity. Qed.

(** One addition of the [reduce]: the accumulator stays a binary64 number
    that is at least both operands. *)
Lemma add_step (a v : Q) :
  JS.is_double a -> 0 <= a -> a <= JS.pow2 53 ->
  JS.is_double v -> 0 <= v -> v <= 1 ->
  exists a', JS.add (JS.Fin a) (JS.Fin v) = JS.Fin a' /\
             a' == JS.nearest64 (a + v) /\
             JS.is_double a' /\ a <= a' /\ v <= a' /\ a' <= JS.pow2 53.
Proof.
  intros Da Ha0 Ha Dv Hv0 Hv1.
  pose proof cap_rounds_down as Hcap.
  assert (Hup : JS.nearest64 (a + v) <= JS.pow2 53).
  { eapply Qle_trans; [|exact Hcap]. apply FloatFacts.nearest64_mono; lra. }
  assert (Hlo_a : a <= JS.nearest64 (a + v)).
  { unfold JS.is_double in Da. rewrite <- Da at 1.
    apply FloatFacts.nearest64_mono; lra. }
  assert (Hlo_v : v <= JS.nearest64 (a + v)).
  { unfold JS.is_double in Dv. rewrite <- Dv at 1.
    apply FloatFacts.nearest64_mono; lra. }
  assert (E : Qred (JS.nearest64 (a + v)) == JS.nearest64 (a + v)) by apply Qred_correct.
  exists (Qred (JS.nearest64 (a + v))).
  split.
  { simpl. apply FloatFacts.round64_finite; [lra|].
    eapply Qle_lt_trans; [exact Hup|]. apply FloatFacts.pow2_lt. lia. }
  split; [exact E|].
  split.
  { apply (FloatFacts.is_double_comp (JS.nearest64 (a + v))); [symmetry; exact E|].
    apply FloatFacts.is_double_nearest. lra. }
  rewrite E. auto.
Qed.

(** The [reduce] over raw probabilities, started from the accumulator [a]:
    the total is a binary64 number that is at least the accumulator and
    every summand. *)
Lemma fold_sum (l : list Prediction) :
  unit_doubles l ->
  forall a, JS.is_double a -> 0 <= a -> a <= JS.pow2 53 ->
  exists t,
    fold_left (fun sum p => JS.add sum (probability p)) l (JS.Fin a) = JS.Fin t /\
    JS.is_double t /\ a <= t /\ t <= JS.pow2 53 /\
    Forall (fun q => q <= t) (values l).
Proof.
  induction 1 as [|p l (v & Hv & Dv & Hv0 & Hv1) Hl IH]; intros a Da Ha0 Ha.
  - exists a. simpl. repeat split; auto; lra.
  - destruct (add_step a v Da Ha0 Ha Dv Hv0 Hv1) as (a' & Hadd & _ & Da' & Haa' & Hva' & Ha').
    destruct (IH a' Da' ltac:(lra) Ha') as (t & Ht & Dt & Hat & Htcap & Hall).
    exists t. cbn [fold_left]. rewrite Hv, Hadd.
    split; [exact Ht|]. split; [exact Dt|]. split; [lra|]. split; [exact Htcap|].
    unfold values. cbn [map]. constructor; [rewrite Hv; simpl; lra | exact Hall].
Qed.

(** The same total compared with the exact sum [S] of the [k] summands:
    each addition errs by at most [2^-53] of its result, plus half the
    smallest subnormal number. *)
Lemma fold_sum_error (l : list Prediction) :
  unit_doubles l ->
  forall a t, JS.is_double a -> 0 <= a -> a <= JS.pow2 53 ->
  fold_left (fun sum p => JS.add sum (probability p)) l (JS.Fin a) = JS.Fin t ->
  let k := inject_Z (Z.of_nat (List.length l)) in
  let u := JS.pow2 (-53) in
  let eta := JS.pow2 (-1075) in
  2 * k * u <= 1 ->
  (1 - k * u) * (a + Qsum (values l)) - k * eta <= t /\
  t <= (1 + 2 * k * u) * (a + Qsum (values l) + k * eta).
Proof.
  intros Hl. cbv zeta.
  pose proof (FloatFacts.pow2_pos (-53)) as Hu.
  pose proof (FloatFacts.pow2_pos (-1075)) as Heta.
  assert (Hu1 : JS.pow2 (-53) <= 1).
  { change 1 with (JS.pow2 0). apply FloatFacts.pow2_le. lia. }
  set (u := JS.pow2 (-53)) in *. set (eta := JS.pow2 (-1075)) in *.
  induction Hl as [|p l (v & Hv & Dv & Hv0 & Hv1) Hl IH]; intros a t Da Ha0 Ha Hfold Hk.
  - simpl in Hfold. injection Hfold as <-.
    unfold values. cbn [List.length Z.of_nat map Qsum fold_right].
    change (inject_Z 0) with 0. split; nra.
  - cbn [fold_left] in Hfold. rewrite Hv in Hfold.
    destruct (add_step a v Da Ha0 Ha Dv Hv0 Hv1) as (a' & Hadd & Ea' & Da' & Haa' & Hva' & Ha').
    rewrite Hadd in Hfold.
    assert (HS0 : 0 <= Qsum (values l)) by (apply Qsum_nonneg, values_nonneg, Hl).
    set (S' := Qsum (values l)) in *.
    set (k' := inject_Z (Z.of_nat (List.length l))) in *.
    assert (Hk0 : 0 <= k').
    { unfold k'. rewrite <- (Zle_Qle 0). lia. }
    assert (Ek : inject_Z (Z.of_nat (List.length (p :: l))) == k' + 1).
    { unfold k'. simpl List.length. rewrite Nat2Z.inj_succ, <- Z.add_1_r, inject_Z_plus.
      reflexivity. }
    rewrite Ek in Hk |- *.
    assert (Hk' : 2 * k' * u <= 1) by nra.
    destruct (IH a' t Da' ltac:(lra) Ha' Hfold Hk') as [IHlo IHhi].
    fold S' k' in IHlo, IHhi.
    (* the error of the first addition *)
    pose proof (FloatFacts.nearest64_relative (a + v) ltac:(lra)) as Herr.
    rewrite <- Ea' in Herr. fold u eta in Herr.
    apply Qabs_Qle_condition in Herr. destruct Herr as [Herr1 Herr2].
    simpl values. simpl Qsum. rewrite Hv. simpl value_of. fold S'.
    split.
    + (* lower bound *)
      assert (H1 : (1 - k' * u) * ((a + v) * (1 - u) - eta + S') - k' * eta <= t).
      { assert (0 <= 1 - k' * u) by nra. nra. }
      assert (H2 : (1 - (k' + 1) * u) * (a + (v + S')) - (k' + 1) * eta
                   <= (1 - k' * u) * ((a + v) * (1 - u) - eta + S') - k' * eta).
      { assert (E : (1 - k' * u) * ((a + v) * (1 - u) - eta + S') - k' * eta
                    - ((1 - (k' + 1) * u) * (a + (v + S')) - (k' + 1) * eta)
                    == k' * u * u * (a + v) + u * S' + k' * u * eta)
          by ring.
        assert (0 <= k' * u * u * (a + v)).
        { apply Qmult_le_0_compat; [|lra].
          apply Qmult_le_0_compat; [|lra]. nra. }
        assert (0 <= u * S') by (apply Qmult_le_0_compat; lra).
        assert (0 <= k' * u * eta).
        { apply Qmult_le_0_compat; [|lra]. nra. }
        lra. }
      lra.
    + (* upper bound *)
      assert (H1 : t <= (1 + 2 * k' * u) * ((a + v) * (1 + u) + eta + S' + k' * eta)).
      { assert (0 <= 1 + 2 * k' * u) by nra. nra. }
      assert (H2 : (1 + 2 * k' * u) * ((a + v) * (1 + u) + eta + S' + k' * eta)
                   <= (1 + 2 * (k' + 1) * u) * (a + (v + S') + (k' + 1) * eta)).
      { assert (E : (1 + 2 * (k' + 1) * u) * (a + (v + S') + (k' + 1) * eta)
                    - (1 + 2 * k' * u) * ((a + v) * (1 + u) + eta + S' + k' * eta)
                    == u * (1 - 2 * k' * u) * (a + v)
                       + 2 * u * (S' + (k' + 1) * eta))
          by ring.
        assert (0 <= u * (1 - 2 * k' * u) * (a + v)).
        { apply Qmult_le_0_compat; [|lra].
          apply Qmult_le_0_compat; [lra|]. lra. }
        assert (0 <= 2 * u * (S' + (k' + 1) * eta)).
        { apply Qmult_le_0_compat; [lra|]. nra. }
        lra. }
      lra.
Qed.

(** One division of the [map]: the quotient of a summand by the total is
    rounded to a number in [0, 1]. *)
Lemma div_step (v t : Q) :
  0 <= v -> v <= t -> 0 < t ->
  exists w, JS.div (JS.Fin v) (JS.Fin t) = JS.Fin w /\
            0 <= w /\ w <= 1 /\
            Qabs (w - v / t) <= v / t * JS.pow2 (-53) + JS.pow2 (-1075).
Proof.
  intros Hv0 Hvt Ht.
  assert (Hq0 : 0 <= v / t) by (apply Qle_shift_div_l; lra).
  assert (Hq1 : v / t <= 1) by (apply Qle_shift_div_r; lra).
  destruct (FloatFacts.round64_between (v / t) 0 1) as (w & Hw & Ew & Hw0 & Hw1 & _);
    try lra.
  - apply FloatFacts.is_double_zero.
  - apply (FloatFacts.is_double_Z 1). lia.
  - change 1 with (JS.pow2 0). apply FloatFacts.pow2_lt. lia.
  - exists w. split.
    + simpl. destruct (t ?= 0) eqn:E; try exact Hw.
      apply Qeq_alt in E. lra.
    + split; [exact Hw0|]. split; [exact Hw1|].
      rewrite Ew. apply FloatFacts.nearest64_relative. exact Hq0.
Qed.

(** The [map] that divides every raw probability by the total [t]. *)
Lemma normalize_run (raw : list Prediction) (t : Q) :
  unit_doubles raw ->
  0 < t ->
  Forall (fun q => q <= t) (values raw) ->
  let out := map (fun p => {| className := className p;
                              probability := JS.div (probability p) (JS.Fin t) |}) raw in
  map className out = map className raw /\
  Forall (fun p => exists w, probability p = JS.Fin w /\ 0 <= w <= 1) out /\
  Qabs (Qsum (values out) - Qsum (values raw) / t)
  <= Qsum (values raw) / t * JS.pow2 (-53)
     + inject_Z (Z.of_nat (List.length raw)) * JS.pow2 (-1075).
Proof.
  intros Hraw Ht. cbv zeta.
  pose proof (FloatFacts.pow2_pos (-53)) as Hu.
  pose proof (FloatFacts.pow2_pos (-1075)) as Heta.
  set (u := JS.pow2 (-53)) in *. set (eta := JS.pow2 (-1075)) in *.
  induction Hraw as [|p l (v & Hv & Dv & Hv0 & Hv1) Hl IH]; intros Hle.
  - unfold values. cbn [map Qsum fold_right List.length Z.of_nat].
    change (inject_Z 0) with 0.
    split; [reflexivity|]. split; [constructor|].
    assert (E : 0 / t == 0) by (field; lra).
    set (x := 0 / t) in *.
    apply Qabs_Qle_condition. split; nra.
  - unfold values in Hle. cbn [map] in Hle. rewrite Hv in Hle. simpl value_of in Hle.
    inversion Hle as [|x xs Hvt Hrest]; subst.
    destruct (IH Hrest) as (Hnames & Hall & Hsum).
    destruct (div_step v t Hv0 Hvt Ht) as (w & Hw & Hw0 & Hw1 & Herr).
    fold u eta in Herr.
    cbn [map className]. rewrite Hv, Hw.
    split; [f_equal; exact Hnames|].
    split.
    { constructor; [|exact Hall]. exists w. split; [reflexivity|]. lra. }
    unfold values in *. cbn [map Qsum fold_right probability]. rewrite Hv.
    simpl value_of.
    set (W := fold_right Qplus 0 (map (fun p0 => value_of (probability p0))
               (map (fun p0 => {| className := className p0;
                                  probability := JS.div (probability p0) (JS.Fin t) |}) l)))
      in *.
    set (S' := fold_right Qplus 0 (map (fun p0 => value_of (probability p0)) l)) in *.
    assert (Ek : inject_Z (Z.of_nat (List.length (p :: l)))
                 == inject_Z (Z.of_nat (List.length l)) + 1).
    { simpl List.length. rewrite Nat2Z.inj_succ, <- Z.add_1_r, inject_Z_plus.
      reflexivity. }
    rewrite Ek. set (k' := inject_Z (Z.of_nat (List.length l))) in *.
    assert (Ed : (v + S') / t == v / t + S' / t) by (field; lra).
    rewrite Ed. set (x := v / t) in *. set (y := S' / t) in *.
    unfold Qsum in Hsum. fold W S' in Hsum. fold y in Hsum.
    apply Qabs_Qle_condition in Herr. apply Qabs_Qle_condition in Hsum.
    apply Qabs_Qle_condition. split; lra.
Qed.

(** Normalising raw probabilities of which one is at least 0.4 gives a
    distribution over the same labels: every quotient lies in [0, 1], and
    their sum differs from 1 by the rounding errors of the additions and
    the divisions only. *)
Lemma normalize_distribution (raw : list Prediction) :
  unit_doubles raw ->
  (exists p q, In p raw /\ probability p = JS.Fin q /\ 4 # 10 <= q) ->
  array_sized raw ->
  exists t,
    sum_probabilities raw = JS.Fin t /\ 4 # 10 <= t /\
    distribution_over (map className raw) (normalize raw).
Proof.
  intros Hraw (p0 & q0 & Hin0 & Hq0 & Hge0) Hsize.
  destruct (fold_sum raw Hraw 0) as (t & Ht & Dt & _ & Htcap & Hall).
  { apply FloatFacts.is_double_zero. }
  { lra. }
  { pose proof (FloatFacts.pow2_pos 53). lra. }
  assert (Hq0t : q0 <= t).
  { rewrite Forall_forall in Hall. apply Hall.
    unfold values. apply in_map_iff. exists p0. rewrite Hq0. auto. }
  assert (Htpos : 0 < t) by lra.
  exists t. split; [exact Ht|]. split; [lra|].
  unfold normalize. unfold sum_probabilities in Ht |- *. rewrite Ht.
  destruct (normalize_run raw t Hraw Htpos Hall) as (Hnames & Hbounds & Hsum).
  split; [exact Hnames|]. split; [exact Hbounds|].
  (* the error of the total *)
  set (k := inject_Z (Z.of_nat (List.length raw))) in *.
  assert (Hk0 : 0 <= k) by (unfold k; rewrite <- (Zle_Qle 0); lia).
  assert (Hk : k <= 4294967296).
  { unfold k. unfold array_sized in Hsize.
    change 4294967296 with (inject_Z (2 ^ 32)). rewrite <- Zle_Qle. lia. }
  assert (Heta : JS.pow2 (-1075) <= 1 # 79228162514264337593543950336).
  { change (1 # 79228162514264337593543950336) with (JS.pow2 (-96)).
    apply FloatFacts.pow2_le. lia. }
  pose proof (FloatFacts.pow2_pos (-1075)) as Heta0.
  assert (Hcond : 2 * k * JS.pow2 (-53) <= 1).
  { change (JS.pow2 (-53)) with (1 # 9007199254740992). lra. }
  destruct (fold_sum_error raw Hraw 0 t FloatFacts.is_double_zero
              ltac:(lra) ltac:(pose proof (FloatFacts.pow2_pos 53); lra) Ht Hcond)
    as [Hlo Hhi].
  fold k in Hlo, Hhi.
  assert (HS : 4 # 10 <= Qsum (values raw)).
  { eapply Qle_trans; [exact Hge0|].
    apply Qsum_ge_elem; [apply values_nonneg, Hraw|].
    unfold values. apply in_map_iff. exists p0. rewrite Hq0. auto. }
  set (S := Qsum (values raw)) in *.
  set (W := Qsum (values (map _ raw))) in *.
  change (JS.pow2 (-53)) with (1 # 9007199254740992) in *.
  set (eta := JS.pow2 (-1075)) in *.
  assert (Hke : k * eta <= 1 # 18446744073709551616) by nra.
  assert (Hke0 : 0 <= k * eta) by nra.
  set (ke := k * eta) in *.
  assert (Hlo' : (1 - (1 # 2097152)) * S - ke <= t) by nra.
  assert (Hhi' : t <= (1 + (1 # 1048576)) * (S + ke)) by nra.
  assert (Hrho1 : S / t <= 1 + (5 # 10000000)).
  { apply Qle_shift_div_r; [exact Htpos|]. lra. }
  assert (Hrho2 : 1 - (96 # 100000000) <= S / t).
  { apply Qle_shift_div_l; [exact Htpos|]. lra. }
  set (rho := S / t) in *.
  unfold tolerance.
  apply Qabs_Qle_condition in Hsum. apply Qabs_Qle_condition. split; lra.
Qed.

End SumFacts.

(** ** Raw probabilities drawn by the generator *)

Module RawFacts.

Import Dashboard.
Local Open Scope Q_scope.

(** The binary64 numbers that the literals [0.2], [0.3] and [0.4] stand
    for. *)
Lemma literal_02 : JS.literal (2 # 10) = JS.Fin (3602879701896397 # 18014398509481984).
Proof. vm_compute. reflexivity. Qed.

Lemma literal_03 : JS.literal (3 # 10) = JS.Fin (5404319552844595 # 18014398509481984).
Proof. vm_compute. reflexivity. Qed.

Lemma literal_04 : JS.literal (4 # 10) = JS.Fin (3602879701896397 # 9007199254740992).
Proof. vm_compute. reflexivity. Qed.

Lemma double_03 : JS.is_double (5404319552844595 # 18014398509481984).
Proof. unfold JS.is_double. apply Qeq_bool_iff. vm_compute. reflexivity. Qed.

Lemma double_04 : JS.is_double (3602879701896397 # 9007199254740992).
Proof. unfold JS.is_double. apply Qeq_bool_iff. vm_compute. reflexivity. Qed.

(** [0.3 + 0.4] is rounded to the binary64 number [0.7], which is slightly
    below 7/10. *)
Lemma sum_03_04 :
  JS.nearest64 ((5404319552844595 # 18014398509481984)
                + (3602879701896397 # 9007199254740992)) <= 7 # 10.
Proof. apply Qle_bool_iff. vm_compute. reflexivity. Qed.

(** The product of the largest binary64 number below 1 with [0.2] is
    rounded to a number below 2/10. *)
Lemma product_02 :
  JS.nearest64 ((1 - JS.pow2 (-53)) * (3602879701896397 # 18014398509481984))
  <= 7205759403792793 # 36028797018963968.
Proof. apply Qle_bool_iff. vm_compute. reflexivity. Qed.

(** A draw of [Math.random()] is at most the largest binary64 number
    below 1. *)
Lemma random_below (env : Env) (k : nat) :
  random_in_range env -> random_is_double env ->
  0 <= random env k /\ random env k <= 1 - JS.pow2 (-53).
Proof.
  intros Hr Hd. destruct (Hr k) as [H0 H1]. split; [exact H0|].
  apply FloatFacts.double_below_one; [apply Hd | exact H0 | exact H1].
Qed.

Lemma strict_eq_index (index : nat) (z : Z) :
  JS.strict_eq (JS.of_nat index) (JS.Fin (inject_Z z)) = (Z.of_nat index =? z)%Z.
Proof.
  unfold JS.of_nat. simpl.
  destruct (Z.eqb_spec (Z.of_nat index) z) as [->|Hne].
  - apply Qeq_bool_iff. reflexivity.
  - destruct (Qeq_bool (inject_Z (Z.of_nat index)) (inject_Z z)) eqn:E; [|reflexivity].
    apply Qeq_bool_iff in E. unfold Qeq in E. simpl in E. lia.
Qed.

(** [Math.floor(Math.random() * n)] is an index of an array of [n > 0]
    elements. *)
Lemma dominant_index_range (env : Env) (n draw : nat) :
  random_in_range env -> random_is_double env ->
  (0 < n)%nat ->
  (Z.of_nat n < 2 ^ 32)%Z ->
  exists z : Z, dominant_index env n draw = JS.Fin (inject_Z z)
                /\ (0 <= z < Z.of_nat n)%Z.
Proof.
  intros Hr Hd Hn Hsize. destruct (random_below env draw Hr Hd) as [Hlo Hhi].
  unfold dominant_index, JS.of_nat. cbn [JS.mul].
  set (N := inject_Z (Z.of_nat n)).
  assert (HN : 1 <= N) by (unfold N; rewrite <- (Zle_Qle 1); lia).
  assert (HN2 : N < JS.pow2 1024).
  { apply Qlt_trans with (JS.pow2 32); [|apply FloatFacts.pow2_lt; lia].
    rewrite FloatFacts.pow2_inject by lia. unfold N. rewrite <- Zlt_Qlt. exact Hsize. }
  pose proof (FloatFacts.product_below (random env draw) (Z.of_nat n) Hlo Hhi ltac:(lia))
    as Hbelow.
  fold N in Hbelow.
  set (x := random env draw * N) in *.
  assert (Hx0 : 0 <= x) by (unfold x; nra).
  rewrite FloatFacts.round64_finite by (try exact Hx0; lra).
  cbn [JS.floor].
  exists (Qfloor (Qred (JS.nearest64 x))). split; [reflexivity|].
  rewrite (Qfloor_comp _ _ (Qred_correct (JS.nearest64 x))).
  split.
  - change 0%Z with (Qfloor 0). apply Qfloor_resp_le, FloatFacts.nearest64_nonneg, Hx0.
  - rewrite Zlt_Qlt. eapply Qle_lt_trans; [apply Qfloor_le | exact Hbelow].
Qed.

(** The raw probability of the dominant label is a binary64 number in
    [0.4, 0.7]. *)
Lemma raw_probability_dominant (env : Env) (z : Z) (index draw : nat) :
  random_in_range env -> random_is_double env ->
  Z.of_nat index = z ->
  exists q, raw_probability env (JS.Fin (inject_Z z)) index draw = JS.Fin q
            /\ JS.is_double q /\ 4 # 10 <= q /\ q <= 7 # 10.
Proof.
  intros Hr Hd H. destruct (random_below env draw Hr Hd) as [Hlo Hhi].
  assert (Hhi1 : random env draw <= 1).
  { pose proof (FloatFacts.pow2_pos (-53)). lra. }
  unfold raw_probability. rewrite strict_eq_index.
  apply Z.eqb_eq in H. rewrite H.
  rewrite literal_03, literal_04. cbn [JS.mul].
  destruct (FloatFacts.round64_between
              (random env draw * (5404319552844595 # 18014398509481984))
              0 (5404319552844595 # 18014398509481984))
    as (a & Ha & _ & Ha0 & Ha1 & Da); try lra.
  - apply FloatFacts.is_double_zero.
  - exact double_03.
  - apply Qlt_trans with 1; [reflexivity|].
    change 1 with (JS.pow2 0). apply FloatFacts.pow2_lt. lia.
  - rewrite Ha. cbn [JS.add].
    destruct (FloatFacts.round64_below
                (a + (3602879701896397 # 9007199254740992))
                (3602879701896397 # 9007199254740992)
                ((5404319552844595 # 18014398509481984)
                 + (3602879701896397 # 9007199254740992))
                (7 # 10))
      as (q & Hq & _ & Hq0 & Hq1 & Dq); try lra.
    + exact double_04.
    + exact sum_03_04.
    + apply Qlt_trans with 1; [reflexivity|].
      change 1 with (JS.pow2 0). apply FloatFacts.pow2_lt. lia.
    + exists q. split; [exact Hq|]. split; [exact Dq|]. split; lra.
Qed.

(** Every other raw probability is a binary64 number in [0, 0.2). *)
Lemma raw_probability_other (env : Env) (z : Z) (index draw : nat) :
  random_in_range env -> random_is_double env ->
  Z.of_nat index <> z ->
  exists q, raw_probability env (JS.Fin (inject_Z z)) index draw = JS.Fin q
            /\ JS.is_double q /\ 0 <= q /\ q < 2 # 10.
Proof.
  intros Hr Hd H. destruct (random_below env draw Hr Hd) as [Hlo Hhi].
  unfold raw_probability. rewrite strict_eq_index.
  apply Z.eqb_neq in H. rewrite H.
  rewrite literal_02. cbn [JS.mul].
  destruct (FloatFacts.round64_below
              (random env draw * (3602879701896397 # 18014398509481984))
              0
              ((1 - JS.pow2 (-53)) * (3602879701896397 # 18014398509481984))
              (7205759403792793 # 36028797018963968))
    as (q & Hq & _ & Hq0 & Hq1 & Dq); try lra.
  - apply FloatFacts.is_double_zero.
  - exact product_02.
  - apply Qlt_trans with 1; [reflexivity|].
    change 1 with (JS.pow2 0). apply FloatFacts.pow2_lt. lia.
  - exists q. split; [exact Hq|]. split; [exact Dq|]. split; lra.
Qed.

Lemma raw_entries_classNames (env : Env) (dom : JS.number) (labels : list string) :
  forall index draw, map className (raw_entries env dom labels index draw) = labels.
Proof.
  induction labels as [|label rest IH]; intros index draw; simpl.
  - reflexivity.
  - rewrite IH. reflexivity.
Qed.

(** The entry at the dominant index lies in [0.4, 0.7], every other one in
    [0, 0.2). *)
Lemma raw_entries_shape (env : Env) (z : Z) (labels : list string) :
  random_in_range env -> random_is_double env ->
  (0 <= z)%Z ->
  forall index draw i p,
    nth_error (raw_entries env (JS.Fin (inject_Z z)) labels index draw) i = Some p ->
    exists q, probability p = JS.Fin q /\ JS.is_double q /\
      if (index + i =? Z.to_nat z)%nat then 4 # 10 <= q /\ q <= 7 # 10
      else 0 <= q /\ q < 2 # 10.
Proof.
  intros Hr Hd Hz. induction labels as [|label rest IH]; intros index draw i p Hnth.
  - destruct i; discriminate.
  - destruct i as [|i]; cbn [raw_entries nth_error] in Hnth.
    + injection Hnth as <-. cbn [probability]. rewrite Nat.add_0_r.
      destruct (Nat.eqb_spec index (Z.to_nat z)) as [E|E].
      * destruct (raw_probability_dominant env z index draw Hr Hd ltac:(lia))
          as (q & Hq & Dq & Hb).
        exists q. auto.
      * destruct (raw_probability_other env z index draw Hr Hd ltac:(lia))
          as (q & Hq & Dq & Hb).
        exists q. auto.
    + replace (index + S i)%nat with (S index + i)%nat by lia.
      apply (IH (S index) (S draw)). exact Hnth.
Qed.

Lemma one_dominant_raw_entries (env : Env) (z : Z) (labels : list string) (draw : nat) :
  random_in_range env -> random_is_double env ->
  (0 <= z)%Z ->
  one_dominant_raw (raw_entries env (JS.Fin (inject_Z z)) labels 0 draw) (Z.to_nat z).
Proof.
  intros Hr Hd Hz i p Hnth.
  exact (raw_entries_shape env z labels Hr Hd Hz 0%nat draw i p Hnth).
Qed.

(** Raw entries with one dominant one are binary64 numbers in [0, 1]. *)
Lemma one_dominant_unit (raw : list Prediction) (k : nat) :
  one_dominant_raw raw k -> unit_doubles raw.
Proof.
  intros H. apply Forall_forall. intros p Hin.
  destruct (In_nth_error _ _ Hin) as [i Hi].
  destruct (H i p Hi) as (q & Hq & Dq & Hb).
  exists q. split; [exact Hq|]. split; [exact Dq|].
  destruct (i =? k)%nat; lra.
Qed.

Lemma one_dominant_entry (raw : list Prediction) (k : nat) :
  one_dominant_raw raw k -> (k < List.length raw)%nat ->
  exists p q, In p raw /\ probability p = JS.Fin q /\ 4 # 10 <= q.
Proof.
  intros H Hk.
  destruct (nth_error raw k) as [p|] eqn:Hp.
  - destruct (H k p Hp) as (q & Hq & _ & Hb). rewrite Nat.eqb_refl in Hb.
    exists p, q. split; [eapply nth_error_In; exact Hp|]. split; [exact Hq | lra].
  - apply nth_error_None in Hp. lia.
Qed.

Lemma raw_entries_length (env : Env) (dom : JS.number) (labels : list string) :
  forall index draw,
    List.length (raw_entries env dom labels index draw) = List.length labels.
Proof.
  induction labels as [|label rest IH]; intros index draw; simpl; [reflexivity|].
  rewrite IH. reflexivity.
Qed.

(** The raw entries of a non-empty label array: a dominant index [k] exists
    and the entries have their winner there. *)
Lemma raw_entries_dominated (env : Env) (labels : list string) (draw first : nat) :
  random_in_range env -> random_is_double env ->
  labels <> [] -> array_sized labels ->
  exists k,
    dominant_index env (List.length labels) draw = JS.of_nat k /\
    (k < List.length labels)%nat /\
    one_dominant_raw
      (raw_entries env (dominant_index env (List.length labels) draw) labels 0 first) k.
Proof.
  intros Hr Hd Hne Hsize.
  assert (Hlen : (0 < List.length labels)%nat)
    by (destruct labels; [congruence | simpl; lia]).
  destruct (dominant_index_range env (List.length labels) draw Hr Hd Hlen Hsize)
    as (z & Hz & Hzr).
  exists (Z.to_nat z). rewrite Hz.
  split; [unfold JS.of_nat; rewrite Z2Nat.id by lia; reflexivity|].
  split; [lia|].
  apply one_dominant_raw_entries; [exact Hr | exact Hd | lia].
Qed.

(** The raw total of a non-empty label array is a finite number, at least
    0.4. *)
Lemma raw_total (env : Env) (labels : list string) (draw first : nat) :
  random_in_range env -> random_is_double env ->
  labels <> [] -> array_sized labels ->
  exists t,
    sum_probabilities
      (raw_entries env (dominant_index env (List.length labels) draw) labels 0 first)
    = JS.Fin t /\ 4 # 10 <= t.
Proof.
  intros Hr Hd Hne Hsize.
  destruct (raw_entries_dominated env labels draw first Hr Hd Hne Hsize)
    as (k & _ & Hk & Hraw).
  destruct (SumFacts.normalize_distribution _ (one_dominant_unit _ _ Hraw))
    as (t & Ht & Hge & _).
  - apply (one_dominant_entry _ k Hraw). rewrite raw_entries_length. exact Hk.
  - unfold array_sized. rewrite raw_entries_length. exact Hsize.
  - exists t. auto.
Qed.

(** Normalising the raw entries of a non-empty label array gives a
    distribution over the labels. *)
Lemma raw_normalized (env : Env) (labels : list string) (draw first : nat) :
  random_in_range env -> random_is_double env ->
  labels <> [] -> array_sized labels ->
  distribution_over labels
    (normalize
       (raw_entries env (dominant_index env (List.length labels) draw) labels 0 first)).
Proof.
  intros Hr Hd Hne Hsize.
  destruct (raw_entries_dominated env labels draw first Hr Hd Hne Hsize)
    as (k & _ & Hk & Hraw).
  destruct (SumFacts.normalize_distribution _ (one_dominant_unit _ _ Hraw))
    as (t & _ & _ & Hdist).
  - apply (one_dominant_entry _ k Hraw). rewrite raw_entries_length. exact Hk.
  - unfold array_sized. rewrite raw_entries_length. exact Hsize.
  - rewrite raw_entries_classNames in Hdist. exact Hdist.
Qed.

End RawFacts.

(** ** The arithmetic on sample values *)

Module FloatChecks.

Import Dashboard.
Local Open Scope Q_scope.

(** [0.7] is the binary64 number [3152519739159347 / 2^52], slightly below
    7/10. *)
Example literal_07 :
  JS.literal (7 # 10) = JS.Fin (3152519739159347 # 4503599627370496).
Proof. vm_compute. reflexivity. Qed.

(** [0.6666666666666666 * 3] is rounded up to [2]: the dominant index of
    three labels drawn from [0.6666666666666666] is 2. *)
Example product_rounded_up :
  JS.floor (JS.mul (JS.Fin (6004799503160661 # 9007199254740992)) (JS.of_nat 3))
  = JS.of_nat 2.
Proof. vm_compute. reflexivity. Qed.

(** With the largest draw below 1, the raw probability of the dominant
    label is [0.7] itself. *)
Example largest_draw_reaches_07 :
  JS.add (JS.mul (JS.Fin (9007199254740991 # 9007199254740992)) (JS.literal (3 # 10)))
         (JS.literal (4 # 10))
  = JS.literal (7 # 10).
Proof. vm_compute. reflexivity. Qed.

(** The raw probabilities drawn from 0.5, 0.25, 0.25 are 0.55, 0.05, 0.05;
    [reduce] adds them to 0.6500000000000001, and the three quotients add up
    to [1 - 5 / 2^55], not to 1. *)
Example normalised_sum_is_rounded :
  let raw :=
    [ {| className := "Clay";
         probability := JS.add (JS.mul (JS.Fin (1 # 2)) (JS.literal (3 # 10)))
                               (JS.literal (4 # 10)) |};
      {| className := "Sand";
         probability := JS.mul (JS.Fin (1 # 4)) (JS.literal (2 # 10)) |};
      {| className := "Loam";
         probability := JS.mul (JS.Fin (1 # 4)) (JS.literal (2 # 10)) |} ] in
  sum_probabilities raw = JS.Fin (2927339757790823 # 4503599627370496) /\
  Qsum (values (normalize raw)) == 1 - (5 # 36028797018963968).
Proof. split; vm_compute; reflexivity. Qed.

End FloatChecks.

(** ** Running handlers *)

Module HandlerFacts.

Lemma bind_run {St A B : Type} (c : M St A) (k : A -> M St B)
    (w w' : World St) (a : A) :
  c w = (Ok a, w') -> bind c k w = k a w'.
Proof. intros H. unfold bind. rewrite H. reflexivity. Qed.

Lemma bind_throw {St A B : Type} (c : M St A) (k : A -> M St B)
    (w w' : World St) (e : string) :
  c w = (Throw e, w') -> bind c k w = (Throw e, w').
Proof. intros H. unfold bind. rewrite H. reflexivity. Qed.

Lemma bind_unit {St B : Type} (c : M St unit) (k : unit -> M St B) (w : World St) :
  fst (c w) = Ok tt -> bind c k w = k tt (exec c w).
Proof.
  unfold bind, exec. destruct (c w) as [[[]|e] w']; simpl; intros H;
    [reflexivity | discriminate].
Qed.

End HandlerFacts.

(** ** Runs of [generateMockPredictions] *)

Module MockFacts.

Import Dashboard.
Local Open Scope Q_scope.

Lemma fair_coin_in_range : random_in_range offline_env.
Proof. intros k. simpl. unfold fair_coin. split; [discriminate | reflexivity]. Qed.

Lemma fair_coin_is_double : random_is_double offline_env.
Proof.
  intros k. simpl. unfold fair_coin, JS.is_double.
  apply Qeq_bool_iff. vm_compute. reflexivity.
Qed.

(** How the generator ends and the draws it consumes, in closed form. *)
Lemma generateMockPredictions_run (env : Env) (scope : State) (w : World State) :
  generateMockPredictions env scope w
  = (mock_result env scope (draws w),
     after_draws (exec (emit CallGenerateMock) w) (mock_draws scope)).
Proof.
  unfold generateMockPredictions, mock_result, mock_output, mock_draws, malformed,
    labels_in, labels_value_in.
  rewrite HandlerFacts.bind_unit by reflexivity. cbv beta.
  destruct (metadata scope) as [|fields].
  - unfold ret. rewrite GeneratorFacts.after_draws_0. reflexivity.
  - destruct (labels fields) as [|ls|].
    + unfold ret. rewrite GeneratorFacts.after_draws_0. reflexivity.
    + rewrite (HandlerFacts.bind_run _ _ _ _ _ (GeneratorFacts.drawMockPredictions_run env ls _)).
      reflexivity.
    + unfold bind, Math_random, throw, after_draws, exec. simpl.
      rewrite Nat.add_1_r. reflexivity.
Qed.

(** On a [labels] value that is absent or an array the generator returns. *)
Lemma generateMockPredictions_returns (env : Env) (scope : State) (w : World State) :
  malformed scope = false ->
  generateMockPredictions env scope w
  = (Ok (mock_output env scope (draws w)),
     after_draws (exec (emit CallGenerateMock) w) (mock_draws scope)).
Proof.
  intros H. rewrite generateMockPredictions_run. unfold mock_result. rewrite H.
  reflexivity.
Qed.

(** On any other [labels] value it throws after its first draw. *)
Lemma generateMockPredictions_throws (env : Env) (scope : State) (w : World State) :
  malformed scope = true ->
  generateMockPredictions env scope w
  = (Throw not_a_function, after_draws (exec (emit CallGenerateMock) w) 1).
Proof.
  intros H. rewrite generateMockPredictions_run. unfold mock_result. rewrite H.
  unfold mock_draws. unfold malformed in H.
  destruct (labels_value_in scope); try discriminate. reflexivity.
Qed.

Lemma labels_in_well_formed (scope : State) (ls : list string) :
  labels_in scope = Some ls -> malformed scope = false.
Proof.
  unfold labels_in, malformed. destruct (labels_value_in scope); congruence.
Qed.

Lemma mock_output_distribution (env : Env) (scope : State) (draw : nat)
    (ls : list string) :
  random_in_range env -> random_is_double env ->
  labels_in scope = Some ls ->
  ls <> [] -> array_sized ls ->
  distribution_over ls (mock_output env scope draw).
Proof.
  intros Hr Hd Hls Hne Hsize. unfold mock_output. rewrite Hls.
  apply RawFacts.raw_normalized; assumption.
Qed.

Lemma distribution_finite (ls : list string) (l : list Prediction) :
  distribution_over ls l -> all_finite l.
Proof.
  intros (_ & Hall & _). eapply Forall_impl; [|exact Hall].
  intros p (q & Hq & _). exists q. exact Hq.
Qed.

Lemma distribution_length (ls : list string) (l : list Prediction) :
  distribution_over ls l -> List.length l = List.length ls.
Proof.
  intros (Hnames & _). rewrite <- Hnames, length_map. reflexivity.
Qed.

End MockFacts.

(** C10.  On metadata whose [labels] value is absent or an array, the
    synthetic generator returns (it does not throw): without metadata or
    without labels the result is empty; for an array the result is the
    normalisation of the raw entries drawn by the loop, and for a non-empty
    array their total is a finite number that is at least 0.4, so that no
    division by zero occurs and every returned probability is finite
    (neither [NaN] nor an infinity).  Numbers are binary64, the draws of
    [Math.random()] are binary64 numbers in [0, 1), and an array has fewer
    than [2^32] entries. *)
Theorem generateMockPredictions_total
    (env : Env) (scope : Dashboard.State) (w : World Dashboard.State) :
  random_in_range env ->
  random_is_double env ->
  malformed scope = false ->
  (forall ls, labels_in scope = Some ls -> array_sized ls) ->
  exists out w',
    Dashboard.generateMockPredictions env scope w = (Ok out, w') /\
    all_finite out /\
    match labels_in scope with
    | None => out = []
    | Some ls =>
        exists raw w'',
          Dashboard.drawMockPredictions env ls (exec (emit CallGenerateMock) w)
          = (Ok raw, w'') /\
          out = Dashboard.normalize raw /\
          (ls <> [] ->
           exists t, Dashboard.sum_probabilities raw = JS.Fin t /\ (4 # 10 <= t)%Q)
    end.
Proof.
  intros Hr Hd Hwf Hsize.
  rewrite (MockFacts.generateMockPredictions_returns env scope w Hwf).
  eexists. eexists. split; [reflexivity|].
  unfold mock_output.
  destruct (labels_in scope) as [ls|] eqn:Hls.
  - specialize (Hsize ls eq_refl). split.
    + destruct ls as [|l0 ls].
      * constructor.
      * eapply MockFacts.distribution_finite.
        apply RawFacts.raw_normalized; [exact Hr | exact Hd | discriminate | exact Hsize].
    + rewrite GeneratorFacts.drawMockPredictions_run.
      eexists. eexists. split; [reflexivity|]. split; [reflexivity|].
      intros Hne. apply RawFacts.raw_total; assumption.
  - split; [constructor | reflexivity].
Qed.

Lemma generateMockPredictions_total_witness :
  exists out w',
    Dashboard.generateMockPredictions offline_env soil_scope (fresh_world soil_scope)
    = (Ok out, w') /\
    all_finite out /\
    exists raw w'',
      Dashboard.drawMockPredictions offline_env ["Clay"; "Sand"; "Loam"]
        (exec (emit CallGenerateMock) (fresh_world soil_scope))
      = (Ok raw, w'') /\
      out = Dashboard.normalize raw /\
      (["Clay"; "Sand"; "Loam"] <> [] ->
       exists t, Dashboard.sum_probabilities raw = JS.Fin t /\ (4 # 10 <= t)%Q).
Proof.
  apply (generateMockPredictions_total offline_env soil_scope (fresh_world soil_scope)).
  - exact MockFacts.fair_coin_in_range.
  - exact MockFacts.fair_coin_is_double.
  - reflexivity.
  - intros ls Hls. injection Hls as <-. unfold array_sized. simpl. lia.
Defined.

(** The generator is not total: on a metadata document whose [labels]
    property is a string it draws the dominant index and then throws the
    [TypeError] of the call of [labels.forEach]. *)
Lemma generator_throws_on_mistyped_labels :
  malformed mistyped_scope = true /\
  Dashboard.generateMockPredictions offline_env mistyped_scope (fresh_world mistyped_scope)
  = (Throw Dashboard.not_a_function,
     {| state := mistyped_scope;
        effects := [CallGenerateMock; MathRandom 0];
        draws := 1;
        inferences := 0 |}).
Proof. split; reflexivity. Qed.

(** ** Runs of [analyzeImage] (fallback variant) *)

Module TryFacts.

Lemma try_catch_ok {St A : Type} (body : M St A) (handler : string -> M St A)
    (w w' : World St) (a : A) :
  body w = (Ok a, w') -> try_catch body handler w = (Ok a, w').
Proof. intros H. unfold try_catch. rewrite H. reflexivity. Qed.

Lemma try_catch_throw {St A : Type} (body : M St A) (handler : string -> M St A)
    (w w' : World St) (e : string) :
  body w = (Throw e, w') -> try_catch body handler w = handler e w'.
Proof. intros H. unfold try_catch. rewrite H. reflexivity. Qed.

Lemma try_finally_run {St A : Type} (body : M St A) (cleanup : M St unit)
    (w w' : World St) (r : result A) :
  body w = (r, w') ->
  fst (cleanup w') = Ok tt ->
  try_finally body cleanup w = (r, exec cleanup w').
Proof.
  intros H Hc. unfold try_finally, exec. rewrite H.
  destruct (cleanup w') as [[[]|e] w'']; simpl in *; [reflexivity | discriminate].
Qed.

End TryFacts.

Module AnalysisFacts.

Import Dashboard.

(** The guard of line 142 rejects. *)
Lemma analyzeImage_rejected (env : Env) (scope : State)
    (ref : option HTMLImageElement) (w : World State) :
  guarded_image (image scope) ref = None ->
  analyzeImage env scope ref w = (Ok tt, exec (toast no_image_toast) w).
Proof.
  unfold guarded_image. intros H. unfold analyzeImage. rewrite H. reflexivity.
Qed.

Lemma fallback_branch_run (env : Env) (scope : State) (w : World State) :
  malformed scope = false ->
  fallback_branch env scope w
  = (Ok (mock_output env scope (draws w)),
     exec (sleep 800)
          (after_draws (exec (emit CallGenerateMock) w) (mock_draws scope))).
Proof.
  intros Hwf. unfold fallback_branch.
  rewrite (HandlerFacts.bind_run _ _ _ _ _
             (MockFacts.generateMockPredictions_returns env scope w Hwf)).
  rewrite HandlerFacts.bind_unit by reflexivity. reflexivity.
Qed.

Lemma fallback_branch_throws (env : Env) (scope : State) (w : World State) :
  malformed scope = true ->
  fallback_branch env scope w
  = (Throw not_a_function, after_draws (exec (emit CallGenerateMock) w) 1).
Proof.
  intros Hmal. unfold fallback_branch.
  apply HandlerFacts.bind_throw.
  apply MockFacts.generateMockPredictions_throws, Hmal.
Qed.

(** The real classifier answers: its output is published as it is. *)
Lemma analyzeImage_predicted (env : Env) (scope : State) (img : HTMLImageElement)
    (ref : option HTMLImageElement) (w : World State)
    (m : CustomMobileNet) (out : list Prediction) :
  guarded_image (image scope) ref = Some img ->
  model scope = Some m ->
  JS.truthy (modelLoadError scope) = false ->
  predict m (inferences w) img = Ok out ->
  analyzeImage env scope ref w
  = (Ok tt,
     {| state := with_analysis (state w) out;
        effects := (effects w
                    ++ [Sleep 100; CallPredict img; ShowToast analysis_complete_toast])%list;
        draws := draws w;
        inferences := S (inferences w) |}).
Proof.
  unfold guarded_image. intros Hg Hm He Hp.
  unfold analyzeImage. rewrite Hg, Hm, He. simpl negb. cbv iota.
  rewrite HandlerFacts.bind_unit by reflexivity.
  erewrite TryFacts.try_finally_run; [| |reflexivity].
  2:{ apply TryFacts.try_catch_ok.
      rewrite HandlerFacts.bind_unit by reflexivity.
      erewrite HandlerFacts.bind_run.
      2:{ unfold call_predict. simpl inferences. rewrite Hp. reflexivity. }
      rewrite HandlerFacts.bind_unit by reflexivity. reflexivity. }
  destruct w as [s e d i]. unfold exec, with_analysis. simpl.
  rewrite <- !app_assoc. reflexivity.
Qed.

(** The real classifier throws: the [catch] block publishes synthetic
    predictions. *)
Lemma analyzeImage_recovered (env : Env) (scope : State) (img : HTMLImageElement)
    (ref : option HTMLImageElement) (w : World State)
    (m : CustomMobileNet) (error : string) :
  guarded_image (image scope) ref = Some img ->
  model scope = Some m ->
  JS.truthy (modelLoadError scope) = false ->
  predict m (inferences w) img = Throw error ->
  malformed scope = false ->
  analyzeImage env scope ref w
  = (Ok tt,
     {| state := with_analysis (state w) (mock_output env scope (draws w));
        effects := (effects w
                    ++ [Sleep 100; CallPredict img; ConsoleError "Error analyzing image:"]
                    ++ mock_effects scope (draws w)
                    ++ [ShowToast analysis_complete_toast])%list;
        draws := draws w + mock_draws scope;
        inferences := S (inferences w) |}).
Proof.
  unfold guarded_image. intros Hg Hm He Hp Hwf.
  unfold analyzeImage. rewrite Hg, Hm, He. simpl negb. cbv iota.
  rewrite HandlerFacts.bind_unit by reflexivity.
  erewrite TryFacts.try_finally_run; [| |reflexivity].
  2:{ erewrite TryFacts.try_catch_throw.
      2:{ rewrite HandlerFacts.bind_unit by reflexivity.
          erewrite HandlerFacts.bind_throw; [reflexivity|].
          unfold call_predict. simpl inferences. rewrite Hp. reflexivity. }
      rewrite HandlerFacts.bind_unit by reflexivity.
      erewrite HandlerFacts.bind_run
        by (apply MockFacts.generateMockPredictions_returns; exact Hwf).
      rewrite HandlerFacts.bind_unit by reflexivity. reflexivity. }
  destruct w as [s e d i]. unfold exec, with_analysis, mock_effects, after_draws.
  simpl. rewrite <- !app_assoc. reflexivity.
Qed.

(** The real classifier throws and the [labels] value is not an array: the
    generator throws inside the [catch] block, and the call of
    [analyzeImage] ends with that error after the [finally] block. *)
Lemma analyzeImage_unrecovered (env : Env) (scope : State) (img : HTMLImageElement)
    (ref : option HTMLImageElement) (w : World State)
    (m : CustomMobileNet) (error : string) :
  guarded_image (image scope) ref = Some img ->
  model scope = Some m ->
  JS.truthy (modelLoadError scope) = false ->
  predict m (inferences w) img = Throw error ->
  malformed scope = true ->
  analyzeImage env scope ref w
  = (Throw not_a_function,
     {| state := with_analysis (state w) (predictions (state w));
        effects := (effects w
                    ++ [Sleep 100; CallPredict img; ConsoleError "Error analyzing image:";
                        CallGenerateMock; MathRandom (draws w)])%list;
        draws := S (draws w);
        inferences := S (inferences w) |}).
Proof.
  unfold guarded_image. intros Hg Hm He Hp Hmal.
  unfold analyzeImage. rewrite Hg, Hm, He. simpl negb. cbv iota.
  rewrite HandlerFacts.bind_unit by reflexivity.
  erewrite TryFacts.try_finally_run; [| |reflexivity].
  2:{ erewrite TryFacts.try_catch_throw.
      2:{ rewrite HandlerFacts.bind_unit by reflexivity.
          erewrite HandlerFacts.bind_throw; [reflexivity|].
          unfold call_predict. simpl inferences. rewrite Hp. reflexivity. }
      rewrite HandlerFacts.bind_unit by reflexivity.
      erewrite HandlerFacts.bind_throw
        by (apply MockFacts.generateMockPredictions_throws; exact Hmal).
      reflexivity. }
  destruct w as [s e d i]. unfold exec, with_analysis, after_draws.
  simpl. rewrite <- !app_assoc. simpl. rewrite Nat.add_1_r. reflexivity.
Qed.

(** No usable classifier: the fallback branch publishes synthetic
    predictions. *)
Lemma analyzeImage_fallback (env : Env) (scope : State) (img : HTMLImageElement)
    (ref : option HTMLImageElement) (w : World State) :
  guarded_image (image scope) ref = Some img ->
  model scope = None \/ JS.truthy (modelLoadError scope) = true ->
  malformed scope = false ->
  analyzeImage env scope ref w
  = (Ok tt,
     {| state := with_analysis (state w) (mock_output env scope (draws w));
        effects := (effects w
                    ++ [Sleep 100]
                    ++ mock_effects scope (draws w)
                    ++ [Sleep 800; ShowToast analysis_complete_toast])%list;
        draws := draws w + mock_draws scope;
        inferences := inferences w |}).
Proof.
  unfold guarded_image. intros Hg Hm Hwf.
  unfold analyzeImage. rewrite Hg.
  rewrite HandlerFacts.bind_unit by reflexivity.
  erewrite TryFacts.try_finally_run; [| |reflexivity].
  2:{ apply TryFacts.try_catch_ok.
      rewrite HandlerFacts.bind_unit by reflexivity.
      erewrite HandlerFacts.bind_run.
      2:{ instantiate (2 := mock_output env scope _).
          destruct Hm as [Hm|Hm]; rewrite Hm.
          - apply fallback_branch_run, Hwf.
          - destruct (model scope); apply fallback_branch_run, Hwf. }
      rewrite HandlerFacts.bind_unit by reflexivity. reflexivity. }
  destruct w as [s e d i]. unfold exec, with_analysis, mock_effects, after_draws.
  simpl. rewrite <- !app_assoc. reflexivity.
Qed.

(** No usable classifier and the [labels] value is not an array: the
    generator throws in the fallback branch and again in the [catch]
    block. *)
Lemma analyzeImage_fallback_fails (env : Env) (scope : State) (img : HTMLImageElement)
    (ref : option HTMLImageElement) (w : World State) :
  guarded_image (image scope) ref = Some img ->
  model scope = None \/ JS.truthy (modelLoadError scope) = true ->
  malformed scope = true ->
  analyzeImage env scope ref w
  = (Throw not_a_function,
     {| state := with_analysis (state w) (predictions (state w));
        effects := (effects w
                    ++ [Sleep 100; CallGenerateMock; MathRandom (draws w);
                        ConsoleError "Error analyzing image:";
                        CallGenerateMock; MathRandom (S (draws w))])%list;
        draws := S (S (draws w));
        inferences := inferences w |}).
Proof.
  unfold guarded_image. intros Hg Hm Hmal.
  unfold analyzeImage. rewrite Hg.
  rewrite HandlerFacts.bind_unit by reflexivity.
  erewrite TryFacts.try_finally_run; [| |reflexivity].
  2:{ erewrite TryFacts.try_catch_throw.
      2:{ rewrite HandlerFacts.bind_unit by reflexivity.
          erewrite HandlerFacts.bind_throw; [reflexivity|].
          destruct Hm as [Hm|Hm]; rewrite Hm.
          - apply fallback_branch_throws, Hmal.
          - destruct (model scope); apply fallback_branch_throws, Hmal. }
      rewrite HandlerFacts.bind_unit by reflexivity.
      erewrite HandlerFacts.bind_throw
        by (apply MockFacts.generateMockPredictions_throws; exact Hmal).
      reflexivity. }
  destruct w as [s e d i]. unfold exec, with_analysis, after_draws.
  simpl. rewrite <- !app_assoc. simpl. rewrite !Nat.add_1_r. reflexivity.
Qed.

End AnalysisFacts.

(** ** Invariants of the component *)

Module ComponentFacts.

Import Dashboard.

Lemma same_string_eq (a b : option string) : same_string a b = true -> a = b.
Proof.
  destruct a as [x|], b as [y|]; simpl; intros H; try discriminate; [|reflexivity].
  apply String.eqb_eq in H. congruence.
Qed.

(** A render keeps the callback in step with the state, provided the
    classifier cell only ever goes from [null] to an object. *)
Lemma render_synced (c : Component) (w : World State) (p : phase) :
  synced c ->
  model (state w) = model (state (world c)) \/ model (state (world c)) = None ->
  synced (render c w p).
Proof.
  intros (Hi & Hm & He) Hmodel. unfold synced, render. simpl.
  destruct (deps_unchanged (scope c) (state w)) eqn:Hd; [|auto].
  unfold deps_unchanged in Hd.
  apply andb_prop in Hd. destruct Hd as [Hd He'].
  apply andb_prop in Hd. destruct Hd as [Hm' Hi'].
  split; [apply same_string_eq, Hi'|].
  split; [|apply same_string_eq, He'].
  destruct Hmodel as [Hsame|Hnone].
  - congruence.
  - rewrite Hnone in Hm. rewrite Hm in Hm' |- *.
    destruct (model (state w)); [discriminate | reflexivity].
Qed.

Lemma render_scope (c : Component) (w : World State) (p : phase) :
  scope (render c w p) = scope c \/ scope (render c w p) = state w.
Proof.
  unfold render. simpl. destruct (deps_unchanged (scope c) (state w)); auto.
Qed.

(** The ways a call of [analyzeImage] can go: rejected by the guard,
    fallback branch, classifier answers, classifier throws; where the
    generator runs, it returns or (on a [labels] value that is not an
    array) throws.  Each case rewrites the call into its closed form. *)
Ltac analysis_cases env sc ref w :=
  let img := fresh "img" in
  let m := fresh "m" in
  let out := fresh "out" in
  let e := fresh "e" in
  let Hg := fresh "Hg" in
  let Hm := fresh "Hm" in
  let He := fresh "He" in
  let Hp := fresh "Hp" in
  let Hwf := fresh "Hwf" in
  destruct (malformed sc) eqn:Hwf;
  (destruct (guarded_image (image sc) ref) as [img|] eqn:Hg;
   [ destruct (model sc) as [m|] eqn:Hm;
     [ destruct (JS.truthy (modelLoadError sc)) eqn:He;
       [ first
           [ rewrite (AnalysisFacts.analyzeImage_fallback
                        env sc img ref w Hg (or_intror He) Hwf)
           | rewrite (AnalysisFacts.analyzeImage_fallback_fails
                        env sc img ref w Hg (or_intror He) Hwf) ]
       | destruct (predict m (inferences w) img) as [out|e] eqn:Hp;
         [ rewrite (AnalysisFacts.analyzeImage_predicted env sc img ref w m out Hg Hm He Hp)
         | first
             [ rewrite (AnalysisFacts.analyzeImage_recovered
                          env sc img ref w m e Hg Hm He Hp Hwf)
             | rewrite (AnalysisFacts.analyzeImage_unrecovered
                          env sc img ref w m e Hg Hm He Hp Hwf) ] ] ]
     | first
         [ rewrite (AnalysisFacts.analyzeImage_fallback
                      env sc img ref w Hg (or_introl Hm) Hwf)
         | rewrite (AnalysisFacts.analyzeImage_fallback_fails
                      env sc img ref w Hg (or_introl Hm) Hwf) ] ]
   | rewrite (AnalysisFacts.analyzeImage_rejected env sc ref w Hg) ]).

(** An analysis touches neither the image nor the acquisition cells. *)
Lemma analyzeImage_frame (env : Env) (sc : State)
    (ref : option HTMLImageElement) (w : World State) :
  let w' := snd (analyzeImage env sc ref w) in
  image (state w') = image (state w) /\ same_acquisition (state w) (state w').
Proof.
  analysis_cases env sc ref w; simpl; unfold same_acquisition; simpl; auto.
Qed.

(** An analysis throws only when the generator does. *)
Lemma analyzeImage_returns (env : Env) (sc : State)
    (ref : option HTMLImageElement) (w : World State) :
  malformed sc = false ->
  fst (analyzeImage env sc ref w) = Ok tt.
Proof.
  intros H. analysis_cases env sc ref w; try discriminate; reflexivity.
Qed.

Lemma handleImageUpload_frame (file : option string) (w : World State) :
  same_acquisition (state w) (state (snd (handleImageUpload file w))).
Proof.
  destruct file; simpl; unfold same_acquisition; auto.
Qed.

(** A step that leaves the acquisition cells and the phase alone keeps
    both invariants. *)
Lemma render_frame (c : Component) (w : World State) :
  synced c -> phase_invariant c ->
  same_acquisition (state (world c)) (state w) ->
  synced (render c w (pending c)) /\ phase_invariant (render c w (pending c)).
Proof.
  intros Hs Hp (Hmd & Hm & He). split.
  - apply render_synced; auto.
  - unfold phase_invariant in *. simpl.
    destruct (pending c); rewrite ?Hm, ?He, ?Hmd; try exact Hp.
    destruct Hp as (Hex & Hnone & Hsc). repeat split; auto.
    destruct (render_scope c w Loaded) as [H|H]; simpl in H; rewrite H; congruence.
Qed.

Lemma mount_invariant : synced mount /\ phase_invariant mount.
Proof.
  unfold synced, phase_invariant. simpl. auto.
Qed.

Lemma step_invariant (env : Env) (c : Component) (ev : event) :
  synced c /\ phase_invariant c ->
  synced (step env c ev) /\ phase_invariant (step env c ev).
Proof.
  intros [Hs Hp]. destruct ev as [|file|]; simpl.
  - (* the pending await settles *)
    unfold phase_invariant in Hp.
    destruct (pending c) as [|metadataJson| | | |] eqn:Hpend; try (split; [exact Hs|]);
      try (unfold phase_invariant; rewrite Hpend; exact Hp).
    + (* metadata request *)
      destruct Hp as [Hm He].
      unfold continue, loadModel_metadata.
      destruct (metadata_fetch env 0) as [e|[ok st txt [body|e]]]; simpl;
        destruct (window_tmImage env); simpl;
        (split; [apply render_synced; [exact Hs | simpl; auto]
                | unfold phase_invariant; simpl; auto]).
    + (* classifier load *)
      destruct Hp as [Hm He].
      unfold continue, loadModel_model.
      destruct (chosen_load env) as [e|loaded]; simpl.
      * split; [apply render_synced; [exact Hs | simpl; auto]
               | unfold phase_invariant; simpl; auto].
      * destruct metadataJson as [|fields]; simpl.
        -- split; [apply render_synced; [exact Hs | simpl; auto]
                  | unfold phase_invariant; simpl; auto].
        -- split; [apply render_synced; [exact Hs | simpl; auto]|].
           unfold phase_invariant. simpl. split; [eauto|]. split; [reflexivity|].
           match goal with
           | |- context [deps_unchanged (scope c) ?s] =>
               assert (Hd : deps_unchanged (scope c) s = false)
           end.
           { unfold deps_unchanged. destruct Hs as (_ & Hsm & _).
             rewrite Hsm, Hm. reflexivity. }
           rewrite Hd. reflexivity.
    + (* second metadata request *)
      unfold continue, loadModel_fallback_metadata.
      destruct (metadata_fetch env 1) as [e|[ok st txt [body|e]]]; simpl;
        (split; [apply render_synced; [exact Hs | simpl; auto]
                | unfold phase_invariant; simpl; auto]).
  - (* upload *)
    apply render_frame; auto. apply handleImageUpload_frame.
  - (* analysis *)
    apply render_frame; auto. apply analyzeImage_frame.
Qed.

Lemma reachable_invariant (env : Env) (c : Component) :
  reachable env c -> synced c /\ phase_invariant c.
Proof.
  induction 1 as [|c ev _ IH].
  - apply mount_invariant.
  - apply step_invariant, IH.
Qed.

Lemma run_reachable (env : Env) (schedule : list event) :
  reachable env (run env schedule).
Proof.
  unfold run.
  assert (H : forall c, reachable env c -> reachable env (fold_left (step env) schedule c)).
  { induction schedule as [|ev rest IH]; intros c Hc; simpl.
    - exact Hc.
    - apply IH. constructor. exact Hc. }
  apply H. constructor.
Qed.

End ComponentFacts.

(** ** Rejected analyses *)

(** C6.  When no image has been uploaded, a call of [analyzeImage] returns
    at once: the state (published predictions, analysing flag and all other
    cells) is unchanged, the only effect is the single "Cannot analyze"
    toast, and neither an inference nor a random draw takes place. *)
Theorem analyze_without_image_is_rejected (env : Env) (c : Dashboard.Component) :
  Dashboard.reachable env c ->
  Dashboard.image (state (Dashboard.world c)) = None ->
  Dashboard.analyze env c
  = (Ok tt,
     {| state := state (Dashboard.world c);
        effects := (effects (Dashboard.world c)
                    ++ [ShowToast Dashboard.no_image_toast])%list;
        draws := draws (Dashboard.world c);
        inferences := inferences (Dashboard.world c) |}).
Proof.
  intros Hreach Himg.
  destruct (ComponentFacts.reachable_invariant env c Hreach) as [(Hsi & _) _].
  unfold Dashboard.analyze.
  rewrite AnalysisFacts.analyzeImage_rejected.
  - reflexivity.
  - unfold guarded_image. rewrite Hsi, Himg. reflexivity.
Qed.

Lemma analyze_without_image_is_rejected_witness :
  Dashboard.analyze offline_env Dashboard.mount
  = (Ok tt,
     {| state := state (Dashboard.world Dashboard.mount);
        effects := (effects (Dashboard.world Dashboard.mount)
                    ++ [ShowToast Dashboard.no_image_toast])%list;
        draws := draws (Dashboard.world Dashboard.mount);
        inferences := inferences (Dashboard.world Dashboard.mount) |}).
Proof.
  apply (analyze_without_image_is_rejected offline_env Dashboard.mount).
  - apply Dashboard.reachable_mount.
  - reflexivity.
Defined.

(** C9.  In the stricter dashboard, a call of [analyzeImage] with an image
    uploaded while no classifier is loaded yet returns at once: the state
    (published predictions included) is unchanged, the only effect is the
    "Model not loaded" toast, and no inference takes place. *)
Theorem strict_analyze_while_loading_is_rejected
    (w : World StrictDashboard.State) (url : string) :
  StrictDashboard.image (state w) = Some url ->
  url <> "" ->
  StrictDashboard.model (state w) = None ->
  StrictDashboard.analyze w
  = (Ok tt,
     {| state := state w;
        effects := (effects w ++ [ShowToast StrictDashboard.model_not_loaded_toast])%list;
        draws := draws w;
        inferences := inferences w |}).
Proof.
  intros Himg Hurl Hmodel.
  unfold StrictDashboard.analyze, StrictDashboard.analyzeImage,
    StrictDashboard.imageRef_current.
  rewrite Himg, Hmodel. simpl.
  apply String.eqb_neq in Hurl. rewrite Hurl. reflexivity.
Qed.

Lemma strict_analyze_while_loading_is_rejected_witness :
  StrictDashboard.analyze strict_loading_world
  = (Ok tt,
     {| state := state strict_loading_world;
        effects := (effects strict_loading_world
                    ++ [ShowToast StrictDashboard.model_not_loaded_toast])%list;
        draws := draws strict_loading_world;
        inferences := inferences strict_loading_world |}).
Proof.
  apply (strict_analyze_while_loading_is_rejected strict_loading_world "blob:sample").
  - reflexivity.
  - discriminate.
  - reflexivity.
Defined.

(** ** Analyses with the classifier loaded *)

Module ReadyFacts.

Import Dashboard.

Lemma guard_passes (c : Component) (url : string) :
  synced c ->
  image (state (world c)) = Some url ->
  url <> "" ->
  guarded_image (image (scope c)) (imageRef_current (state (world c)))
  = Some {| src := url |}.
Proof.
  intros (Hi & _) Himg Hurl.
  unfold guarded_image, imageRef_current. rewrite Hi, Himg. simpl.
  apply String.eqb_neq in Hurl. rewrite Hurl. reflexivity.
Qed.

Lemma skipn_exact {A : Type} (l k : list A) : skipn (List.length l) (l ++ k) = k.
Proof. induction l as [|x l IH]; simpl; auto. Qed.

Lemma new_effects_app {St : Type} (w : World St) (s : St) (k : list effect) (d i : nat) :
  new_effects w {| state := s; effects := (effects w ++ k)%list;
                   draws := d; inferences := i |} = k.
Proof. unfold new_effects. simpl. apply skipn_exact. Qed.

(** With acquisition completed the callback holds the classifier and sees
    no load error. *)
Lemma loaded_scope (env : Env) (c : Component) :
  reachable env c ->
  pending c = Loaded ->
  exists m, model (state (world c)) = Some m /\
            modelLoadError (state (world c)) = None /\
            model (scope c) = Some m /\
            modelLoadError (scope c) = None /\
            metadata (scope c) = metadata (state (world c)).
Proof.
  intros Hreach Hp.
  destruct (ComponentFacts.reachable_invariant env c Hreach)
    as [(_ & Hm & He) Hinv].
  unfold phase_invariant in Hinv. rewrite Hp in Hinv.
  destruct Hinv as ((m & Hmodel) & Hnone & Hmd).
  exists m. repeat split; congruence.
Qed.

Lemma mock_effects_has_call (sc : State) (d : nat) (pre post : list effect) :
  In CallGenerateMock (pre ++ mock_effects sc d ++ post).
Proof.
  apply in_or_app. right. apply in_or_app. left. left. reflexivity.
Qed.

End ReadyFacts.

(** C3.  Once [loadModel] has returned from its [try] block (acquisition is
    Ready), the state holds a classifier and no load error; every later call
    of [analyzeImage] with an image uploaded calls [predict] of that
    classifier on the image; when [predict] returns, its output is published
    as it is and the synthetic generator is not called; the generator is
    called only when [predict] throws. *)
Theorem ready_analysis_uses_the_classifier (env : Env) (c : Dashboard.Component) :
  Dashboard.reachable env c ->
  Dashboard.pending c = Dashboard.Loaded ->
  exists m,
    Dashboard.model (state (Dashboard.world c)) = Some m /\
    Dashboard.acquisition (state (Dashboard.world c)) = Dashboard.Ready m /\
    forall url,
      Dashboard.image (state (Dashboard.world c)) = Some url ->
      url <> "" ->
      let img := {| src := url |} in
      let answer := predict m (inferences (Dashboard.world c)) img in
      let w' := snd (Dashboard.analyze env c) in
      let added := new_effects (Dashboard.world c) w' in
      In (CallPredict img) added /\
      (forall out, answer = Ok out ->
                   Dashboard.predictions (state w') = out
                   /\ ~ In CallGenerateMock added) /\
      (In CallGenerateMock added -> exists error, answer = Throw error).
Proof.
  intros Hreach Hp.
  destruct (ReadyFacts.loaded_scope env c Hreach Hp)
    as (m & Hmodel & Herr & Hsm & Hse & _).
  destruct (ComponentFacts.reachable_invariant env c Hreach) as [Hsync _].
  exists m. split; [exact Hmodel|]. split.
  { unfold Dashboard.acquisition. rewrite Herr, Hmodel. reflexivity. }
  intros url Himg Hurl img answer w' added.
  pose proof (ReadyFacts.guard_passes c url Hsync Himg Hurl) as Hg.
  assert (He : JS.truthy (Dashboard.modelLoadError (Dashboard.scope c)) = false)
    by (rewrite Hse; reflexivity).
  subst w' added. unfold Dashboard.analyze.
  destruct (predict m (inferences (Dashboard.world c)) img) as [out|error] eqn:Hans;
    subst answer.
  - rewrite (AnalysisFacts.analyzeImage_predicted env _ img _ _ m out Hg Hsm He Hans).
    cbn [snd]. rewrite ReadyFacts.new_effects_app. cbn [state].
    assert (Hno : ~ In CallGenerateMock
                    [Sleep 100; CallPredict img;
                     ShowToast Dashboard.analysis_complete_toast]).
    { intros [H|[H|[H|[]]]]; discriminate. }
    split; [simpl; auto|]. split.
    + intros out' Hout. injection Hout as <-. split; [reflexivity | exact Hno].
    + intros Hin. contradiction.
  - destruct (malformed (Dashboard.scope c)) eqn:Hmal.
    + rewrite (AnalysisFacts.analyzeImage_unrecovered
                 env _ img _ _ m error Hg Hsm He Hans Hmal).
      cbn [snd]. rewrite ReadyFacts.new_effects_app.
      split; [simpl; auto|]. split.
      * intros out' Hout. discriminate.
      * intros _. exists error. reflexivity.
    + rewrite (AnalysisFacts.analyzeImage_recovered
                 env _ img _ _ m error Hg Hsm He Hans Hmal).
      cbn [snd]. rewrite ReadyFacts.new_effects_app.
      split; [simpl; auto|]. split.
      * intros out' Hout. discriminate.
      * intros _. exists error. reflexivity.
Qed.

Lemma ready_analysis_uses_the_classifier_witness :
  exists m,
    Dashboard.model (state (Dashboard.world (Dashboard.run online_env load_then_upload)))
    = Some m /\
    Dashboard.acquisition (state (Dashboard.world (Dashboard.run online_env load_then_upload)))
    = Dashboard.Ready m /\
    forall url,
      Dashboard.image (state (Dashboard.world (Dashboard.run online_env load_then_upload)))
      = Some url ->
      url <> "" ->
      let c := Dashboard.run online_env load_then_upload in
      let img := {| src := url |} in
      let answer := predict m (inferences (Dashboard.world c)) img in
      let w' := snd (Dashboard.analyze online_env c) in
      let added := new_effects (Dashboard.world c) w' in
      In (CallPredict img) added /\
      (forall out, answer = Ok out ->
                   Dashboard.predictions (state w') = out
                   /\ ~ In CallGenerateMock added) /\
      (In CallGenerateMock added -> exists error, answer = Throw error).
Proof.
  apply (ready_analysis_uses_the_classifier online_env
           (Dashboard.run online_env load_then_upload)).
  - apply ComponentFacts.run_reachable.
  - reflexivity.
Defined.

(** C4.  With acquisition Ready, an image uploaded and a metadata document
    whose [labels] value is a non-empty array, a call of [analyzeImage]
    whose [predict] throws does not throw itself: the [catch] block calls
    the synthetic generator and publishes its result, a probability
    distribution over the labels of the loaded metadata (one entry per
    label, every probability in [0, 1], the sum 1 within [tolerance]).
    Numbers are binary64, the draws of [Math.random()] are binary64 numbers
    in [0, 1), and an array has fewer than [2^32] entries. *)
Theorem failed_prediction_falls_back
    (env : Env) (c : Dashboard.Component) (m : CustomMobileNet)
    (url error : string) (ls : list string) :
  random_in_range env ->
  random_is_double env ->
  Dashboard.reachable env c ->
  Dashboard.pending c = Dashboard.Loaded ->
  Dashboard.model (state (Dashboard.world c)) = Some m ->
  Dashboard.image (state (Dashboard.world c)) = Some url ->
  url <> "" ->
  predict m (inferences (Dashboard.world c)) {| src := url |} = Throw error ->
  labels_in (state (Dashboard.world c)) = Some ls ->
  ls <> [] ->
  array_sized ls ->
  fst (Dashboard.analyze env c) = Ok tt /\
  In CallGenerateMock
     (new_effects (Dashboard.world c) (snd (Dashboard.analyze env c))) /\
  distribution_over ls
    (Dashboard.predictions (state (snd (Dashboard.analyze env c)))).
Proof.
  intros Hr Hd Hreach Hp Hmodel Himg Hurl Hthrow Hls Hne Hsize.
  destruct (ReadyFacts.loaded_scope env c Hreach Hp)
    as (m' & Hmodel' & Herr & Hsm & Hse & Hmd).
  assert (m' = m) by congruence. subst m'.
  destruct (ComponentFacts.reachable_invariant env c Hreach) as [Hsync _].
  pose proof (ReadyFacts.guard_passes c url Hsync Himg Hurl) as Hg.
  assert (He : JS.truthy (Dashboard.modelLoadError (Dashboard.scope c)) = false)
    by (rewrite Hse; reflexivity).
  assert (Hls' : labels_in (Dashboard.scope c) = Some ls).
  { unfold labels_in, labels_value_in in *. rewrite Hmd. exact Hls. }
  unfold Dashboard.analyze.
  rewrite (AnalysisFacts.analyzeImage_recovered env _ _ _ _ m error Hg Hsm He Hthrow
             (MockFacts.labels_in_well_formed _ _ Hls')).
  cbn [fst snd]. rewrite ReadyFacts.new_effects_app. cbn [state].
  split; [reflexivity|]. split.
  - apply ReadyFacts.mock_effects_has_call.
  - unfold with_analysis. cbn [Dashboard.predictions].
    apply MockFacts.mock_output_distribution; assumption.
Qed.

Lemma failing_env_in_range : random_in_range failing_env.
Proof.
  intros k. simpl. destruct (k <? 4)%nat; unfold Qle, Qlt; simpl; lia.
Qed.

Lemma failing_env_is_double : random_is_double failing_env.
Proof.
  intros k. simpl. unfold JS.is_double.
  destruct (k <? 4)%nat; apply Qeq_bool_iff; vm_compute; reflexivity.
Qed.

Lemma failed_prediction_falls_back_witness :
  fst (Dashboard.analyze failing_env (Dashboard.run failing_env load_then_upload)) = Ok tt /\
  In CallGenerateMock
     (new_effects
        (Dashboard.world (Dashboard.run failing_env load_then_upload))
        (snd (Dashboard.analyze failing_env (Dashboard.run failing_env load_then_upload)))) /\
  distribution_over ["Clay"; "Sand"; "Loam"]
    (Dashboard.predictions
       (state (snd (Dashboard.analyze failing_env
                      (Dashboard.run failing_env load_then_upload))))).
Proof.
  apply (failed_prediction_falls_back failing_env
           (Dashboard.run failing_env load_then_upload)
           failing_model "blob:sample" "cannot read image" ["Clay"; "Sand"; "Loam"]).
  - exact failing_env_in_range.
  - exact failing_env_is_double.
  - apply ComponentFacts.run_reachable.
  - reflexivity.
  - reflexivity.
  - reflexivity.
  - discriminate.
  - reflexivity.
  - reflexivity.
  - discriminate.
  - unfold array_sized. simpl. lia.
Defined.

(** Without the condition on the labels the fallback does not deliver a
    distribution.  With acquisition Ready and a metadata document that has
    no labels, the [catch] block publishes the empty sequence; with a string
    in the place of the labels, the generator throws inside the [catch]
    block and the call of [analyzeImage] ends with that error, publishing
    nothing. *)
Lemma failed_prediction_without_labels :
  (Dashboard.reachable unlabelled_env unlabelled_ready /\
   Dashboard.acquisition (state (Dashboard.world unlabelled_ready))
     = Dashboard.Ready failing_model /\
   Dashboard.image (state (Dashboard.world unlabelled_ready)) = Some "blob:sample" /\
   predict failing_model (inferences (Dashboard.world unlabelled_ready))
     {| src := "blob:sample" |} = Throw "cannot read image" /\
   fst (Dashboard.analyze unlabelled_env unlabelled_ready) = Ok tt /\
   Dashboard.predictions
     (state (snd (Dashboard.analyze unlabelled_env unlabelled_ready))) = [] /\
   forall ls, ~ distribution_over ls
                  (Dashboard.predictions
                     (state (snd (Dashboard.analyze unlabelled_env unlabelled_ready))))) /\
  (Dashboard.reachable mistyped_env mistyped_ready /\
   Dashboard.acquisition (state (Dashboard.world mistyped_ready))
     = Dashboard.Ready failing_model /\
   Dashboard.image (state (Dashboard.world mistyped_ready)) = Some "blob:sample" /\
   predict failing_model (inferences (Dashboard.world mistyped_ready))
     {| src := "blob:sample" |} = Throw "cannot read image" /\
   fst (Dashboard.analyze mistyped_env mistyped_ready)
     = Throw Dashboard.not_a_function /\
   Dashboard.predictions
     (state (snd (Dashboard.analyze mistyped_env mistyped_ready))) = [] /\
   filter is_toast
     (new_effects (Dashboard.world mistyped_ready)
                  (snd (Dashboard.analyze mistyped_env mistyped_ready))) = []).
Proof.
  split.
  - split; [apply ComponentFacts.run_reachable|].
    repeat (split; [reflexivity|]).
    intros ls (_ & _ & Hsum).
    change (Dashboard.predictions
              (state (snd (Dashboard.analyze unlabelled_env unlabelled_ready))))
      with (@nil Prediction) in Hsum.
    unfold tolerance in Hsum. apply Qabs_Qle_condition in Hsum.
    destruct Hsum as [Hsum _]. revert Hsum. unfold Qle. simpl. lia.
  - split; [apply ComponentFacts.run_reachable|].
    repeat (split; [reflexivity|]). reflexivity.
Qed.

(** ** Repeated analyses *)

Module RepeatFacts.

Import Dashboard.

Lemma same_number_refl (a : JS.number) : same_number a a.
Proof. destruct a; simpl; auto. apply Qeq_refl. Qed.

Lemma same_sequence_refl (l : list Prediction) : same_sequence l l.
Proof.
  induction l as [|p l IH]; constructor; auto.
  split; [reflexivity | apply same_number_refl].
Qed.

Lemma same_number_decide (a b : JS.number) : same_number a b -> same_numberb a b = true.
Proof.
  destruct a, b; simpl; try tauto. intros H. apply Qeq_bool_iff, H.
Qed.

Lemma same_sequence_decide (l l' : list Prediction) :
  same_sequence l l' -> same_sequenceb l l' = true.
Proof.
  induction 1 as [|p p' l l' [Hn Hv] _ IH]; simpl.
  - reflexivity.
  - rewrite Hn, String.eqb_refl, (same_number_decide _ _ Hv), IH. reflexivity.
Qed.

(** What one successful analysis leaves behind. *)
Lemma analyze_step_predicted (env : Env) (c : Component) (m : CustomMobileNet)
    (url : string) (out : list Prediction) :
  reachable env c ->
  pending c = Loaded ->
  model (state (world c)) = Some m ->
  image (state (world c)) = Some url ->
  url <> "" ->
  predict m (inferences (world c)) {| src := url |} = Ok out ->
  let c' := step env c Analyze in
  state (world c') = with_analysis (state (world c)) out /\
  inferences (world c') = S (inferences (world c)) /\
  pending c' = Loaded.
Proof.
  intros Hreach Hp Hmodel Himg Hurl Hans.
  destruct (ReadyFacts.loaded_scope env c Hreach Hp)
    as (m' & Hmodel' & Herr & Hsm & Hse & Hmd).
  assert (m' = m) by congruence. subst m'.
  destruct (ComponentFacts.reachable_invariant env c Hreach) as [Hsync _].
  pose proof (ReadyFacts.guard_passes c url Hsync Himg Hurl) as Hg.
  assert (He : JS.truthy (modelLoadError (scope c)) = false)
    by (rewrite Hse; reflexivity).
  simpl. unfold analyze.
  rewrite (AnalysisFacts.analyzeImage_predicted env _ _ _ _ m out Hg Hsm He Hans).
  simpl. auto.
Qed.

End RepeatFacts.

(** C8 (as amended).  With acquisition Ready, an image uploaded, and a
    classifier that is deterministic and whose [predict] succeeds on that
    image, two calls of [analyzeImage] in a row publish the same prediction
    sequence, the output of [predict]. *)
Theorem repeated_analysis_publishes_the_same
    (env : Env) (c : Dashboard.Component) (m : CustomMobileNet)
    (url : string) (out : list Prediction) :
  Dashboard.reachable env c ->
  Dashboard.pending c = Dashboard.Loaded ->
  Dashboard.model (state (Dashboard.world c)) = Some m ->
  deterministic m ->
  Dashboard.image (state (Dashboard.world c)) = Some url ->
  url <> "" ->
  predict m (inferences (Dashboard.world c)) {| src := url |} = Ok out ->
  let once := Dashboard.step env c Dashboard.Analyze in
  let twice := Dashboard.step env once Dashboard.Analyze in
  Dashboard.predictions (state (Dashboard.world once)) = out /\
  Dashboard.predictions (state (Dashboard.world twice)) = out /\
  same_sequence (Dashboard.predictions (state (Dashboard.world once)))
                (Dashboard.predictions (state (Dashboard.world twice))).
Proof.
  intros Hreach Hp Hmodel Hdet Himg Hurl Hans once twice.
  destruct (RepeatFacts.analyze_step_predicted env c m url out
              Hreach Hp Hmodel Himg Hurl Hans) as (Hs1 & Hi1 & Hp1).
  fold once in Hs1, Hi1, Hp1.
  assert (Hreach1 : Dashboard.reachable env once) by (constructor; exact Hreach).
  assert (Hmodel1 : Dashboard.model (state (Dashboard.world once)) = Some m)
    by (rewrite Hs1; exact Hmodel).
  assert (Himg1 : Dashboard.image (state (Dashboard.world once)) = Some url)
    by (rewrite Hs1; exact Himg).
  assert (Hans1 : predict m (inferences (Dashboard.world once)) {| src := url |} = Ok out)
    by (rewrite (Hdet _ (inferences (Dashboard.world c))); exact Hans).
  destruct (RepeatFacts.analyze_step_predicted env once m url out
              Hreach1 Hp1 Hmodel1 Himg1 Hurl Hans1) as (Hs2 & _ & _).
  fold twice in Hs2.
  assert (E1 : Dashboard.predictions (state (Dashboard.world once)) = out)
    by (rewrite Hs1; reflexivity).
  assert (E2 : Dashboard.predictions (state (Dashboard.world twice)) = out)
    by (rewrite Hs2; reflexivity).
  split; [exact E1|]. split; [exact E2|].
  rewrite E1, E2. apply RepeatFacts.same_sequence_refl.
Qed.

Lemma repeated_analysis_publishes_the_same_witness :
  Dashboard.predictions
    (state (Dashboard.world
              (Dashboard.step online_env (Dashboard.run online_env load_then_upload)
                              Dashboard.Analyze)))
  = [ {| className := "Clay"; probability := JS.Fin (3 # 4) |};
      {| className := "Sand"; probability := JS.Fin (1 # 4) |} ] /\
  Dashboard.predictions
    (state (Dashboard.world
              (Dashboard.step online_env
                 (Dashboard.step online_env (Dashboard.run online_env load_then_upload)
                                 Dashboard.Analyze)
                 Dashboard.Analyze)))
  = [ {| className := "Clay"; probability := JS.Fin (3 # 4) |};
      {| className := "Sand"; probability := JS.Fin (1 # 4) |} ] /\
  same_sequence
    (Dashboard.predictions
       (state (Dashboard.world
                 (Dashboard.step online_env (Dashboard.run online_env load_then_upload)
                                 Dashboard.Analyze))))
    (Dashboard.predictions
       (state (Dashboard.world
                 (Dashboard.step online_env
                    (Dashboard.step online_env (Dashboard.run online_env load_then_upload)
                                    Dashboard.Analyze)
                    Dashboard.Analyze)))).
Proof.
  apply (repeated_analysis_publishes_the_same online_env
           (Dashboard.run online_env load_then_upload) steady_model "blob:sample").
  - apply ComponentFacts.run_reachable.
  - reflexivity.
  - reflexivity.
  - intros i j img. reflexivity.
  - reflexivity.
  - discriminate.
  - reflexivity.
Defined.

(** C8 as stated fails: a deterministic classifier may deterministically
    throw.  In [failing_env] acquisition is Ready, an image is uploaded and
    [predict] throws at every call; each analysis then publishes freshly
    drawn synthetic predictions, and the two sequences differ. *)
Lemma deterministic_failure_is_not_repeatable :
  Dashboard.reachable failing_env failing_ready /\
  Dashboard.pending failing_ready = Dashboard.Loaded /\
  Dashboard.acquisition (state (Dashboard.world failing_ready))
    = Dashboard.Ready failing_model /\
  deterministic failing_model /\
  Dashboard.image (state (Dashboard.world failing_ready)) = Some "blob:sample" /\
  ~ same_sequence (Dashboard.predictions (state (Dashboard.world failing_once)))
                  (Dashboard.predictions (state (Dashboard.world failing_twice))).
Proof.
  split; [apply ComponentFacts.run_reachable|].
  split; [reflexivity|].
  split; [reflexivity|].
  split; [intros i j img; reflexivity|].
  split; [reflexivity|].
  intros H. apply RepeatFacts.same_sequence_decide in H.
  vm_compute in H. discriminate.
Qed.

(** ** Settled requests and renders *)

Module ScenarioFacts.

Import Dashboard.

Lemma delivered_inv (r : fetch_outcome) (body : json) :
  delivered r = Some body ->
  exists ok status text, r = Resolved (MkResponse ok status text (Ok body)).
Proof.
  destruct r as [e|[ok st txt [b|e]]]; simpl; intros H; try discriminate.
  injection H as ->. eauto.
Qed.

Lemma delivered_none (r : fetch_outcome) :
  delivered r = None ->
  (exists e, r = NetworkError e)
  \/ (exists ok status text e, r = Resolved (MkResponse ok status text (Throw e))).
Proof.
  destruct r as [e|[ok st txt [b|e]]]; simpl; intros H; try discriminate; eauto 6.
Qed.

Lemma render_metadata (c : Component) (w : World State) (p : phase) (j : json) :
  metadata (scope c) = j -> metadata (state w) = j ->
  metadata (scope (render c w p)) = j.
Proof.
  intros Hs Hw. destruct (ComponentFacts.render_scope c w p) as [H|H];
    rewrite H; assumption.
Qed.

End ScenarioFacts.

(** C5 at its failing input.  Scenario A with a detour: the first metadata
    request is answered with status 503 and a JSON error body, which is
    stored as metadata; the classifier load is rejected; the user chooses an
    image; the request repeated by the [catch] block delivers the document
    with the labels Clay, Sand, Loam.  The state is then Degraded with the
    three labels stored, but the memoised [analyzeImage] belongs to the
    render of the upload, whose metadata had no labels: the analysis
    publishes the empty sequence instead of three predictions. *)
Lemma degraded_retry_publishes_nothing :
  Dashboard.reachable retry_env retry_component /\
  Dashboard.chosen_load retry_env = LoadRejected "model.json not found" /\
  delivered (metadata_fetch retry_env 1) = Some (JObject soil_metadata) /\
  Dashboard.acquisition (state (Dashboard.world retry_component))
    = Dashboard.Degraded Dashboard.fallback_message /\
  labels_in (state (Dashboard.world retry_component))
    = Some ["Clay"; "Sand"; "Loam"] /\
  Dashboard.image (state (Dashboard.world retry_component)) = Some "blob:sample" /\
  Dashboard.metadata (Dashboard.scope retry_component) = JObject error_document /\
  fst (Dashboard.analyze retry_env retry_component) = Ok tt /\
  Dashboard.predictions (state (snd (Dashboard.analyze retry_env retry_component))) = [] /\
  new_effects (Dashboard.world retry_component)
              (snd (Dashboard.analyze retry_env retry_component))
  = [Sleep 100; CallGenerateMock; Sleep 800;
     ShowToast Dashboard.analysis_complete_toast].
Proof.
  split; [apply ComponentFacts.run_reachable|].
  repeat split; reflexivity.
Qed.

(** ** Sessions in which the metadata request fails *)

Module AcquisitionFacts.

Import Dashboard.

Lemma step_first_request_failed (env : Env) (c : Component) (ev : event) :
  delivered (metadata_fetch env 0) = None ->
  first_request_failed c ->
  first_request_failed (step env c ev).
Proof.
  intros Hnone Hc. unfold first_request_failed in *.
  destruct ev as [|file|]; simpl; [|exact Hc|exact Hc].
  destruct (pending c) eqn:Hpend; try contradiction.
  - unfold continue, loadModel_metadata.
    destruct (ScenarioFacts.delivered_none _ Hnone)
      as [(e & Hr)|(ok & st & txt & e & Hr)]; rewrite Hr; simpl; exact I.
  - unfold continue, loadModel_fallback_metadata.
    destruct (metadata_fetch env 1) as [e|[ok st txt [body|e]]]; simpl; exact I.
  - rewrite Hpend. exact I.
Qed.

(** A network error or a body that does not parse on the first request:
    the session never becomes Ready, whatever happens afterwards. *)
Lemma failed_request_never_ready (env : Env) (c : Component) (m : CustomMobileNet) :
  delivered (metadata_fetch env 0) = None ->
  reachable env c ->
  acquisition (state (world c)) <> Ready m.
Proof.
  intros Hnone Hreach.
  assert (Hf : first_request_failed c).
  { induction Hreach as [|c ev _ IH]; [exact I|].
    apply step_first_request_failed; assumption. }
  destruct (ComponentFacts.reachable_invariant env c Hreach) as [_ Hp].
  unfold first_request_failed in Hf. unfold phase_invariant in Hp.
  unfold acquisition.
  destruct (pending c); try contradiction.
  - destruct Hp as [-> ->]. discriminate.
  - rewrite Hp. simpl. discriminate.
  - rewrite Hp. simpl. discriminate.
Qed.

(** ... and the [catch] block goes on: it records the load error and asks
    for the metadata a second time. *)
Lemma failed_request_continues (env : Env) :
  delivered (metadata_fetch env 0) = None ->
  let c := step env mount Settle in
  pending c = AwaitFallbackMetadata /\
  acquisition (state (world c)) = Degraded fallback_message /\
  new_effects (world mount) (world c)
  = [ConsoleError "Error loading model:"; ShowToast model_failed_toast;
     Fetch metadata_url].
Proof.
  intros Hnone. simpl. unfold continue, loadModel_metadata.
  destruct (ScenarioFacts.delivered_none _ Hnone)
    as [(e & Hr)|(ok & st & txt & e & Hr)]; rewrite Hr; simpl; auto.
Qed.

End AcquisitionFacts.

(** C7 at its failing input.  The first metadata request is answered with
    status 503 and a JSON body; the dashboard never looks at the status,
    stores the body as metadata and loads the classifier: the session ends
    Ready.  The stricter dashboard, in the same session, throws on the
    status and keeps no classifier. *)
Lemma non_success_status_reaches_ready :
  metadata_fetch unavailable_env 0
    = Resolved (MkResponse false 503 "Service Unavailable"
                           (Ok (JObject error_document))) /\
  Dashboard.pending (Dashboard.run unavailable_env [Dashboard.Settle; Dashboard.Settle])
    = Dashboard.Loaded /\
  Dashboard.acquisition
    (state (Dashboard.world
              (Dashboard.run unavailable_env [Dashboard.Settle; Dashboard.Settle])))
    = Dashboard.Ready steady_model /\
  StrictDashboard.model
    (state (snd (StrictDashboard.loadModel unavailable_env
                   (fresh_world StrictDashboard.initial))))
    = None /\
  StrictDashboard.modelError
    (state (snd (StrictDashboard.loadModel unavailable_env
                   (fresh_world StrictDashboard.initial))))
    = Some "Error loading model: Failed to load metadata: 503 Service Unavailable".
Proof.
  repeat split; reflexivity.
Qed.

(** C2 at its failing input.  The user chooses an image while the first
    metadata request is pending; that request fails on the network and the
    second one delivers the document.  The state is then degraded with the
    three labels loaded, but the memoised [analyzeImage] still belongs to
    the render in which the load error was set, where the metadata was
    [null]: the analysis publishes the empty sequence. *)
Lemma stale_callback_publishes_nothing :
  Dashboard.reachable flaky_env stale_component /\
  Dashboard.acquisition (state (Dashboard.world stale_component))
    = Dashboard.Degraded Dashboard.fallback_message /\
  labels_in (state (Dashboard.world stale_component))
    = Some ["Clay"; "Sand"; "Loam"] /\
  Dashboard.image (state (Dashboard.world stale_component)) = Some "blob:sample" /\
  Dashboard.metadata (Dashboard.scope stale_component) = JNull /\
  fst (Dashboard.analyze flaky_env stale_component) = Ok tt /\
  Dashboard.predictions (state (snd (Dashboard.analyze flaky_env stale_component))) = [] /\
  new_effects (Dashboard.world stale_component)
              (snd (Dashboard.analyze flaky_env stale_component))
  = [Sleep 100; CallGenerateMock; Sleep 800;
     ShowToast Dashboard.analysis_complete_toast].
Proof.
  split; [apply ComponentFacts.run_reachable|].
  repeat split; reflexivity.
Qed.

(** ** Degraded analyses seen from the callback *)

Module DegradedFacts.

Import Dashboard.

(** Whenever the callback that runs was created by a render that already
    had the label array, a degraded analysis publishes a distribution over
    these labels: one entry per label, every probability in [0, 1], and the
    sum 1 within [tolerance] (the arithmetic is binary64). *)
Lemma degraded_analysis_distribution
    (env : Env) (c : Component) (reason url : string) (ls : list string) :
  random_in_range env ->
  random_is_double env ->
  reachable env c ->
  acquisition (state (world c)) = Degraded reason ->
  image (state (world c)) = Some url ->
  url <> "" ->
  labels_in (scope c) = Some ls ->
  ls <> [] ->
  array_sized ls ->
  fst (analyze env c) = Ok tt /\
  List.length (predictions (state (snd (analyze env c)))) = List.length ls /\
  distribution_over ls (predictions (state (snd (analyze env c)))).
Proof.
  intros Hr Hd Hreach Hdeg Himg Hurl Hls Hne Hsize.
  destruct (ComponentFacts.reachable_invariant env c Hreach) as [Hsync _].
  pose proof (ReadyFacts.guard_passes c url Hsync Himg Hurl) as Hg.
  assert (Herr : JS.truthy (modelLoadError (scope c)) = true).
  { destruct Hsync as (_ & _ & He). rewrite He.
    unfold acquisition in Hdeg.
    destruct (modelLoadError (state (world c))) as [msg|].
    - destruct (JS.truthy (Some msg)); [reflexivity|].
      destruct (model (state (world c))); discriminate.
    - destruct (model (state (world c))); discriminate. }
  unfold analyze.
  rewrite (AnalysisFacts.analyzeImage_fallback env _ _ _ _ Hg (or_intror Herr)
             (MockFacts.labels_in_well_formed _ _ Hls)).
  cbn [fst snd state with_analysis predictions].
  pose proof (MockFacts.mock_output_distribution env (scope c) (draws (world c)) ls
                Hr Hd Hls Hne Hsize) as Hdist.
  split; [reflexivity|]. split; [|exact Hdist].
  apply (MockFacts.distribution_length _ _ Hdist).
Qed.

End DegradedFacts.

(** * Further properties of the code *)

(** ** The top prediction on arbitrary sequences *)

Module TopFacts.

Lemma pick_either (a b : Prediction) : pick a b = a \/ pick a b = b.
Proof. unfold pick. destruct (JS.gt (probability a) (probability b)); auto. Qed.

Lemma fold_pick_member (rest : list Prediction) (acc : Prediction) :
  fold_left pick rest acc = acc \/ In (fold_left pick rest acc) rest.
Proof.
  revert acc. induction rest as [|x rest IH]; intros acc; simpl.
  - left. reflexivity.
  - destruct (IH (pick acc x)) as [H|H].
    + rewrite H. destruct (pick_either acc x) as [E|E]; rewrite E; auto.
    + right. right. exact H.
Qed.

Lemma pick_NaN (acc p : Prediction) : probability p = JS.NaN -> pick acc p = p.
Proof.
  intros H. unfold pick. rewrite H.
  destruct (probability acc); reflexivity.
Qed.

Lemma pick_after_NaN (p x : Prediction) : probability p = JS.NaN -> pick p x = x.
Proof. intros H. unfold pick. rewrite H. reflexivity. Qed.

End TopFacts.

(** X1.  [topPrediction] is [null] exactly for the empty sequence; in every
    other case, whatever the probabilities are ([NaN] and infinities
    included), it is one of the entries of the sequence. *)
Theorem topPrediction_is_an_entry (predictions : list Prediction) :
  (topPrediction predictions = None <-> predictions = []) /\
  (forall top, topPrediction predictions = Some top -> In top predictions).
Proof.
  destruct predictions as [|first rest]; simpl.
  - split; [tauto | discriminate].
  - split; [split; discriminate|].
    intros top H. injection H as <-.
    destruct (TopFacts.fold_pick_member rest first) as [E|E]; [left; auto | right; exact E].
Qed.

(** X2.  A [NaN] probability makes the reducer forget everything before
    it: both comparisons with [NaN] are false, so the [NaN] entry replaces
    the running maximum and is itself replaced by the next entry.  The top
    prediction of a sequence with a [NaN] entry is the top prediction of
    what follows that entry, and the [NaN] entry itself when it is last. *)
Theorem topPrediction_restarts_after_NaN
    (before after : list Prediction) (p : Prediction) :
  probability p = JS.NaN ->
  topPrediction (before ++ p :: after)
  = match after with
    | [] => Some p
    | _ :: _ => topPrediction after
    end.
Proof.
  intros Hnan.
  assert (Hfold : forall pre acc,
             fold_left pick (pre ++ p :: after) acc = fold_left pick after p).
  { intros pre acc. rewrite fold_left_app. simpl.
    rewrite (TopFacts.pick_NaN _ p Hnan). reflexivity. }
  assert (Hall : topPrediction (before ++ p :: after) = Some (fold_left pick after p)).
  { destruct before as [|first rest]; simpl.
    - reflexivity.
    - f_equal. apply Hfold. }
  rewrite Hall. destruct after as [|x rest]; simpl.
  - reflexivity.
  - rewrite (TopFacts.pick_after_NaN p x Hnan). reflexivity.
Qed.

Lemma topPrediction_restarts_after_NaN_witness :
  topPrediction
    ([ {| className := "Clay"; probability := JS.Fin (9 # 10) |} ]
     ++ {| className := "Sand"; probability := JS.NaN |}
     :: [ {| className := "Loam"; probability := JS.Fin (1 # 10) |} ])
  = topPrediction [ {| className := "Loam"; probability := JS.Fin (1 # 10) |} ].
Proof.
  apply (topPrediction_restarts_after_NaN
           [ {| className := "Clay"; probability := JS.Fin (9 # 10) |} ]
           [ {| className := "Loam"; probability := JS.Fin (1 # 10) |} ]
           {| className := "Sand"; probability := JS.NaN |}).
  reflexivity.
Defined.

(** ** The generator as a function *)

(** X3.  Whatever [Math.random()] returns, [generateMockPredictions] touches
    neither the state nor the classifier, and what it does is decided by
    the [labels] value of the metadata it sees.  Without metadata or labels
    it returns the empty sequence without a draw.  On an array it returns
    one entry per label, in the order of the labels, after one draw for the
    dominant index and one per label.  On any other truthy value it draws
    once and throws the [TypeError] of [labels.forEach]. *)
Theorem generator_keeps_the_labels
    (env : Env) (scope : Dashboard.State) (w : World Dashboard.State) :
  exists r w',
    Dashboard.generateMockPredictions env scope w = (r, w') /\
    state w' = state w /\
    inferences w' = inferences w /\
    match labels_value_in scope with
    | NoLabels => r = Ok [] /\ draws w' = draws w
    | LabelArray ls =>
        (exists out, r = Ok out /\ map className out = ls) /\
        draws w' = (draws w + S (List.length ls))%nat
    | NotAnArray =>
        r = Throw Dashboard.not_a_function /\ draws w' = S (draws w)
    end.
Proof.
  rewrite MockFacts.generateMockPredictions_run.
  eexists. eexists. split; [reflexivity|].
  split; [reflexivity|]. split; [reflexivity|].
  unfold mock_result, mock_output, mock_draws, malformed, labels_in.
  destruct (labels_value_in scope) as [|ls|]; simpl.
  - rewrite Nat.add_0_r. auto.
  - split; [|reflexivity]. eexists. split; [reflexivity|].
    unfold Dashboard.normalize. rewrite map_map. cbn [className].
    apply RawFacts.raw_entries_classNames.
  - rewrite Nat.add_1_r. auto.
Qed.

(** X4.  For draws of [Math.random()] that are binary64 numbers in [0, 1)
    and metadata with a non-empty label array, [generateMockPredictions]
    returns a probability distribution over the labels: one entry per label
    in order, every probability a finite number in [0, 1], and the
    probabilities add up to 1 within [tolerance] (the additions and
    divisions are rounded, so the sum is not always exactly 1). *)
Theorem generator_returns_a_distribution
    (env : Env) (scope : Dashboard.State) (w : World Dashboard.State)
    (ls : list string) :
  random_in_range env ->
  random_is_double env ->
  labels_in scope = Some ls ->
  ls <> [] ->
  array_sized ls ->
  exists out w',
    Dashboard.generateMockPredictions env scope w = (Ok out, w') /\
    List.length out = List.length ls /\
    distribution_over ls out.
Proof.
  intros Hr Hd Hls Hne Hsize.
  rewrite (MockFacts.generateMockPredictions_returns env scope w
             (MockFacts.labels_in_well_formed _ _ Hls)).
  eexists. eexists. split; [reflexivity|].
  pose proof (MockFacts.mock_output_distribution env scope (draws w) ls
                Hr Hd Hls Hne Hsize) as Hdist.
  split; [apply (MockFacts.distribution_length _ _ Hdist) | exact Hdist].
Qed.

Lemma generator_returns_a_distribution_witness :
  exists out w',
    Dashboard.generateMockPredictions offline_env soil_scope (fresh_world soil_scope)
    = (Ok out, w') /\
    List.length out = List.length ["Clay"; "Sand"; "Loam"] /\
    distribution_over ["Clay"; "Sand"; "Loam"] out.
Proof.
  apply (generator_returns_a_distribution offline_env soil_scope
           (fresh_world soil_scope) ["Clay"; "Sand"; "Loam"]).
  - exact MockFacts.fair_coin_in_range.
  - exact MockFacts.fair_coin_is_double.
  - reflexivity.
  - discriminate.
  - unfold array_sized. simpl. lia.
Defined.

Module DominantFacts.

Import Dashboard.
Local Open Scope Q_scope.

(** The reducer of a non-empty sequence without [NaN] ends on a latest
    maximum. *)
Lemma top_latest_max (l : list Prediction) :
  l <> [] -> no_NaN l ->
  exists top, topPrediction l = Some top /\ latest_max l top.
Proof.
  intros Hne Hnan. destruct l as [|first rest]; [congruence|].
  exists (fold_left pick rest first). split; [reflexivity|].
  apply (fold_pick_latest rest [first] first Hnan).
  exists 0%nat. split; [split|].
  - reflexivity.
  - intros p [<-|[]]. apply JSFacts.le_refl.
    unfold no_NaN in Hnan. apply Forall_inv in Hnan. exact Hnan.
  - intros j p Hj Hp. destruct j as [|[|j]]; [lia| |]; discriminate.
Qed.

Lemma div_lt (a b t : Q) : 0 < t -> a < b -> a / t < b / t.
Proof.
  intros Ht Hab. unfold Qdiv. apply Qmult_lt_r; [|exact Hab].
  apply Qinv_lt_0_compat, Ht.
Qed.

(** In the normalised raw entries, the entry at the dominant index is
    strictly above every other one: the raw values differ by a factor of
    two, which the rounding of the divisions cannot bridge. *)
Lemma normalized_dominant (raw : list Prediction) (k : nat) :
  one_dominant_raw raw k ->
  (k < List.length raw)%nat ->
  exists top,
    nth_error (normalize raw) k = Some top /\
    (exists r, nth_error raw k = Some r /\ className top = className r) /\
    all_finite (normalize raw) /\
    forall i p, nth_error (normalize raw) i = Some p -> i <> k ->
                JS.lt (probability p) (probability top).
Proof.
  intros Hshape Hk.
  pose proof (RawFacts.one_dominant_unit raw k Hshape) as Hunit.
  destruct (SumFacts.fold_sum raw Hunit 0) as (t & Ht & _ & _ & Htcap & Hall).
  { apply FloatFacts.is_double_zero. }
  { lra. }
  { pose proof (FloatFacts.pow2_pos 53). lra. }
  destruct (nth_error raw k) as [r|] eqn:Hr.
  2:{ apply nth_error_None in Hr. lia. }
  destruct (Hshape k r Hr) as (qk & Hqk & _ & Hbk). rewrite Nat.eqb_refl in Hbk.
  assert (Hle : forall i ri qi, nth_error raw i = Some ri ->
                                probability ri = JS.Fin qi -> qi <= t).
  { intros i ri qi Hi Hqi. rewrite Forall_forall in Hall. apply Hall.
    unfold values. apply in_map_iff. exists ri. rewrite Hqi.
    split; [reflexivity | eapply nth_error_In; exact Hi]. }
  assert (Hqkt : qk <= t) by (eapply Hle; eassumption).
  assert (Htpos : 0 < t) by lra.
  change (JS.pow2 53) with 9007199254740992 in Htcap.
  destruct (SumFacts.div_step qk t ltac:(lra) Hqkt Htpos) as (wk & Hwk & _ & _ & Hek).
  unfold normalize. unfold sum_probabilities. rewrite Ht.
  eexists. split.
  { rewrite nth_error_map, Hr. reflexivity. }
  split; [exists r; split; reflexivity|].
  split.
  { destruct (SumFacts.normalize_run raw t Hunit Htpos Hall) as (_ & Hb & _).
    eapply Forall_impl; [|exact Hb]. intros p (w & Hw & _). exists w. exact Hw. }
  intros i p Hi Hne. rewrite nth_error_map in Hi.
  destruct (nth_error raw i) as [ri|] eqn:Hri; [|discriminate].
  injection Hi as <-. cbn [probability].
  destruct (Hshape i ri Hri) as (qi & Hqi & _ & Hbi).
  apply Nat.eqb_neq in Hne. rewrite Hne in Hbi.
  assert (Hqit : qi <= t) by (eapply Hle; eassumption).
  destruct (SumFacts.div_step qi t ltac:(lra) Hqit Htpos) as (wi & Hwi & _ & _ & Hei).
  rewrite Hqi, Hqk, Hwi, Hwk. cbn [JS.lt].
  (* the two quotients *)
  assert (Hx : 1 # 22517998136852480 <= qk / t).
  { apply Qle_shift_div_l; [exact Htpos|]. lra. }
  assert (Hy : 2 * (qi / t) < qk / t).
  { setoid_replace (2 * (qi / t)) with ((2 * qi) / t) by (field; lra).
    apply div_lt; [exact Htpos | lra]. }
  assert (Hy0 : 0 <= qi / t) by (apply Qle_shift_div_l; lra).
  assert (Heta : JS.pow2 (-1075) <= 1 # 79228162514264337593543950336).
  { change (1 # 79228162514264337593543950336) with (JS.pow2 (-96)).
    apply FloatFacts.pow2_le. lia. }
  pose proof (FloatFacts.pow2_pos (-1075)) as Heta0.
  change (JS.pow2 (-53)) with (1 # 9007199254740992) in *.
  set (eta := JS.pow2 (-1075)) in *.
  set (x := qk / t) in *. set (y := qi / t) in *.
  apply Qabs_Qle_condition in Hek. apply Qabs_Qle_condition in Hei.
  lra.
Qed.

End DominantFacts.

(** X5.  The generator and [topPrediction] agree on the winner: for draws
    that are binary64 numbers in [0, 1) and a non-empty label array, the
    top prediction of the generated sequence is the entry of the label at
    the drawn dominant index [Math.floor(Math.random() * labels.length)],
    the product being rounded as the code rounds it, and every other entry
    has a strictly smaller probability. *)
Theorem top_of_generated_is_dominant
    (env : Env) (scope : Dashboard.State) (w : World Dashboard.State)
    (ls : list string) :
  random_in_range env ->
  random_is_double env ->
  labels_in scope = Some ls ->
  ls <> [] ->
  array_sized ls ->
  exists out w' k label top,
    Dashboard.generateMockPredictions env scope w = (Ok out, w') /\
    dominant_index env (List.length ls) (draws w) = JS.of_nat k /\
    nth_error ls k = Some label /\
    topPrediction out = Some top /\
    nth_error out k = Some top /\
    className top = label /\
    forall i p, nth_error out i = Some p -> i <> k ->
                JS.lt (probability p) (probability top).
Proof.
  intros Hr Hd Hls Hne Hsize.
  rewrite (MockFacts.generateMockPredictions_returns env scope w
             (MockFacts.labels_in_well_formed _ _ Hls)).
  unfold mock_output. rewrite Hls.
  destruct (RawFacts.raw_entries_dominated env ls (draws w) (S (draws w))
              Hr Hd Hne Hsize) as (k & Hdom_index & Hklen & Hshape).
  set (raw := raw_entries env (dominant_index env (List.length ls) (draws w))
                ls 0 (S (draws w))) in *.
  assert (Hnames : map className raw = ls)
    by apply RawFacts.raw_entries_classNames.
  assert (Hrawlen : List.length raw = List.length ls)
    by apply RawFacts.raw_entries_length.
  assert (Hk : (k < List.length raw)%nat) by lia.
  destruct (DominantFacts.normalized_dominant raw k Hshape Hk)
    as (dom & Hdom & (r & Hrk & Hcn) & Hfin & Hstrict).
  assert (Hne_out : Dashboard.normalize raw <> []).
  { intros E. rewrite E in Hdom. destruct k; discriminate. }
  assert (Hnan : no_NaN (Dashboard.normalize raw)).
  { eapply Forall_impl; [|exact Hfin]. intros p [q Hq]. rewrite Hq. discriminate. }
  destruct (DominantFacts.top_latest_max _ Hne_out Hnan)
    as (top & Htop & i & (Hi & Hmax) & _).
  assert (Hik : i = k).
  { destruct (Nat.eq_dec i k) as [E|E]; [exact E|].
    exfalso.
    pose proof (Hstrict i top Hi E) as Hlt.
    pose proof (Hmax dom (nth_error_In _ _ Hdom)) as Hle.
    clear - Hlt Hle.
    destruct (probability top), (probability dom); simpl in *; try tauto.
    apply (Qlt_irrefl q). eapply Qlt_le_trans; eassumption. }
  subst i. assert (top = dom) by congruence. subst dom.
  exists (Dashboard.normalize raw). eexists.
  exists k, (className r), top.
  split; [reflexivity|].
  split; [exact Hdom_index|].
  split.
  { rewrite <- Hnames, nth_error_map, Hrk. reflexivity. }
  split; [exact Htop|]. split; [exact Hi|]. split; [exact Hcn|]. exact Hstrict.
Qed.

Lemma top_of_generated_is_dominant_witness :
  exists out w' k label top,
    Dashboard.generateMockPredictions offline_env soil_scope (fresh_world soil_scope)
    = (Ok out, w') /\
    dominant_index offline_env (List.length ["Clay"; "Sand"; "Loam"])
                   (draws (fresh_world soil_scope))
    = JS.of_nat k /\
    nth_error ["Clay"; "Sand"; "Loam"] k = Some label /\
    topPrediction out = Some top /\
    nth_error out k = Some top /\
    className top = label /\
    forall i p, nth_error out i = Some p -> i <> k ->
                JS.lt (probability p) (probability top).
Proof.
  apply (top_of_generated_is_dominant offline_env soil_scope
           (fresh_world soil_scope) ["Clay"; "Sand"; "Loam"]).
  - exact MockFacts.fair_coin_in_range.
  - exact MockFacts.fair_coin_is_double.
  - reflexivity.
  - discriminate.
  - unfold array_sized. simpl. lia.
Defined.

(** ** The fallback dashboard as a whole *)

Module SessionFacts.

Import Dashboard.

Lemma acquisition_frame (s s' : State) :
  same_acquisition s s' -> acquisition s' = acquisition s.
Proof.
  intros (_ & Hm & He). unfold acquisition. rewrite Hm, He. reflexivity.
Qed.

Lemma same_string_refl (a : option string) : same_string a a = true.
Proof. destruct a; simpl; [apply String.eqb_refl | reflexivity]. Qed.

(** The acquisition state of an event that is not the settling of an
    [await] is unchanged. *)
Lemma user_event_frame (env : Env) (c : Component) (ev : event) :
  ev <> Settle ->
  same_acquisition (state (world c)) (state (world (step env c ev))) /\
  pending (step env c ev) = pending c.
Proof.
  intros Hev. destruct ev as [|file|]; [congruence| |]; simpl.
  - split; [apply ComponentFacts.handleImageUpload_frame | reflexivity].
  - split; [apply ComponentFacts.analyzeImage_frame | reflexivity].
Qed.

End SessionFacts.

(** X6.  In every reachable configuration of the fallback dashboard, the
    memoised [analyzeImage] sees the current [image], [model] and
    [modelLoadError]: its dependency list keeps these three in step with
    the state ([metadata], which is not a dependency, is not covered). *)
Theorem callback_tracks_its_dependencies (env : Env) (c : Dashboard.Component) :
  Dashboard.reachable env c ->
  Dashboard.image (Dashboard.scope c) = Dashboard.image (state (Dashboard.world c)) /\
  Dashboard.model (Dashboard.scope c) = Dashboard.model (state (Dashboard.world c)) /\
  Dashboard.modelLoadError (Dashboard.scope c)
  = Dashboard.modelLoadError (state (Dashboard.world c)).
Proof.
  intros Hreach.
  destruct (ComponentFacts.reachable_invariant env c Hreach) as [Hs _].
  exact Hs.
Qed.

Lemma callback_tracks_its_dependencies_witness :
  Dashboard.image (Dashboard.scope stale_component)
  = Dashboard.image (state (Dashboard.world stale_component)) /\
  Dashboard.model (Dashboard.scope stale_component)
  = Dashboard.model (state (Dashboard.world stale_component)) /\
  Dashboard.modelLoadError (Dashboard.scope stale_component)
  = Dashboard.modelLoadError (state (Dashboard.world stale_component)).
Proof.
  apply (callback_tracks_its_dependencies flaky_env stale_component).
  apply ComponentFacts.run_reachable.
Defined.

(** X7.  Choosing an image that differs from the current one clears the
    published predictions, stores the image, leaves the acquisition cells
    alone and makes [useCallback] create a new [analyzeImage]: afterwards
    the callback sees the whole current state, the metadata included. *)
Theorem upload_refreshes_the_callback
    (env : Env) (c : Dashboard.Component) (url : string) :
  Dashboard.reachable env c ->
  Dashboard.image (state (Dashboard.world c)) <> Some url ->
  let c' := Dashboard.step env c (Dashboard.Upload (Some url)) in
  Dashboard.scope c' = state (Dashboard.world c') /\
  Dashboard.image (state (Dashboard.world c')) = Some url /\
  Dashboard.predictions (state (Dashboard.world c')) = [] /\
  same_acquisition (state (Dashboard.world c)) (state (Dashboard.world c')) /\
  new_effects (Dashboard.world c) (Dashboard.world c')
  = [ShowToast Dashboard.image_uploaded_toast].
Proof.
  intros Hreach Hnew c'.
  destruct (ComponentFacts.reachable_invariant env c Hreach) as [(Hi & _) _].
  subst c'. simpl. split.
  - match goal with
    | |- context [Dashboard.deps_unchanged ?a ?b] =>
        destruct (Dashboard.deps_unchanged a b) eqn:Hd
    end; [|reflexivity].
    exfalso. unfold Dashboard.deps_unchanged in Hd. simpl in Hd.
    apply andb_prop in Hd. destruct Hd as [Hd _].
    apply andb_prop in Hd. destruct Hd as [_ Hd].
    apply ComponentFacts.same_string_eq in Hd. congruence.
  - split; [reflexivity|]. split; [reflexivity|].
    split; [unfold same_acquisition; simpl; auto|].
    unfold new_effects. simpl. apply ReadyFacts.skipn_exact.
Qed.

Lemma upload_refreshes_the_callback_witness :
  Dashboard.scope
    (Dashboard.step flaky_env stale_component (Dashboard.Upload (Some "blob:second")))
  = state (Dashboard.world
             (Dashboard.step flaky_env stale_component
                (Dashboard.Upload (Some "blob:second")))) /\
  Dashboard.image
    (state (Dashboard.world
              (Dashboard.step flaky_env stale_component
                 (Dashboard.Upload (Some "blob:second")))))
  = Some "blob:second" /\
  Dashboard.predictions
    (state (Dashboard.world
              (Dashboard.step flaky_env stale_component
                 (Dashboard.Upload (Some "blob:second")))))
  = [] /\
  same_acquisition
    (state (Dashboard.world stale_component))
    (state (Dashboard.world
              (Dashboard.step flaky_env stale_component
                 (Dashboard.Upload (Some "blob:second"))))) /\
  new_effects
    (Dashboard.world stale_component)
    (Dashboard.world
       (Dashboard.step flaky_env stale_component (Dashboard.Upload (Some "blob:second"))))
  = [ShowToast Dashboard.image_uploaded_toast].
Proof.
  apply (upload_refreshes_the_callback flaky_env stale_component "blob:second").
  - apply ComponentFacts.run_reachable.
  - discriminate.
Defined.

(** X8.  Acquisition settles once: in a reachable configuration that is
    Ready, every further event (a settling [await], an upload, an analysis)
    leaves it Ready with the same classifier, and in one that is Degraded
    every further event leaves it Degraded with the same reason. *)
Theorem acquisition_settles_once
    (env : Env) (c : Dashboard.Component) (ev : Dashboard.event) :
  Dashboard.reachable env c ->
  Dashboard.acquisition (state (Dashboard.world c)) <> Dashboard.Loading ->
  Dashboard.acquisition (state (Dashboard.world (Dashboard.step env c ev)))
  = Dashboard.acquisition (state (Dashboard.world c)).
Proof.
  intros Hreach Hsettled.
  destruct ev as [|file|].
  2:{ apply SessionFacts.acquisition_frame.
      apply (SessionFacts.user_event_frame env c (Dashboard.Upload file)).
      discriminate. }
  2:{ apply SessionFacts.acquisition_frame.
      apply (SessionFacts.user_event_frame env c Dashboard.Analyze).
      discriminate. }
  destruct (ComponentFacts.reachable_invariant env c Hreach) as [_ Hp].
  unfold phase_invariant in Hp. simpl.
  destruct (Dashboard.pending c) as [|metadataJson| | | |] eqn:Hpend;
    try reflexivity; try contradiction.
  - exfalso. apply Hsettled. destruct Hp as [Hm He].
    unfold Dashboard.acquisition. rewrite He, Hm. reflexivity.
  - exfalso. apply Hsettled. destruct Hp as [Hm He].
    unfold Dashboard.acquisition. rewrite He, Hm. reflexivity.
  - unfold Dashboard.continue, Dashboard.loadModel_fallback_metadata.
    destruct (metadata_fetch env 1) as [e|[ok st txt [body|e]]]; simpl;
      unfold Dashboard.acquisition; simpl; reflexivity.
Qed.

Lemma acquisition_settles_once_witness :
  Dashboard.acquisition
    (state (Dashboard.world (Dashboard.step offline_env degraded_with_image Dashboard.Settle)))
  = Dashboard.acquisition (state (Dashboard.world degraded_with_image)).
Proof.
  apply (acquisition_settles_once offline_env degraded_with_image Dashboard.Settle).
  - apply ComponentFacts.run_reachable.
  - discriminate.
Defined.

Module ToastFacts.

Import Dashboard.

Lemma filter_randoms (f : effect -> bool) (l : list nat) :
  (forall k, f (MathRandom k) = false) ->
  filter f (map MathRandom l) = [].
Proof.
  intros Hf. induction l as [|k l IH]; simpl; [reflexivity|].
  rewrite Hf. exact IH.
Qed.

Lemma filter_mock_effects (f : effect -> bool) (sc : State) (d : nat) :
  f CallGenerateMock = false ->
  (forall k, f (MathRandom k) = false) ->
  filter f (mock_effects sc d) = [].
Proof.
  intros Hc Hr. unfold mock_effects. simpl. rewrite Hc.
  apply filter_randoms, Hr.
Qed.

(** The metadata cell and the callback's view of it are [null] as long as
    the first request is pending. *)
Lemma nothing_loaded (env : Env) (c : Component) :
  reachable env c ->
  pending c = AwaitMetadata ->
  metadata (scope c) = JNull /\ metadata (state (world c)) = JNull.
Proof.
  induction 1 as [|c ev Hreach IH]; intros Hp.
  - split; reflexivity.
  - destruct ev as [|file|].
    + exfalso. simpl in Hp.
      destruct (pending c) as [|metadataJson| | | |] eqn:Hpend;
        try (rewrite Hpend in Hp; discriminate).
      * unfold continue, loadModel_metadata in Hp.
        destruct (metadata_fetch env 0) as [e|[ok st txt [body|e]]]; simpl in Hp;
          destruct (window_tmImage env); simpl in Hp; discriminate.
      * unfold continue, loadModel_model in Hp.
        destruct (chosen_load env) as [e|loaded]; simpl in Hp; [discriminate|].
        destruct metadataJson; simpl in Hp; discriminate.
      * unfold continue, loadModel_fallback_metadata in Hp.
        destruct (metadata_fetch env 1) as [e|[ok st txt [body|e]]]; simpl in Hp;
          discriminate.
    + destruct (SessionFacts.user_event_frame env c (Upload file)) as [(Hmd & _) Hpe];
        [discriminate|].
      rewrite Hpe in Hp. destruct (IH Hp) as [Hsc Hst].
      split; [|congruence].
      apply ScenarioFacts.render_metadata; [exact Hsc | exact (eq_trans Hmd Hst)].
    + destruct (SessionFacts.user_event_frame env c Analyze) as [(Hmd & _) Hpe];
        [discriminate|].
      rewrite Hpe in Hp. destruct (IH Hp) as [Hsc Hst].
      split; [|congruence].
      apply ScenarioFacts.render_metadata; [exact Hsc | exact (eq_trans Hmd Hst)].
Qed.

End ToastFacts.

(** X9.  The fallback dashboard does not reject an analysis that is
    requested while the first metadata request is still pending: with an
    image uploaded it runs the fallback branch, calls neither [predict] nor
    [Math.random()], publishes the empty sequence and shows "Analysis
    complete". *)
Theorem analysis_before_metadata_publishes_nothing
    (env : Env) (c : Dashboard.Component) (url : string) :
  Dashboard.reachable env c ->
  Dashboard.pending c = Dashboard.AwaitMetadata ->
  Dashboard.image (state (Dashboard.world c)) = Some url ->
  url <> "" ->
  Dashboard.analyze env c
  = (Ok tt,
     {| state := with_analysis (state (Dashboard.world c)) [];
        effects := (effects (Dashboard.world c)
                    ++ [Sleep 100; CallGenerateMock; Sleep 800;
                        ShowToast Dashboard.analysis_complete_toast])%list;
        draws := draws (Dashboard.world c);
        inferences := inferences (Dashboard.world c) |}).
Proof.
  intros Hreach Hp Himg Hurl.
  destruct (ComponentFacts.reachable_invariant env c Hreach) as [Hsync Hinv].
  destruct (ToastFacts.nothing_loaded env c Hreach Hp) as [Hmd _].
  pose proof (ReadyFacts.guard_passes c url Hsync Himg Hurl) as Hg.
  assert (Hm : Dashboard.model (Dashboard.scope c) = None).
  { destruct Hsync as (_ & Hsm & _). rewrite Hsm.
    unfold phase_invariant in Hinv. rewrite Hp in Hinv. apply Hinv. }
  assert (Hwf : malformed (Dashboard.scope c) = false).
  { unfold malformed, labels_value_in. rewrite Hmd. reflexivity. }
  unfold Dashboard.analyze.
  rewrite (AnalysisFacts.analyzeImage_fallback env _ _ _ _ Hg (or_introl Hm) Hwf).
  unfold mock_output, mock_effects, mock_draws, labels_in, labels_value_in.
  rewrite Hmd. simpl. rewrite Nat.add_0_r. reflexivity.
Qed.

Lemma analysis_before_metadata_publishes_nothing_witness :
  Dashboard.analyze offline_env early_upload
  = (Ok tt,
     {| state := with_analysis (state (Dashboard.world early_upload)) [];
        effects := (effects (Dashboard.world early_upload)
                    ++ [Sleep 100; CallGenerateMock; Sleep 800;
                        ShowToast Dashboard.analysis_complete_toast])%list;
        draws := draws (Dashboard.world early_upload);
        inferences := inferences (Dashboard.world early_upload) |}).
Proof.
  apply (analysis_before_metadata_publishes_nothing offline_env early_upload "blob:sample").
  - apply ComponentFacts.run_reachable.
  - reflexivity.
  - reflexivity.
  - discriminate.
Defined.

(** X10.  Whatever state the callback captured and whatever [predict] does,
    a call of [analyzeImage] of the fallback dashboard ends in one of two
    ways.  It returns normally after exactly one toast: "Cannot analyze"
    when the guard rejects the call and "Analysis complete" in every other
    case, a failure of [predict] included, which is never reported.  Or,
    when the synthetic generator is reached and the captured [labels] value
    is not an array, it ends with the [TypeError] of the generator, shows no
    toast at all, switches the analysing flag off and leaves the published
    predictions as they were. *)
Theorem analysis_ends_with_toast_or_error
    (env : Env) (sc : Dashboard.State) (ref : option HTMLImageElement)
    (w : World Dashboard.State) :
  if reaches_generator sc ref w && malformed sc
  then
    fst (Dashboard.analyzeImage env sc ref w) = Throw Dashboard.not_a_function /\
    filter is_toast (new_effects w (snd (Dashboard.analyzeImage env sc ref w))) = [] /\
    Dashboard.isAnalyzing (state (snd (Dashboard.analyzeImage env sc ref w))) = false /\
    Dashboard.predictions (state (snd (Dashboard.analyzeImage env sc ref w)))
    = Dashboard.predictions (state w)
  else
    fst (Dashboard.analyzeImage env sc ref w) = Ok tt /\
    filter is_toast (new_effects w (snd (Dashboard.analyzeImage env sc ref w)))
    = [ShowToast (match guarded_image (Dashboard.image sc) ref with
                  | Some _ => Dashboard.analysis_complete_toast
                  | None => Dashboard.no_image_toast
                  end)].
Proof.
  unfold reaches_generator.
  ComponentFacts.analysis_cases env sc ref w;
    cbn [negb andb fst snd];
    try rewrite ReadyFacts.new_effects_app;
    rewrite ?filter_app, ?ToastFacts.filter_mock_effects by reflexivity;
    try (repeat split; reflexivity).
  - unfold new_effects, exec. simpl. rewrite ReadyFacts.skipn_exact.
    split; reflexivity.
  - unfold new_effects, exec. simpl. rewrite ReadyFacts.skipn_exact.
    split; reflexivity.
Qed.

(** X11.  In every reachable configuration of the fallback dashboard in
    which the Analyze button is enabled, a call of [analyzeImage] passes the
    guard of line 142 and never shows "Cannot analyze".  When it returns,
    the one toast it shows is "Analysis complete"; it ends with an error
    only when the captured [labels] value is not an array, with the
    [TypeError] of the generator and without a toast.  In both cases the
    analysing flag is off afterwards and nothing but the published
    predictions may have changed in the state. *)
Theorem enabled_button_passes_the_guard (env : Env) (c : Dashboard.Component) :
  Dashboard.reachable env c ->
  analyze_disabled (state (Dashboard.world c)) = false ->
  let w' := snd (Dashboard.analyze env c) in
  match fst (Dashboard.analyze env c) with
  | Ok _ =>
      filter is_toast (new_effects (Dashboard.world c) w')
      = [ShowToast Dashboard.analysis_complete_toast]
  | Throw error =>
      error = Dashboard.not_a_function /\
      malformed (Dashboard.scope c) = true /\
      filter is_toast (new_effects (Dashboard.world c) w') = []
  end /\
  Dashboard.isAnalyzing (state w') = false /\
  exists out, state w' = with_analysis (state (Dashboard.world c)) out.
Proof.
  intros Hreach Hen w'.
  destruct (ComponentFacts.reachable_invariant env c Hreach) as [Hsync _].
  unfold analyze_disabled in Hen. apply orb_false_elim in Hen.
  destruct Hen as [Himg _]. apply negb_false_iff in Himg.
  destruct (Dashboard.image (state (Dashboard.world c))) as [url|] eqn:Hurl;
    [|discriminate].
  assert (Hne : url <> "").
  { intros ->. discriminate. }
  pose proof (ReadyFacts.guard_passes c url Hsync Hurl Hne) as Hpass.
  subst w'. unfold Dashboard.analyze.
  ComponentFacts.analysis_cases env (Dashboard.scope c)
    (Dashboard.imageRef_current (state (Dashboard.world c))) (Dashboard.world c);
    try congruence;
    cbn [fst snd state]; rewrite ReadyFacts.new_effects_app;
    rewrite ?filter_app, ?ToastFacts.filter_mock_effects by reflexivity;
    (split; [repeat split; reflexivity|]); (split; [reflexivity|]);
    eexists; reflexivity.
Qed.

Lemma enabled_button_passes_the_guard_witness :
  filter is_toast
    (new_effects (Dashboard.world early_upload)
                 (snd (Dashboard.analyze offline_env early_upload)))
  = [ShowToast Dashboard.analysis_complete_toast] /\
  Dashboard.isAnalyzing (state (snd (Dashboard.analyze offline_env early_upload))) = false /\
  exists out,
    state (snd (Dashboard.analyze offline_env early_upload))
    = with_analysis (state (Dashboard.world early_upload)) out.
Proof.
  apply (enabled_button_passes_the_guard offline_env early_upload).
  - apply ComponentFacts.run_reachable.
  - reflexivity.
Defined.

Module NotifyFacts.

Import Dashboard.

Lemma analysis_no_acquisition_toast (env : Env) (sc : State)
    (ref : option HTMLImageElement) (w : World State) :
  filter is_acquisition_toast (effects (snd (analyzeImage env sc ref w)))
  = filter is_acquisition_toast (effects w).
Proof.
  ComponentFacts.analysis_cases env sc ref w; cbn [snd effects];
    rewrite ?filter_app, ?ToastFacts.filter_mock_effects by reflexivity;
    simpl; rewrite ?app_nil_r; try reflexivity;
    unfold exec; simpl; rewrite filter_app; simpl; apply app_nil_r.
Qed.

Lemma upload_no_acquisition_toast (file : option string) (w : World State) :
  filter is_acquisition_toast (effects (snd (handleImageUpload file w)))
  = filter is_acquisition_toast (effects w).
Proof.
  destruct file; simpl; [|reflexivity].
  rewrite filter_app. simpl. apply app_nil_r.
Qed.

End NotifyFacts.

(** X12.  [loadModel] notifies exactly once.  In every reachable
    configuration the toasts titled "Model loaded" or "Model loading
    failed" in the log are: none while the first metadata request or the
    classifier load is pending, the single "Model loaded" toast once the
    [try] block has returned, and the single "Model loading failed" toast
    once the [catch] block has been entered. *)
Theorem acquisition_notifies_once (env : Env) (c : Dashboard.Component) :
  Dashboard.reachable env c ->
  acquisition_toasts_at
    (Dashboard.pending c)
    (filter is_acquisition_toast (effects (Dashboard.world c))).
Proof.
  induction 1 as [|c ev Hreach IH].
  - reflexivity.
  - destruct ev as [|file|]; simpl.
    + destruct (Dashboard.pending c) as [|metadataJson| | | |] eqn:Hpend;
        try (rewrite Hpend; exact IH); simpl in IH.
      * unfold Dashboard.continue, Dashboard.loadModel_metadata.
        destruct (metadata_fetch env 0) as [e|[ok st txt [body|e]]]; simpl;
          destruct (window_tmImage env); simpl;
          rewrite ?filter_app, IH; reflexivity.
      * unfold Dashboard.continue, Dashboard.loadModel_model.
        destruct (Dashboard.chosen_load env) as [e|loaded]; simpl.
        -- rewrite ?filter_app, IH. reflexivity.
        -- destruct metadataJson as [|fields]; simpl.
           ++ rewrite ?filter_app, IH. reflexivity.
           ++ rewrite ?filter_app, IH. simpl. eexists. reflexivity.
      * unfold Dashboard.continue, Dashboard.loadModel_fallback_metadata.
        destruct (metadata_fetch env 1) as [e|[ok st txt [body|e]]]; simpl;
          rewrite ?filter_app, IH; reflexivity.
    + rewrite NotifyFacts.upload_no_acquisition_toast. exact IH.
    + unfold Dashboard.analyze.
      rewrite NotifyFacts.analysis_no_acquisition_toast. exact IH.
Qed.

Lemma acquisition_notifies_once_witness :
  acquisition_toasts_at
    (Dashboard.pending failing_twice)
    (filter is_acquisition_toast (effects (Dashboard.world failing_twice))).
Proof.
  apply (acquisition_notifies_once failing_env failing_twice).
  unfold failing_twice, failing_once, failing_ready.
  do 2 apply Dashboard.reachable_step.
  apply ComponentFacts.run_reachable.
Defined.

(** ** The stricter dashboard *)

(** X13.  [loadModel] of the stricter dashboard, started without a
    classifier, never throws and never ends empty-handed: afterwards a
    classifier is stored or an error message that starts with "Error
    loading model: " is.  A classifier is stored only when the metadata
    response had a success status and a body that parsed, the global
    library was present and its [load] resolved with that classifier. *)
Theorem strict_load_ends_with_model_or_error
    (env : Env) (w : World StrictDashboard.State) :
  StrictDashboard.model (state w) = None ->
  let s' := state (snd (StrictDashboard.loadModel env w)) in
  fst (StrictDashboard.loadModel env w) = Ok tt /\
  (StrictDashboard.model s' = None ->
   exists message,
     StrictDashboard.modelError s' = Some ("Error loading model: " ++ message)) /\
  (forall m, StrictDashboard.model s' = Some m ->
     exists response parsed,
       metadata_fetch env 0 = Resolved response /\
       ok response = true /\
       body response = Ok parsed /\
       window_tmImage env = Some (LoadResolved m) /\
       StrictDashboard.metadata s' = parsed).
Proof.
  intros Hnone s'. subst s'.
  unfold StrictDashboard.loadModel.
  destruct (metadata_fetch env 0) as [e|[ok st txt [parsed|e]]] eqn:Hfetch;
    [ | destruct ok;
        [ destruct (window_tmImage env) as [[e|loaded]|] eqn:Hwin;
          [ | destruct parsed as [|fields] | ]
        | ]
      | destruct ok ];
    simpl; rewrite ?Hnone;
    (split; [reflexivity|]); split;
    try (intros _; eexists; reflexivity);
    try (intros m Hm; discriminate);
    try (intros Hm; discriminate).
  - intros m Hm. injection Hm as <-. eexists. eexists. repeat split; reflexivity.
  - intros m Hm. injection Hm as <-. eexists. eexists. repeat split; reflexivity.
Qed.

Lemma strict_load_ends_with_model_or_error_witness :
  fst (StrictDashboard.loadModel unavailable_env (fresh_world StrictDashboard.initial))
  = Ok tt /\
  (StrictDashboard.model
     (state (snd (StrictDashboard.loadModel unavailable_env
                    (fresh_world StrictDashboard.initial)))) = None ->
   exists message,
     StrictDashboard.modelError
       (state (snd (StrictDashboard.loadModel unavailable_env
                      (fresh_world StrictDashboard.initial))))
     = Some ("Error loading model: " ++ message)) /\
  (forall m,
     StrictDashboard.model
       (state (snd (StrictDashboard.loadModel unavailable_env
                      (fresh_world StrictDashboard.initial)))) = Some m ->
     exists response parsed,
       metadata_fetch unavailable_env 0 = Resolved response /\
       ok response = true /\
       body response = Ok parsed /\
       window_tmImage unavailable_env = Some (LoadResolved m) /\
       StrictDashboard.metadata
         (state (snd (StrictDashboard.loadModel unavailable_env
                        (fresh_world StrictDashboard.initial)))) = parsed).
Proof.
  apply (strict_load_ends_with_model_or_error unavailable_env
           (fresh_world StrictDashboard.initial)).
  reflexivity.
Defined.

(** X14.  In the stricter dashboard, when the Analyze button is enabled a
    call of [analyzeImage] passes both guards and calls [predict] on the
    uploaded image.  When [predict] returns, its output is published; when
    it throws, the published predictions are cleared and an "Analysis
    failed" toast carries the error message.  In both cases the call
    returns normally with the analysing flag off and the progress value at
    100, a reset timer of 500 ms is set, and [Math.random()] is not
    called. *)
Theorem strict_enabled_analysis (w : World StrictDashboard.State) :
  strict_analyze_disabled (state w) = false ->
  exists m url,
    StrictDashboard.model (state w) = Some m /\
    StrictDashboard.image (state w) = Some url /\
    StrictDashboard.analyze w
    = match predict m (inferences w) {| src := url |} with
      | Ok out =>
          (Ok tt,
           {| state := strict_after_analysis (state w) out;
              effects := (effects w
                          ++ [Sleep 100; CallPredict {| src := url |};
                              ShowToast StrictDashboard.analysis_complete_toast;
                              SetTimeout 500])%list;
              draws := draws w;
              inferences := S (inferences w) |})
      | Throw error =>
          (Ok tt,
           {| state := strict_after_analysis (state w) [];
              effects := (effects w
                          ++ [Sleep 100; CallPredict {| src := url |};
                              ConsoleError "Error analyzing image:";
                              ShowToast (StrictDashboard.analysis_failed_toast error);
                              SetTimeout 500])%list;
              draws := draws w;
              inferences := S (inferences w) |})
      end.
Proof.
  intros Hen. unfold strict_analyze_disabled in Hen.
  apply orb_false_elim in Hen. destruct Hen as [Hen Hmodel].
  apply orb_false_elim in Hen. destruct Hen as [Himg _].
  apply negb_false_iff in Himg.
  destruct (StrictDashboard.model (state w)) as [m|] eqn:Hm; [|discriminate].
  destruct (StrictDashboard.image (state w)) as [url|] eqn:Hurl; [|discriminate].
  exists m, url. split; [reflexivity|]. split; [reflexivity|].
  unfold StrictDashboard.analyze, StrictDashboard.analyzeImage,
    StrictDashboard.imageRef_current.
  rewrite Hurl, Hm, Himg.
  unfold strict_after_analysis. rewrite Hurl, Hm.
  destruct w as [s e d i]. simpl in *.
  unfold bind, try_finally, try_catch, call_predict. simpl.
  destruct (predict m i {| src := url |}) as [out|error]; simpl;
    rewrite ?Hurl, ?Hm, <- ?app_assoc; reflexivity.
Qed.

Lemma strict_enabled_analysis_witness :
  exists m url,
    StrictDashboard.model (state strict_failing_world) = Some m /\
    StrictDashboard.image (state strict_failing_world) = Some url /\
    StrictDashboard.analyze strict_failing_world
    = match predict m (inferences strict_failing_world) {| src := url |} with
      | Ok out =>
          (Ok tt,
           {| state := strict_after_analysis (state strict_failing_world) out;
              effects := (effects strict_failing_world
                          ++ [Sleep 100; CallPredict {| src := url |};
                              ShowToast StrictDashboard.analysis_complete_toast;
                              SetTimeout 500])%list;
              draws := draws strict_failing_world;
              inferences := S (inferences strict_failing_world) |})
      | Throw error =>
          (Ok tt,
           {| state := strict_after_analysis (state strict_failing_world) [];
              effects := (effects strict_failing_world
                          ++ [Sleep 100; CallPredict {| src := url |};
                              ConsoleError "Error analyzing image:";
                              ShowToast (StrictDashboard.analysis_failed_toast error);
                              SetTimeout 500])%list;
              draws := draws strict_failing_world;
              inferences := S (inferences strict_failing_world) |})
      end.
Proof.
  apply (strict_enabled_analysis strict_failing_world).
  reflexivity.
Defined.


Module ScriptFacts.

Import Scripts.

Lemma has_script_app (needle : string) (l k : list string) :
  has_script needle (l ++ k) = has_script needle l || has_script needle k.
Proof. unfold has_script. apply existsb_app. Qed.

(** A document that has both scripts is left alone. *)
Lemma loadScripts_fixed (scripts : list string) :
  has_script "tensorflow" scripts = true ->
  has_script "teachablemachine" scripts = true ->
  loadScripts scripts = scripts.
Proof.
  intros Htf Htm. unfold loadScripts. rewrite Htf. simpl. rewrite Htm. reflexivity.
Qed.

End ScriptFacts.

(** X15.  [loadScripts] of the stricter dashboard is idempotent: it keeps
    the scripts of the document, appends at most the TensorFlow.js and the
    Teachable Machine script, afterwards both selectors
    [script[src*="tensorflow"]] and [script[src*="teachablemachine"]] match,
    and running it again adds nothing. *)
Theorem loadScripts_is_idempotent (scripts : list string) :
  Scripts.loadScripts (Scripts.loadScripts scripts) = Scripts.loadScripts scripts /\
  Scripts.has_script "tensorflow" (Scripts.loadScripts scripts) = true /\
  Scripts.has_script "teachablemachine" (Scripts.loadScripts scripts) = true /\
  exists added,
    Scripts.loadScripts scripts = (scripts ++ added)%list /\
    incl added [Scripts.tensorflow_url; Scripts.teachable_url] /\
    (List.length added <= 2)%nat.
Proof.
  assert (Hshape :
            Scripts.has_script "tensorflow" (Scripts.loadScripts scripts) = true /\
            Scripts.has_script "teachablemachine" (Scripts.loadScripts scripts) = true /\
            exists added,
              Scripts.loadScripts scripts = (scripts ++ added)%list /\
              incl added [Scripts.tensorflow_url; Scripts.teachable_url] /\
              (List.length added <= 2)%nat).
  { unfold Scripts.loadScripts.
    destruct (Scripts.has_script "tensorflow" scripts) eqn:Htf; simpl.
    - destruct (Scripts.has_script "teachablemachine" scripts) eqn:Htm; simpl.
      + split; [exact Htf|]. split; [exact Htm|].
        exists []. rewrite app_nil_r. split; [reflexivity|].
        split; [intros x []|simpl; lia].
      + rewrite !ScriptFacts.has_script_app, Htf, Htm.
        split; [reflexivity|]. split; [reflexivity|].
        exists [Scripts.teachable_url]. split; [reflexivity|].
        split; [|simpl; lia].
        intros x [<-|[]]. right. left. reflexivity.
    - destruct (Scripts.has_script "teachablemachine"
                  (scripts ++ [Scripts.tensorflow_url])) eqn:Htm; simpl.
      + split; [rewrite ScriptFacts.has_script_app, Htf; reflexivity|].
        split; [exact Htm|].
        exists [Scripts.tensorflow_url]. split; [reflexivity|].
        split; [|simpl; lia].
        intros x [<-|[]]. left. reflexivity.
      + rewrite !ScriptFacts.has_script_app, Htf.
        split; [reflexivity|]. split; [rewrite Bool.orb_true_r; reflexivity|].
        exists [Scripts.tensorflow_url; Scripts.teachable_url].
        split; [rewrite <- app_assoc; reflexivity|].
        split; [apply incl_refl|simpl; lia]. }
  destruct Hshape as (Htf & Htm & Hadded).
  split; [apply ScriptFacts.loadScripts_fixed; assumption|].
  split; [exact Htf|]. split; [exact Htm|]. exact Hadded.
Qed.

(** X16.  In the first dashboard, when the Analyze button is enabled a call
    of [analyzeImage] passes the guard and calls [predict] on the uploaded
    image.  When [predict] returns, its output is published.  When it
    throws, the state is left exactly as it was: predictions published
    earlier stay on the page, and a fixed "Analysis failed" toast is shown.
    In both cases the call returns normally with the analysing flag off and
    [Math.random()] is not called. *)
Theorem simple_failed_analysis_keeps_predictions (w : World SimpleDashboard.State) :
  SimpleDashboard.analyze_disabled (state w) = false ->
  exists m url,
    SimpleDashboard.model (state w) = Some m /\
    SimpleDashboard.image (state w) = Some url /\
    SimpleDashboard.analyze w
    = match predict m (inferences w) {| src := url |} with
      | Ok out =>
          (Ok tt,
           {| state := simple_after_analysis (state w) out;
              effects := (effects w
                          ++ [Sleep 100; CallPredict {| src := url |};
                              ShowToast SimpleDashboard.analysis_complete_toast])%list;
              draws := draws w;
              inferences := S (inferences w) |})
      | Throw error =>
          (Ok tt,
           {| state := state w;
              effects := (effects w
                          ++ [Sleep 100; CallPredict {| src := url |};
                              ConsoleError "Error analyzing image:";
                              ShowToast SimpleDashboard.analysis_failed_toast])%list;
              draws := draws w;
              inferences := S (inferences w) |})
      end.
Proof.
  intros Hen. unfold SimpleDashboard.analyze_disabled in Hen.
  apply orb_false_elim in Hen. destruct Hen as [Hen Hbusy].
  apply orb_false_elim in Hen. destruct Hen as [Himg Hmodel].
  apply negb_false_iff in Himg.
  destruct (SimpleDashboard.model (state w)) as [m|] eqn:Hm; [|discriminate].
  destruct (SimpleDashboard.image (state w)) as [url|] eqn:Hurl; [|discriminate].
  exists m, url. split; [reflexivity|]. split; [reflexivity|].
  unfold SimpleDashboard.analyze, SimpleDashboard.analyzeImage,
    SimpleDashboard.imageRef_current.
  rewrite Hurl, Hm, Himg.
  unfold simple_after_analysis. rewrite Hurl, Hm.
  destruct w as [s e d i]. destruct s as [im ps busy md mo]. simpl in *.
  subst im mo busy.
  unfold bind, try_finally, try_catch, call_predict. simpl.
  destruct (predict m i {| src := url |}) as [out|error]; simpl;
    rewrite <- ?app_assoc; reflexivity.
Qed.

Lemma simple_failed_analysis_keeps_predictions_witness :
  exists m url,
    SimpleDashboard.model (state simple_failing_world) = Some m /\
    SimpleDashboard.image (state simple_failing_world) = Some url /\
    SimpleDashboard.analyze simple_failing_world
    = match predict m (inferences simple_failing_world) {| src := url |} with
      | Ok out =>
          (Ok tt,
           {| state := simple_after_analysis (state simple_failing_world) out;
              effects := (effects simple_failing_world
                          ++ [Sleep 100; CallPredict {| src := url |};
                              ShowToast SimpleDashboard.analysis_complete_toast])%list;
              draws := draws simple_failing_world;
              inferences := S (inferences simple_failing_world) |})
      | Throw error =>
          (Ok tt,
           {| state := state simple_failing_world;
              effects := (effects simple_failing_world
                          ++ [Sleep 100; CallPredict {| src := url |};
                              ConsoleError "Error analyzing image:";
                              ShowToast SimpleDashboard.analysis_failed_toast])%list;
              draws := draws simple_failing_world;
              inferences := S (inferences simple_failing_world) |})
      end.
Proof.
  apply (simple_failed_analysis_keeps_predictions simple_failing_world).
  reflexivity.
Defined.

Module SimpleLoadFacts.

Import SimpleDashboard.

(** [loadModel] returns normally whatever the requests do; it touches only
    [metadata] and [model], and shows one toast. *)
Lemma loadModel_run (env : Env) (w : World State) :
  exists w1,
    loadModel env w = (Ok tt, w1) /\
    draws w1 = draws w /\ inferences w1 = inferences w /\
    image (state w1) = image (state w) /\
    predictions (state w1) = predictions (state w) /\
    isAnalyzing (state w1) = isAnalyzing (state w) /\
    model (state w1)
    = match delivered (metadata_fetch env 0), package_load env with
      | Some _, LoadResolved m => Some m
      | _, _ => model (state w)
      end /\
    filter is_toast (new_effects w w1)
    = [ShowToast
         match delivered (metadata_fetch env 0), package_load env with
         | Some (JObject fields), LoadResolved _ =>
             model_loaded_toast (modelName fields)
         | _, _ => model_failed_toast
         end].
Proof.
  destruct w as [s e d i].
  unfold loadModel, delivered, new_effects.
  unfold try_catch, bind, emit, await_fetch, await_json, settle_load,
    get_modelName, setMetadata, setModel, update, toast, console_error,
    throw, ret.
  simpl.
  destruct (metadata_fetch env 0) as [err|response]; simpl.
  - eexists. split; [reflexivity|]. simpl.
    repeat (split; [reflexivity|]).
    rewrite <- !app_assoc, skipn_app, skipn_all, Nat.sub_diag. reflexivity.
  - destruct (body response) as [parsed|err]; simpl.
    + destruct (package_load env) as [err|m]; simpl.
      * eexists. split; [reflexivity|]. simpl.
        repeat (split; [reflexivity|]).
        rewrite <- !app_assoc, skipn_app, skipn_all, Nat.sub_diag.
        destruct parsed; reflexivity.
      * destruct parsed as [|fields]; simpl.
        -- eexists. split; [reflexivity|]. simpl.
           repeat (split; [reflexivity|]).
           rewrite <- !app_assoc, skipn_app, skipn_all, Nat.sub_diag. reflexivity.
        -- eexists. split; [reflexivity|]. simpl.
           repeat (split; [reflexivity|]).
           rewrite <- !app_assoc, skipn_app, skipn_all, Nat.sub_diag. reflexivity.
    + eexists. split; [reflexivity|]. simpl.
      repeat (split; [reflexivity|]).
      rewrite <- !app_assoc, skipn_app, skipn_all, Nat.sub_diag. reflexivity.
Qed.

Lemma handleImageUpload_run (file : option string) (w : World State) :
  exists w2,
    handleImageUpload file w = (Ok tt, w2) /\
    model (state w2) = model (state w) /\
    isAnalyzing (state w2) = isAnalyzing (state w) /\
    image (state w2) = match file with Some url => Some url | None => image (state w) end.
Proof.
  destruct w as [s e d i]. destruct file as [url|]; simpl.
  - eexists. split; [reflexivity|]. simpl. repeat split.
  - eexists. split; [reflexivity|]. simpl. repeat split.
Qed.

End SimpleLoadFacts.

(** X17.  In the first dashboard, [loadModel] always returns normally and
    shows exactly one toast.  Started without a classifier and followed by
    an upload, it leaves the Analyze button enabled exactly when the
    metadata request delivered a document, the classifier loaded and an
    image is present.  When acquisition failed, the button is disabled and a
    call of [analyzeImage] changes nothing and only shows the "Cannot
    analyze" toast: this variant has no fallback. *)
Theorem simple_load_decides_analysis
  (env : Env) (w : World SimpleDashboard.State) (file : option string) :
  SimpleDashboard.model (state w) = None ->
  SimpleDashboard.isAnalyzing (state w) = false ->
  exists w1 w2 shown,
    SimpleDashboard.loadModel env w = (Ok tt, w1) /\
    filter is_toast (new_effects w w1) = [ShowToast shown] /\
    SimpleDashboard.handleImageUpload file w1 = (Ok tt, w2) /\
    SimpleDashboard.analyze_disabled (state w2)
    = negb (load_succeeds env && JS.truthy (SimpleDashboard.image (state w2))) /\
    (load_succeeds env = false ->
     shown = SimpleDashboard.model_failed_toast /\
     SimpleDashboard.model (state w2) = None /\
     SimpleDashboard.analyze w2
     = (Ok tt, only_toast w2 SimpleDashboard.cannot_analyze_toast)).
Proof.
  intros Hmodel Hbusy.
  destruct (SimpleLoadFacts.loadModel_run env w)
    as (w1 & Hrun & _ & _ & _ & _ & Hbusy1 & Hmodel1 & Htoast).
  destruct (SimpleLoadFacts.handleImageUpload_run file w1)
    as (w2 & Hup & Hmodel2 & Hbusy2 & _).
  exists w1, w2. eexists.
  split; [exact Hrun|]. split; [exact Htoast|]. split; [exact Hup|].
  assert (Hm : SimpleDashboard.model (state w2)
               = match delivered (metadata_fetch env 0), package_load env with
                 | Some _, LoadResolved m => Some m
                 | _, _ => None
                 end).
  { rewrite Hmodel2, Hmodel1, Hmodel. reflexivity. }
  split.
  - unfold SimpleDashboard.analyze_disabled, load_succeeds.
    rewrite Hm, Hbusy2, Hbusy1, Hbusy.
    destruct (delivered (metadata_fetch env 0)) as [doc|];
      destruct (package_load env) as [err|m];
      destruct (JS.truthy (SimpleDashboard.image (state w2))); reflexivity.
  - intros Hfail. unfold load_succeeds in Hfail.
    assert (Hnone : SimpleDashboard.model (state w2) = None).
    { rewrite Hm.
      destruct (delivered (metadata_fetch env 0)) as [doc|];
        destruct (package_load env) as [err|m]; try reflexivity; discriminate. }
    split.
    + destruct (delivered (metadata_fetch env 0)) as [[|fields]|];
        destruct (package_load env) as [err|m]; try reflexivity; discriminate.
    + split; [exact Hnone|].
      unfold SimpleDashboard.analyze, SimpleDashboard.analyzeImage.
      rewrite Hnone. reflexivity.
Qed.

Lemma simple_load_decides_analysis_witness :
  exists w1 w2 shown,
    SimpleDashboard.loadModel offline_env (fresh_world SimpleDashboard.initial)
    = (Ok tt, w1) /\
    filter is_toast (new_effects (fresh_world SimpleDashboard.initial) w1)
    = [ShowToast shown] /\
    SimpleDashboard.handleImageUpload (Some "blob:sample") w1 = (Ok tt, w2) /\
    SimpleDashboard.analyze_disabled (state w2)
    = negb (load_succeeds offline_env
            && JS.truthy (SimpleDashboard.image (state w2))) /\
    (load_succeeds offline_env = false ->
     shown = SimpleDashboard.model_failed_toast /\
     SimpleDashboard.model (state w2) = None /\
     SimpleDashboard.analyze w2
     = (Ok tt, only_toast w2 SimpleDashboard.cannot_analyze_toast)).
Proof.
  apply (simple_load_decides_analysis offline_env
           (fresh_world SimpleDashboard.initial) (Some "blob:sample"));
    reflexivity.
Defined.

Module LoginFacts.

Lemma edits_keep_loading (edits : list login_edit) (s : Login.State) :
  Login.isLoading (fold_left apply_login_edit edits s) = Login.isLoading s.
Proof.
  revert s. induction edits as [|e edits IH]; intros s; simpl; [reflexivity|].
  rewrite IH. destruct e; reflexivity.
Qed.

Lemma edits_after_submit (edits : list login_edit) (s : Login.State) :
  Login.email (fold_left apply_login_edit edits (Login.setIsLoading true s))
  = Login.email (fold_left apply_login_edit edits s) /\
  Login.password (fold_left apply_login_edit edits (Login.setIsLoading true s))
  = Login.password (fold_left apply_login_edit edits s).
Proof.
  assert (H : forall a b,
             Login.email a = Login.email b -> Login.password a = Login.password b ->
             Login.email (fold_left apply_login_edit edits a)
             = Login.email (fold_left apply_login_edit edits b) /\
             Login.password (fold_left apply_login_edit edits a)
             = Login.password (fold_left apply_login_edit edits b)).
  { induction edits as [|e edits IH]; intros a b He Hp; simpl; [split; assumption|].
    apply IH; destruct e; simpl; congruence. }
  apply H; reflexivity.
Qed.

End LoginFacts.

(** X18.  A submission of the login form navigates to the dashboard exactly
    when the e-mail and the password of the submitted form are
    admin@gmail.com and admin123; what is typed while the 500 ms timer is
    pending does not change the decision.  The form is disabled until the
    timer fires; the timer shows exactly one toast, re-enables the form and
    keeps what was typed. *)
Theorem login_decides_on_the_submitted_form
  (s : Login.State) (edits : list login_edit) :
  (Login.email s = "admin@gmail.com" /\ Login.password s = "admin123" ->
   snd (login_session s edits)
   = [Login.PreventDefault; Login.SetTimeout 500;
      Login.ShowToast Login.login_successful_toast;
      Login.Navigate "/dashboard"]) /\
  (~ (Login.email s = "admin@gmail.com" /\ Login.password s = "admin123") ->
   snd (login_session s edits)
   = [Login.PreventDefault; Login.SetTimeout 500;
      Login.ShowToast Login.login_failed_toast]) /\
  Login.isLoading (fold_left apply_login_edit edits (fst (Login.handleLogin s))) = true /\
  Login.isLoading (fst (login_session s edits)) = false /\
  Login.email (fst (login_session s edits))
  = Login.email (fold_left apply_login_edit edits s) /\
  Login.password (fst (login_session s edits))
  = Login.password (fold_left apply_login_edit edits s).
Proof.
  unfold login_session, Login.loginTimer, Login.handleLogin. simpl.
  split; [|split; [|split; [|split; [|split]]]].
  - intros [He Hp]. rewrite He, Hp. reflexivity.
  - intros Hno.
    destruct (String.eqb (Login.email s) "admin@gmail.com") eqn:He; [|reflexivity].
    destruct (String.eqb (Login.password s) "admin123") eqn:Hp; [|reflexivity].
    apply String.eqb_eq in He, Hp. exfalso. apply Hno. split; assumption.
  - rewrite LoginFacts.edits_keep_loading. reflexivity.
  - reflexivity.
  - apply (proj1 (LoginFacts.edits_after_submit edits s)).
  - apply (proj2 (LoginFacts.edits_after_submit edits s)).
Qed.
